(** * subprocess.cpp: a shallow embedding of the composition engine

    The development follows [subprocess.h] / [subprocess.cpp]:
    - [Streams], [StreamFlags], [check_stream], [check_streams];
    - the node hierarchy ([Exec], [Pipe], [Or], [And], [Read], [Echo],
      [True], [False], [File]) as one inductive type, [get_flags] and
      [start] as functions by cases on it;
    - the handles ([RunExec], [RunThread], [RunEmpty], [RunPipe]) with
      [get_streams] and [wait];
    - the operating system (descriptor table, pipes, files, child
      processes, worker threads) as an explicit state, threaded through
      [start] and [wait] by a small state-and-exception monad.

    C++ [int] is [Z]; the only integer operations of the source are the
    bit operations on capability flags and statuses and the comparisons
    with the [Streams] constants, none of which can overflow. *)

From Stdlib Require Import ZArith String Ascii List Bool Lia.
From stdpp Require Import base option list sorting gmap strings.

Local Open Scope Z_scope.

(** ** Constants of the host system (Linux values) *)

Definition EBADF : Z := 9.
Definition EAGAIN : Z := 11.
Definition EINVAL : Z := 22.
Definition EMFILE : Z := 24.
Definition ENOENT : Z := 2.

Definition O_RDONLY : Z := 0.
Definition O_WRONLY : Z := 1.
Definition O_RDWR : Z := 2.
Definition O_ACCMODE : Z := 3.
Definition O_CREAT : Z := 64.
Definition O_TRUNC : Z := 512.
Definition O_APPEND : Z := 1024.
Definition O_CLOEXEC : Z := 524288.

Definition STDIN_FILENO : Z := 0.
Definition STDOUT_FILENO : Z := 1.
Definition STDERR_FILENO : Z := 2.

(** C truth value of an [int], and the [int] of a C++ [bool]. *)
Definition truthy (x : Z) : bool := negb (x =? 0).
Definition lnot (x : Z) : bool := x =? 0.
Definition of_bool (b : bool) : Z := if b then 1 else 0.

(** ** struct Streams, struct StreamFlags *)

Module Streams.
Definition None : Z := -1.
Definition New : Z := -2.
Record t : Type := mk { in_ : Z; out : Z; err : Z }.
(** The default member initialisers: [{}]. *)
Definition empty : t := mk None None None.
End Streams.

Module StreamFlags.
Definition Ignore : Z := 1.
Definition Create : Z := 2.
Definition Accept : Z := 4.
Record t : Type := mk { in_ : Z; out : Z; err : Z }.
Definition empty : t := mk Ignore Ignore Ignore.
End StreamFlags.

(** ** Arguments and nodes *)

Inductive Gettable : Type :=
  | GettableString (value : string)
  | GettableVariable (name : string).

Module File.
Definition Read : Z := 1.
Definition Write : Z := 2.
Definition Append : Z := 4.
End File.

(** [true_] and [false_] are the classes [True] and [False] of the source
    (the names of its two static instances are used). *)
Inductive Subprocess : Type :=
  | Exec (argv : list Gettable)
  | Pipe (lhs rhs : Subprocess)
  | Or (lhs rhs : Subprocess)
  | And (lhs rhs : Subprocess)
  | Read (name : string)
  | Echo (var : list Gettable)
  | true_
  | false_
  | File (path : Gettable) (mode : Z).

(** [get_flags], one case per override; [Or], [And], [True] and [False]
    inherit [Subprocess::get_flags]. *)
Fixpoint get_flags (p : Subprocess) : StreamFlags.t :=
  match p with
  | Exec _ =>
      let all := Z.lor (Z.lor StreamFlags.Create StreamFlags.Accept) StreamFlags.Ignore in
      StreamFlags.mk all all all
  | Pipe lhs rhs =>
      StreamFlags.mk (StreamFlags.in_ (get_flags lhs))
                     (StreamFlags.out (get_flags rhs))
                     (StreamFlags.out (get_flags rhs))
  | Read _ =>
      StreamFlags.mk (Z.lor StreamFlags.Create StreamFlags.Accept)
                     StreamFlags.Ignore StreamFlags.Ignore
  | Echo _ =>
      StreamFlags.mk StreamFlags.Ignore
                     (Z.lor StreamFlags.Create StreamFlags.Accept)
                     StreamFlags.Ignore
  | File _ mode =>
      StreamFlags.mk
        (if truthy (Z.land mode File.Write) then StreamFlags.Create else StreamFlags.Ignore)
        (if truthy (Z.land mode File.Read) then StreamFlags.Create else StreamFlags.Ignore)
        StreamFlags.Ignore
  | Or _ _ | And _ _ | true_ | false_ => StreamFlags.empty
  end.

Definition check_stream (stream flag : Z) : bool :=
  ((stream =? Streams.None) && truthy (Z.land flag StreamFlags.Ignore))
  || ((stream =? Streams.New) && truthy (Z.land flag StreamFlags.Create))
  || ((0 <=? stream) && truthy (Z.land flag StreamFlags.Accept)).

(** ** Exceptions *)

Inductive exn : Type :=
  | invalid_argument (what : string)
  | system_error (code : Z)
  | out_of_range.

(** [check_streams] as the first failing message, if any. *)
Definition check_streams (p : Subprocess) (streams : Streams.t) : option exn :=
  let flags := get_flags p in
  if negb (check_stream (Streams.in_ streams) (StreamFlags.in_ flags)) then
    Some (invalid_argument "Wrong file descriptor option for stdin")
  else if negb (check_stream (Streams.out streams) (StreamFlags.out flags)) then
    Some (invalid_argument "Wrong file descriptor option for stdout")
  else if negb (check_stream (Streams.err streams) (StreamFlags.err flags)) then
    Some (invalid_argument "Wrong file descriptor option for stderr")
  else None.

(** ** Environment *)

(** [std::map<string, std::pair<string, bool>>]: name to (value, exported). *)
Abbreviation Environment := (gmap string (string * bool)).

(** The order in which a [std::map] is iterated: by key. *)
Definition key_le (a b : string * (string * bool)) : Prop :=
  Is_true (String.leb (fst a) (fst b)).

#[global] Instance key_le_dec : RelDecision key_le.
Proof. intros a b. unfold key_le. apply _. Defined.

Definition elements (env : Environment) : list (string * (string * bool)) :=
  merge_sort key_le (map_to_list env).

(** [Environment::envp]: the strings pushed into the block, without the
    terminating null pointer.  The loop pushes [el.second.first] for
    every [el] with [el.second.second]. *)
Definition envp (env : Environment) : list string :=
  omap (fun el : string * (string * bool) =>
          if snd (snd el) then Some (fst (snd el)) else None)
       (elements env).

(** [strchr(entry, '=')]: the text before and after the first '='. *)
Fixpoint split_eq (entry : string) : option (string * string) :=
  match entry with
  | EmptyString => None
  | String c rest =>
      if Ascii.eqb c "="%char then Some (EmptyString, rest)
      else match split_eq rest with
           | Some (name, value) => Some (String c name, value)
           | None => None
           end
  end.

(** [Environment::Environment(char **list)]: every entry [NAME=VALUE]
    is emplaced as exported; [emplace] keeps an entry that is already
    there.  For an entry without '=' [strchr] returns a null pointer,
    from which the source computes the length of the name and reads the
    value: the behaviour is undefined and no [Environment] is made
    ([None]). *)
Fixpoint Environment_of (list : list string) (env : Environment) : option Environment :=
  match list with
  | [] => Some env
  | entry :: list' =>
      match split_eq entry with
      | Some (name, value) =>
          Environment_of list'
            match env !! name with
            | Some _ => env
            | None => <[name := (value, true)]> env
            end
      | None => None
      end
  end.

(** [Gettable::get]; [std::map::at] throws [std::out_of_range]. *)
Definition get (g : Gettable) (env : Environment) : exn + string :=
  match g with
  | GettableString value => inr value
  | GettableVariable name =>
      match env !! name with
      | Some el => inr (fst el)
      | None => inl out_of_range
      end
  end.

(** All arguments in order; the first failing lookup wins. *)
Fixpoint get_all (gs : list Gettable) (env : Environment) : exn + list string :=
  match gs with
  | [] => inr []
  | g :: gs' =>
      match get g env with
      | inl e => inl e
      | inr s =>
          match get_all gs' env with
          | inl e => inl e
          | inr ss => inr (s :: ss)
          end
      end
  end.

(** ** The operating system *)

(** What a descriptor refers to: an end of an anonymous pipe, an open
    regular file with the flags it was opened with and its position, or
    the null device with the flags it was opened with. *)
Inductive fdobj : Type :=
  | PipeR (p : nat)
  | PipeW (p : nat)
  | FileD (path : string) (flags : Z) (pos : nat)
  | NullD (flags : Z).

(** What [open(path, flags)] finds at a path: a regular file, or a name
    under which one can be created, whose content is in [w_files];
    the null device ([dev::null]), which keeps nothing of what is written
    to it and is always at its end when read; or nothing that can be
    opened this way, [open] failing with the given [errno] (a missing or
    unsearchable directory, a file the process may not open with these
    flags, a directory opened for writing, ...).  Other kinds of file
    (terminals, FIFOs, sockets, [dev::zero]) are not modelled. *)
Inductive path_kind : Type :=
  | Regular
  | CharNull
  | NoAccess (errno : Z).

(** A pipe: the bytes written and not yet read, and the number of holders
    of its write end.  A reader sees end-of-stream when the buffer is
    empty and no writer is left. *)
Record pipe : Type := mkpipe { p_buf : string; p_writers : nat }.

(** A forked child: the argument vector it resolved ([None] when a
    variable lookup threw in the child), the block it passed to
    [execvpe], what its descriptors 0, 1 and 2 refer to, and whether it
    has been waited for. *)
Record Proc : Type := mkProc {
  pr_argv : option (list string);
  pr_envp : list string;
  pr_stdin : option fdobj;
  pr_stdout : option fdobj;
  pr_stderr : option fdobj;
  pr_reaped : bool
}.

(** The state [start] and [wait] act on.  [w_env] is the [Environment]
    object of the run, which every node shares by reference.  [w_fds] is
    the descriptor table of this process (index = descriptor).  Children
    are kept in fork order, pid = index + 1; threads in creation order,
    with whether each has been joined.  [w_program] says what the
    program found by [execvpe] for an argument vector and block writes
    to its standard output and exits with, given its standard input
    ([execvpe] failing is the program that writes nothing and exits with
    [errno]); [w_stray] is the same for a child whose argument lookup
    threw before [execvpe].  [w_kind] is what a path names for [open]
    with given flags.  [w_stops] holds, for each child (by index), the
    signals that are still to stop it before it exits: a stop comes from
    outside the program (a terminal, another process), and whoever stops
    a child is taken to continue it. *)
Record World : Type := mkWorld {
  w_env : Environment;
  w_fds : list (option fdobj);
  w_pipes : list pipe;
  w_files : gmap string string;
  w_procs : list Proc;
  w_threads : list bool;
  w_nofile : nat;
  w_nproc : nat;
  w_program : list string -> list string -> string -> string * Z;
  w_stray : string * Z;
  w_kind : string -> Z -> path_kind;
  w_stops : nat -> list Z
}.

Definition set_env (f : Environment -> Environment) (w : World) : World :=
  mkWorld (f (w_env w)) (w_fds w) (w_pipes w) (w_files w) (w_procs w)
          (w_threads w) (w_nofile w) (w_nproc w) (w_program w) (w_stray w) (w_kind w) (w_stops w).
Definition set_fds (f : list (option fdobj) -> list (option fdobj)) (w : World) : World :=
  mkWorld (w_env w) (f (w_fds w)) (w_pipes w) (w_files w) (w_procs w)
          (w_threads w) (w_nofile w) (w_nproc w) (w_program w) (w_stray w) (w_kind w) (w_stops w).
Definition set_pipes (f : list pipe -> list pipe) (w : World) : World :=
  mkWorld (w_env w) (w_fds w) (f (w_pipes w)) (w_files w) (w_procs w)
          (w_threads w) (w_nofile w) (w_nproc w) (w_program w) (w_stray w) (w_kind w) (w_stops w).
Definition set_files (f : gmap string string -> gmap string string) (w : World) : World :=
  mkWorld (w_env w) (w_fds w) (w_pipes w) (f (w_files w)) (w_procs w)
          (w_threads w) (w_nofile w) (w_nproc w) (w_program w) (w_stray w) (w_kind w) (w_stops w).
Definition set_procs (f : list Proc -> list Proc) (w : World) : World :=
  mkWorld (w_env w) (w_fds w) (w_pipes w) (w_files w) (f (w_procs w))
          (w_threads w) (w_nofile w) (w_nproc w) (w_program w) (w_stray w) (w_kind w) (w_stops w).
Definition set_threads (f : list bool -> list bool) (w : World) : World :=
  mkWorld (w_env w) (w_fds w) (w_pipes w) (w_files w) (w_procs w)
          (f (w_threads w)) (w_nofile w) (w_nproc w) (w_program w) (w_stray w) (w_kind w) (w_stops w).
Definition set_stops (f : (nat -> list Z) -> nat -> list Z) (w : World) : World :=
  mkWorld (w_env w) (w_fds w) (w_pipes w) (w_files w) (w_procs w)
          (w_threads w) (w_nofile w) (w_nproc w) (w_program w) (w_stray w) (w_kind w)
          (f (w_stops w)).

(** ** Results and the monad *)

(** [Ok]: returned normally.  [Throw]: left by an exception.
    [Terminate]: [std::terminate] (an exception left a thread function).
    [Blocked]: a blocking call that nothing in the state can wake. *)
Inductive res (A : Type) : Type :=
  | Ok (a : A) (w : World)
  | Throw (e : exn) (w : World)
  | Terminate (w : World)
  | Blocked (w : World).
Arguments Ok {A} a w.
Arguments Throw {A} e w.
Arguments Terminate {A} w.
Arguments Blocked {A} w.

Definition M (A : Type) : Type := World -> res A.

Definition ret {A} (a : A) : M A := fun w => Ok a w.
Definition throw {A} (e : exn) : M A := fun w => Throw e w.
Definition bind {A B} (m : M A) (k : A -> M B) : M B :=
  fun w =>
    match m w with
    | Ok a w' => k a w'
    | Throw e w' => Throw e w'
    | Terminate w' => Terminate w'
    | Blocked w' => Blocked w'
    end.
Definition gets {A} (f : World -> A) : M A := fun w => Ok (f w) w.
Definition modify (f : World -> World) : M unit := fun w => Ok tt (f w).

#[global] Instance M_ret : MRet M := @ret.
#[global] Instance M_bind : MBind M := fun A B k m => bind m k.
#[global] Instance M_fmap : FMap M := fun A B f m => bind m (fun a => ret (f a)).

(** [check_streams] as a statement: throws, or falls through. *)
Definition do_check_streams (p : Subprocess) (streams : Streams.t) : M unit :=
  match check_streams p streams with
  | Some e => throw e
  | None => ret tt
  end.

(** C++ [a && b] and [a || b] on operands with effects. *)
Definition andM (a b : M bool) : M bool := x ← a; if (x : bool) then b else ret false.
Definition orM (a b : M bool) : M bool := x ← a; if (x : bool) then ret true else b.

(** ** Strings *)

Fixpoint take_str (n : nat) (s : string) : string :=
  match n, s with
  | S n', String c s' => String c (take_str n' s')
  | _, _ => EmptyString
  end.
Fixpoint drop_str (n : nat) (s : string) : string :=
  match n, s with
  | S n', String c s' => drop_str n' s'
  | _, _ => s
  end.
Definition newline : ascii := "010"%char.
Definition nl : string := String newline EmptyString.

(** ** Descriptor table *)

Definition fd_lookup (t : list (option fdobj)) (fd : Z) : option fdobj :=
  if fd <? 0 then None else mjoin (t !! Z.to_nat fd).

Fixpoint lowest_free (t : list (option fdobj)) : nat :=
  match t with
  | Some _ :: t' => S (lowest_free t')
  | _ => O
  end.

Fixpoint nopen (t : list (option fdobj)) : nat :=
  match t with
  | [] => O
  | Some _ :: t' => S (nopen t')
  | None :: t' => nopen t'
  end.

Definition fd_set (n : nat) (o : option fdobj) (t : list (option fdobj)) : list (option fdobj) :=
  if (n <? length t)%nat then <[n := o]> t else t ++ [o].

(** Install an object at the lowest free descriptor. *)
Definition fd_alloc (o : fdobj) : M Z :=
  fun w =>
    let n := lowest_free (w_fds w) in
    Ok (Z.of_nat n) (set_fds (fd_set n (Some o)) w).

Definition drop_writer (p : nat) (w : World) : World :=
  set_pipes (alter (fun q => mkpipe (p_buf q) (pred (p_writers q))) p) w.
Definition add_writer (p : nat) (w : World) : World :=
  set_pipes (alter (fun q => mkpipe (p_buf q) (S (p_writers q))) p) w.

(** [close(2)]: 0, or -1 on a descriptor that is not open. *)
Definition sys_close (fd : Z) : M Z :=
  fun w =>
    match fd_lookup (w_fds w) fd with
    | None => Ok (-1) w
    | Some o =>
        let w1 := set_fds (fd_set (Z.to_nat fd) None) w in
        Ok 0 (match o with PipeW p => drop_writer p w1 | _ => w1 end)
    end.

(** [pipe2(fds, O_CLOEXEC)]: the two descriptors (read end, write end),
    or [errno]. *)
Definition sys_pipe2 : M (Z + Z * Z) :=
  fun w =>
    if (w_nofile w <? nopen (w_fds w) + 2)%nat then Ok (inl EMFILE) w
    else
      let p := length (w_pipes w) in
      let w1 := set_pipes (fun ps => ps ++ [mkpipe EmptyString 1]) w in
      (r ← fd_alloc (PipeR p); wr ← fd_alloc (PipeW p); ret (inr (r, wr))) w1.

Definition acc_mode (flags : Z) : Z := Z.land flags O_ACCMODE.

(** [open(path, flags, mode)]: the descriptor, or [errno].  A regular
    file that does not exist is created when [O_CREAT] is set. *)
Definition sys_open (path : string) (flags : Z) : M (Z + Z) :=
  fun w =>
    if (w_nofile w <? nopen (w_fds w) + 1)%nat then Ok (inl EMFILE) w
    else
      match w_kind w path flags with
      | NoAccess errno => Ok (inl errno) w
      | CharNull => (fd ← fd_alloc (NullD flags); ret (inr fd)) w
      | Regular =>
          match w_files w !! path, truthy (Z.land flags O_CREAT) with
          | None, false => Ok (inl ENOENT) w
          | old, _ =>
              let content :=
                if truthy (Z.land flags O_TRUNC) && negb (acc_mode flags =? O_RDONLY)
                then EmptyString else default EmptyString old in
              let w1 := set_files (<[path := content]>) w in
              (fd ← fd_alloc (FileD path flags O); ret (inr fd)) w1
          end
      end.

Definition file_write (path : string) (flags : Z) (pos : nat) (data : string)
    (files : gmap string string) : gmap string string * nat :=
  let content := default EmptyString (files !! path) in
  let at_ := if truthy (Z.land flags O_APPEND) then String.length content else pos in
  (<[path := take_str at_ content +:+ data +:+ drop_str (at_ + String.length data) content]> files,
   (at_ + String.length data)%nat).

(** [write(fd, data, size)] on a blocking descriptor: everything is
    written (pipes are taken to have room); the count, or [errno]. *)
Definition sys_write (fd : Z) (data : string) : M (Z + Z) :=
  fun w =>
    match fd_lookup (w_fds w) fd with
    | Some (PipeW p) =>
        match w_pipes w !! p with
        | Some q =>
            Ok (inr (Z.of_nat (String.length data)))
               (set_pipes (<[p := mkpipe (p_buf q +:+ data) (p_writers q)]>) w)
        | None => Ok (inl EBADF) w
        end
    | Some (FileD path flags pos) =>
        if acc_mode flags =? O_RDONLY then Ok (inl EBADF) w
        else
          let '(files, pos') := file_write path flags pos data (w_files w) in
          Ok (inr (Z.of_nat (String.length data)))
             (set_fds (fd_set (Z.to_nat fd) (Some (FileD path flags pos')))
                (set_files (fun _ => files) w))
    | Some (NullD flags) =>
        if acc_mode flags =? O_RDONLY then Ok (inl EBADF) w
        else Ok (inr (Z.of_nat (String.length data))) w
    | _ => Ok (inl EBADF) w
    end.

(** [read(fd, buffer, bufsz)]: the bytes read (none at end of stream), or
    [errno]. *)
Definition sys_read (fd : Z) (bufsz : nat) : M (Z + string) :=
  fun w =>
    match fd_lookup (w_fds w) fd with
    | Some (PipeR p) =>
        match w_pipes w !! p with
        | Some q =>
            match p_buf q, p_writers q with
            | EmptyString, O => Ok (inr EmptyString) w
            | EmptyString, S _ => Blocked w
            | buf, _ =>
                Ok (inr (take_str bufsz buf))
                   (set_pipes (<[p := mkpipe (drop_str bufsz buf) (p_writers q)]>) w)
            end
        | None => Ok (inl EBADF) w
        end
    | Some (FileD path flags pos) =>
        if acc_mode flags =? O_WRONLY then Ok (inl EBADF) w
        else
          let chunk := take_str bufsz (drop_str pos (default EmptyString (w_files w !! path))) in
          Ok (inr chunk)
             (set_fds (fd_set (Z.to_nat fd)
                         (Some (FileD path flags (pos + String.length chunk)))) w)
    | Some (NullD flags) =>
        if acc_mode flags =? O_WRONLY then Ok (inl EBADF) w
        else Ok (inr EmptyString) w
    | _ => Ok (inl EBADF) w
    end.

(** Bytes a reader of [fd] can still get without a writer acting. *)
Definition pending (fd : Z) (w : World) : nat :=
  match fd_lookup (w_fds w) fd with
  | Some (PipeR p) => from_option (fun q => String.length (p_buf q)) O (w_pipes w !! p)
  | Some (FileD path _ pos) => String.length (default EmptyString (w_files w !! path)) - pos
  | _ => O
  end.

(** ** Child processes and worker threads *)

(** What descriptor [slot] of the child refers to after
    [if (fd != Streams::None) dup2(fd, slot)]: a failing [dup2] leaves
    the inherited descriptor in place. *)
Definition child_fd (t : list (option fdobj)) (fd slot : Z) : option fdobj :=
  match (if fd =? Streams.None then None else fd_lookup t fd) with
  | Some o => Some o
  | None => fd_lookup t slot
  end.

Definition hold (o : option fdobj) (w : World) : World :=
  match o with Some (PipeW p) => add_writer p w | _ => w end.
Definition release (o : option fdobj) (w : World) : World :=
  match o with Some (PipeW p) => drop_writer p w | _ => w end.

(** [fork()]: the child's pid in the parent, or -1.  [child] is what the
    child does between [fork] and [execvpe], on its copy of the state. *)
Definition sys_fork (child : World -> Proc) : M Z :=
  fun w =>
    if (w_nproc w <=? length (w_procs w))%nat then Ok (-1) w
    else
      let pr := child w in
      Ok (Z.of_nat (length (w_procs w)) + 1)
         (hold (pr_stdin pr) (hold (pr_stdout pr) (hold (pr_stderr pr)
            (set_procs (fun ps => ps ++ [pr]) w)))).

Definition child_input (o : option fdobj) (w : World) : string * World :=
  match o with
  | Some (PipeR p) =>
      match w_pipes w !! p with
      | Some q => (p_buf q, set_pipes (<[p := mkpipe EmptyString (p_writers q)]>) w)
      | None => (EmptyString, w)
      end
  | Some (FileD path flags pos) =>
      if acc_mode flags =? O_WRONLY then (EmptyString, w)
      else (drop_str pos (default EmptyString (w_files w !! path)), w)
  | _ => (EmptyString, w)
  end.

Definition child_output (o : option fdobj) (data : string) (w : World) : World :=
  match o with
  | Some (PipeW p) =>
      set_pipes (alter (fun q => mkpipe (p_buf q +:+ data) (p_writers q)) p) w
  | Some (FileD path flags pos) =>
      if acc_mode flags =? O_RDONLY then w
      else set_files (fun files => fst (file_write path flags pos data files)) w
  | _ => w
  end.

(** [waitid(P_PID, pid, &siginfo, WEXITED | WSTOPPED)]: [si_status], or
    [None] when the call fails (no such child, or already waited for).
    With [WSTOPPED] the call also returns when the child has been
    stopped by a signal: [si_status] is then the number of the signal,
    the stop is consumed and the child stays a child of the caller.
    Otherwise the child runs here until it exits: it is given the bytes
    its standard input holds, its output is delivered, and the call
    reaps it. *)
Definition sys_waitid (pid : Z) : M (option Z) :=
  fun w =>
    if pid <=? 0 then Ok None w
    else
      let i := Z.to_nat (pid - 1) in
      match w_procs w !! i with
      | Some pr =>
          if pr_reaped pr then Ok None w
          else
          match w_stops w i with
          | sig :: stops =>
              Ok (Some sig)
                 (set_stops (fun f j => if (j =? i)%nat then stops else f j) w)
          | [] =>
            let '(input, w1) := child_input (pr_stdin pr) w in
            let '(output, status) :=
              match pr_argv pr with
              | Some argv => w_program w argv (pr_envp pr) input
              | None => w_stray w
              end in
            let w2 := child_output (pr_stdout pr) output w1 in
            let w3 := release (pr_stdin pr) (release (pr_stdout pr) (release (pr_stderr pr) w2)) in
            Ok (Some status)
               (set_procs (<[i := mkProc (pr_argv pr) (pr_envp pr) (pr_stdin pr)
                                       (pr_stdout pr) (pr_stderr pr) true]>) w3)
          end
      | None => Ok None w
      end.

(** ** Handles *)

(** [RunThread] keeps the thread function next to the identity of its
    [std::thread]; the function yields the final value of [ret], which
    starts at 0.  The source runs the function concurrently with the
    caller.  Here the thread is created by [start] and its function runs
    when the thread is joined, in [wait].  A pipe waits for its left side
    first, so a producer has written and closed its stream before the
    consumer reads it; pipes are taken to have room for what is written.
    A forked child likewise runs when it is waited for. *)
Inductive RunSubprocess : Type :=
  | RunExec (pid : Z) (streams : Streams.t)
  | RunThread (tid : nat) (fun_ : M Z) (streams : Streams.t)
  | RunEmpty (streams : Streams.t) (ret : Z)
  | RunPipe (lhs rhs : RunSubprocess).

Fixpoint get_streams (h : RunSubprocess) : Streams.t :=
  match h with
  | RunExec _ streams => streams
  | RunThread _ _ streams => streams
  | RunEmpty streams _ => streams
  | RunPipe lhs rhs =>
      Streams.mk (Streams.in_ (get_streams lhs))
                 (Streams.out (get_streams rhs))
                 (Streams.err (get_streams rhs))
  end.

(** The state after a thread has been created, and after it has been
    joined. *)
Definition thread_created (w : World) : World := set_threads (fun ts => ts ++ [false]) w.
Definition thread_joined (tid : nat) (w : World) : World := set_threads (<[tid := true]>) w.

(** The [RunThread] constructor: [std::thread(fun, std::ref(ret))]. *)
Definition new_RunThread (fun_ : M Z) (str : Streams.t) : M RunSubprocess :=
  fun w => Ok (RunThread (length (w_threads w)) fun_ str) (thread_created w).

(** [thread.join()]: an exception that leaves the thread function calls
    [std::terminate]; joining a thread twice throws. *)
Definition thread_join (tid : nat) (fun_ : M Z) : M Z :=
  fun w =>
    match w_threads w !! tid with
    | Some false =>
        match fun_ w with
        | Ok r w' => Ok r (thread_joined tid w')
        | Throw _ w' => Terminate w'
        | Terminate w' => Terminate w'
        | Blocked w' => Blocked w'
        end
    | _ => Throw (system_error EINVAL) w
    end.

(** [wait()].  For a pipe, [lhs->wait() | rhs->wait()]: both operands
    are evaluated, here the left one first. *)
Fixpoint wait (h : RunSubprocess) : M Z :=
  match h with
  | RunExec pid _ =>
      r ← sys_waitid pid;
      ret (match r with Some si_status => si_status | None => -1 end)
  | RunThread tid fun_ _ => thread_join tid fun_
  | RunEmpty _ r => ret r
  | RunPipe lhs rhs =>
      a ← wait lhs;
      b ← wait rhs;
      ret (Z.lor a b)
  end.

(** ** Starting a node *)

(** [open_pipe(int &str, int fds[2], bool input)]: the new values of
    [str] and [fds]. *)
Definition open_pipe (str : Z) (fds : Z * Z) (input : bool) : M (Z * (Z * Z)) :=
  if negb (str =? Streams.None) then
    if str =? Streams.New then
      r ← sys_pipe2;
      match r with
      | inl errno => throw (system_error errno)
      | inr fds' => ret (if input then snd fds' else fst fds', fds')
      end
    else ret (str, if input then (str, snd fds) else (fst fds, str))
  else ret (str, fds).

Definition close_pipe (fd : Z) : M unit :=
  if negb (fd =? Streams.None) then sys_close fd;; ret tt else ret tt.

(** [memset(fds, Streams::None, sizeof(fds))], one row. *)
Definition no_fds : Z * Z := (Streams.None, Streams.None).

(** The child branch of [Exec::start], up to [execvpe]. *)
Definition Exec_child (argv : list Gettable) (fds0 fds1 fds2 : Z * Z) (w : World) : Proc :=
  mkProc (match get_all argv (w_env w) with inr c_argv => Some c_argv | inl _ => None end)
         (envp (w_env w))
         (child_fd (w_fds w) (fst fds0) STDIN_FILENO)
         (child_fd (w_fds w) (snd fds1) STDOUT_FILENO)
         (child_fd (w_fds w) (snd fds2) STDERR_FILENO)
         false.

Definition Exec_start (argv : list Gettable) (str : Streams.t) : M RunSubprocess :=
  do_check_streams (Exec argv) str;;
  '(s_in, fds0) ← open_pipe (Streams.in_ str) no_fds true;
  '(s_out, fds1) ← open_pipe (Streams.out str) no_fds false;
  '(s_err, fds2) ← open_pipe (Streams.err str) no_fds false;
  pid ← sys_fork (Exec_child argv fds0 fds1 fds2);
  if pid <? 0 then throw (system_error EAGAIN)
  else
    close_pipe (fst fds0);;
    close_pipe (snd fds1);;
    close_pipe (snd fds2);;
    ret (RunExec pid (Streams.mk s_in s_out s_err)).

(** How a thread function leaves a loop body: by [return], or onwards. *)
Inductive flow : Type := Return | Next.

Definition bufsz : nat := 1000.

(** The read loop of [Read::start]: [inl errno] when it returned with
    [ret = errno], [inr out] when it reached end of stream. *)
Fixpoint read_loop (fuel : nat) (fd : Z) (out : string) : M (Z + string) :=
  match fuel with
  | O => Blocked
  | S fuel' =>
      r ← sys_read fd bufsz;
      match r with
      | inl errno => ret (inl errno)
      | inr EmptyString => ret (inr out)
      | inr buffer => read_loop fuel' fd (out +:+ buffer)
      end
  end.

(** [if (!out.empty() && out.at(out.length() - 1) == '\n')
       out.erase(out.length() - 1);] *)
Definition strip_newline (out : string) : string :=
  if negb (String.length out =? 0)%nat
     && bool_decide (String.get (String.length out - 1) out = Some newline)
  then take_str (String.length out - 1) out else out.

Definition Read_fun (name : string) (fds : Z * Z) : M Z :=
  n ← gets (pending (fst fds));
  r ← read_loop (S n) (fst fds) EmptyString;
  match r with
  | inl errno => ret errno
  | inr out =>
      sys_close (fst fds);;
      modify (set_env (<[name := (strip_newline out, false)]>));;
      ret 0
  end.

(** [Read::start]: the overload for [const Environment &] ([mut = false])
    and the one for [Environment &]. *)
Definition Read_start (name : string) (mut : bool) (str : Streams.t) : M RunSubprocess :=
  if mut then
    do_check_streams (Read name) str;;
    '(s_in, fds) ← open_pipe (Streams.in_ str) no_fds true;
    new_RunThread (Read_fun name fds) (Streams.mk s_in (Streams.out str) (Streams.err str))
  else throw (invalid_argument "Can't create variable in const Environment").

(** The inner [while (true)] of [Echo::start] for one argument; [last]
    is [++i == var.size()].  The [ret] assigned on these paths is the
    loop's own [ssize_t ret], so the thread's [ret] stays 0. *)
Fixpoint echo_write (fuel : nat) (fd : Z) (str : string) (count : nat) (last : bool) : M flow :=
  match fuel with
  | O => Blocked
  | S fuel' =>
      r ← sys_write fd (drop_str count str);
      match r with
      | inl _ => ret Return
      | inr n =>
          let count' := (count + Z.to_nat n)%nat in
          if (count' =? String.length str)%nat then
            b ← andM (ret (negb last))
                     (r' ← sys_write fd " "; ret (match r' with inl _ => true | inr _ => false end));
            if (b : bool) then ret Return else ret Next
          else echo_write fuel' fd str count' last
      end
  end.

(** [for (const auto &gt : var)], with [i] the arguments written so far. *)
Fixpoint echo_loop (var : list Gettable) (i size : nat) (fd : Z) : M flow :=
  match var with
  | [] => ret Next
  | gt :: var' =>
      env ← gets w_env;
      match get gt env with
      | inl e => throw e
      | inr str =>
          f ← echo_write (S (String.length str)) fd str 0 (S i =? size)%nat;
          match f with
          | Return => ret Return
          | Next => echo_loop var' (S i) size fd
          end
      end
  end.

Definition Echo_fun (var : list Gettable) (fds : Z * Z) : M Z :=
  f ← echo_loop var 0 (length var) (snd fds);
  match f with
  | Return => ret 0
  | Next =>
      r ← sys_write (snd fds) nl;
      sys_close (snd fds);;
      ret (match r with inl errno => errno | inr _ => 0 end)
  end.

Definition Echo_start (var : list Gettable) (str : Streams.t) : M RunSubprocess :=
  do_check_streams (Echo var) str;;
  '(s_out, fds) ← open_pipe (Streams.out str) no_fds false;
  new_RunThread (Echo_fun var fds) (Streams.mk (Streams.in_ str) s_out (Streams.err str)).

Definition True_start (str : Streams.t) : M RunSubprocess :=
  do_check_streams true_ str;; ret (RunEmpty Streams.empty 0).

Definition False_start (str : Streams.t) : M RunSubprocess :=
  do_check_streams false_ str;; ret (RunEmpty Streams.empty (-1)).

Definition File_flags (mode : Z) : Z :=
  let flags := Z.lor O_CLOEXEC O_CREAT in
  if truthy (Z.land mode File.Read) && truthy (Z.land mode File.Write) then
    Z.lor flags (Z.lor O_RDWR (if truthy (Z.land mode File.Append) then O_APPEND else 0))
  else if truthy (Z.land mode File.Write) then
    Z.lor flags (Z.lor O_WRONLY (if truthy (Z.land mode File.Append) then O_APPEND else O_TRUNC))
  else if truthy (Z.land mode File.Read) then
    Z.lor flags O_RDONLY
  else flags.

Definition File_start (path : Gettable) (mode : Z) (str : Streams.t) : M RunSubprocess :=
  do_check_streams (File path mode) str;;
  env ← gets w_env;
  match get path env with
  | inl e => throw e
  | inr name =>
      r ← sys_open name (File_flags mode);
      match r with
      | inl errno => throw (system_error errno)
      | inr fd =>
          ret (RunEmpty
                 (Streams.mk (if truthy (Z.land mode File.Write) then fd else Streams.None)
                             (if truthy (Z.land mode File.Read) then fd else Streams.None)
                             Streams.None)
                 0)
      end
  end.

(** [start(Streams, env)].  [mut] tells which overload the static type of
    [env] selects: [Environment &] ([true]) or [const Environment &].
    Only [Read] distinguishes them; [Pipe], [Or] and [And] pass the
    reference on with its type.  Inside the thread functions
    [run(lhs, env)] is [lhs->start({}, env)->wait()]. *)
Fixpoint start (p : Subprocess) (mut : bool) (str : Streams.t) : M RunSubprocess :=
  match p with
  | Exec argv => Exec_start argv str
  | Pipe lhs rhs =>
      do_check_streams p str;;
      let lhs_f := get_flags lhs in
      let rhs_f := get_flags rhs in
      if truthy (Z.land (StreamFlags.out lhs_f) StreamFlags.Create)
         && truthy (Z.land (StreamFlags.in_ rhs_f) StreamFlags.Accept) then
        lhs_p ← start lhs mut (Streams.mk (Streams.in_ str) Streams.New Streams.None);
        rhs_p ← start rhs mut (Streams.mk (Streams.out (get_streams lhs_p)) (Streams.out str) Streams.None);
        ret (RunPipe lhs_p rhs_p)
      else if truthy (Z.land (StreamFlags.out lhs_f) StreamFlags.Accept)
              && truthy (Z.land (StreamFlags.in_ rhs_f) StreamFlags.Create) then
        rhs_p ← start rhs mut (Streams.mk Streams.New (Streams.out str) Streams.None);
        lhs_p ← start lhs mut (Streams.mk (Streams.in_ str) (Streams.in_ (get_streams rhs_p)) Streams.None);
        ret (RunPipe lhs_p rhs_p)
      else throw (invalid_argument "Invalid pipe connection attempt")
  | Or lhs rhs =>
      do_check_streams p str;;
      new_RunThread
        (b ← orM (lnot <$> (h ← start lhs mut Streams.empty; wait h))
                 (lnot <$> (h ← start rhs mut Streams.empty; wait h));
         ret (of_bool (negb b)))
        str
  | And lhs rhs =>
      do_check_streams p str;;
      new_RunThread
        (b ← andM (lnot <$> (h ← start lhs mut Streams.empty; wait h))
                  (lnot <$> (h ← start rhs mut Streams.empty; wait h));
         ret (of_bool (negb b)))
        str
  | Read name => Read_start name mut str
  | Echo var => Echo_start var str
  | true_ => True_start str
  | false_ => False_start str
  | File path mode => File_start path mode str
  end.

(** [int run(const subprocess &, env)] and [int run(const script &, env)]. *)
Definition run (p : Subprocess) (mut : bool) : M Z :=
  h ← start p mut Streams.empty; wait h.

Fixpoint run_script (scr : list Subprocess) (mut : bool) : M Z :=
  match scr with
  | [] => ret 0
  | sub :: scr' =>
      r ← run sub mut;
      if negb (r =? 0) then ret r else run_script scr' mut
  end.

(** The thread functions of [And::start] and [Or::start]:
    [ret = !(!run(lhs, env) && !run(rhs, env))] and
    [ret = !(!run(lhs, env) || !run(rhs, env))]. *)
Definition And_fun (lhs rhs : Subprocess) (mut : bool) : M Z :=
  b ← andM (lnot <$> run lhs mut) (lnot <$> run rhs mut);
  ret (of_bool (negb b)).

Definition Or_fun (lhs rhs : Subprocess) (mut : bool) : M Z :=
  b ← orM (lnot <$> run lhs mut) (lnot <$> run rhs mut);
  ret (of_bool (negb b)).

(** ** The composition surface *)

(** [open(f, mode)], [read(name)], [echo(...)], [exec(...)] and the
    operators of [subprocess.h].  A node is a value here, so the copies
    the constructors take are the operands themselves. *)
Definition open (f : Gettable) (mode : Z) : Subprocess := File f mode.
Definition read (name : string) : Subprocess := Read name.
Definition echo (args : list Gettable) : Subprocess := Echo args.
Definition exec (args : list Gettable) : Subprocess := Exec args.

(** [lhs | rhs], [lhs || rhs], [lhs && rhs]. *)
Definition op_pipe (lhs rhs : Subprocess) : Subprocess := Pipe lhs rhs.
Definition op_or (lhs rhs : Subprocess) : Subprocess := Or lhs rhs.
Definition op_and (lhs rhs : Subprocess) : Subprocess := And lhs rhs.

(** [lhs >> rhs], [lhs > rhs], [lhs < rhs], [lhs << rhs]. *)
Definition op_append (lhs : Subprocess) (rhs : Gettable) : Subprocess :=
  Pipe lhs (open rhs (Z.lor File.Write File.Append)).
Definition op_truncate (lhs : Subprocess) (rhs : Gettable) : Subprocess :=
  Pipe lhs (open rhs File.Write).
Definition op_from (lhs : Subprocess) (rhs : Gettable) : Subprocess :=
  Pipe (open rhs File.Read) lhs.
Definition op_here (lhs : Subprocess) (rhs : Gettable) : Subprocess :=
  Pipe (echo [rhs]) lhs.

(** ** The vocabulary of the specification *)

(** A capability includes a kind when the kind's bit is set. *)
Definition includes (cap kind : Z) : Prop := Z.land cap kind <> 0.

(** A requested slot is allowed by a capability: unset needs [Ignore],
    to-be-created needs [Create], a bound descriptor needs [Accept]. *)
Definition slot_allowed (stream cap : Z) : Prop :=
  (stream = Streams.None /\ includes cap StreamFlags.Ignore)
  \/ (stream = Streams.New /\ includes cap StreamFlags.Create)
  \/ (0 <= stream /\ includes cap StreamFlags.Accept).

(** The capability set {Create, Accept}. *)
Definition create_accept : Z := Z.lor StreamFlags.Create StreamFlags.Accept.

(** Strings joined by single spaces. *)
Fixpoint space_joined (l : list string) : string :=
  match l with
  | [] => EmptyString
  | [s] => s
  | s :: l' => s +:+ " " +:+ space_joined l'
  end.

(** The values a declared capability takes in the source. *)
Definition declared_cap (cap : Z) : Prop :=
  cap = StreamFlags.Ignore \/ cap = StreamFlags.Create \/ cap = create_accept
  \/ cap = Z.lor create_accept StreamFlags.Ignore.

(** Whether a character occurs in a string. *)
Fixpoint occurs (c : ascii) (s : string) : bool :=
  match s with
  | EmptyString => false
  | String x s' => Ascii.eqb x c || occurs c s'
  end.

(** The state in which descriptor [n] is open on [path] at position
    [pos] and the file holds [content]. *)
Definition with_file (path : string) (flags : Z) (n : nat) (content : string) (pos : nat)
    (w : World) : World :=
  set_fds (fd_set n (Some (FileD path flags pos))) (set_files (<[path := content]>) w).

(** The state in which descriptor [n] is open on the null device. *)
Definition with_null (flags : Z) (n : nat) (w : World) : World :=
  set_fds (fd_set n (Some (NullD flags))) w.

(** ** A concrete machine for the examples *)

(** Three programs: [rev] copies its input, [exit5] exits with status 5,
    [env] prints nothing; any other name is not found. *)
Definition demo_program (argv envp : list string) (input : string) : string * Z :=
  match argv with
  | "rev" :: _ => (input, 0)
  | "exit5" :: _ => (EmptyString, 5)
  | "env" :: _ => (EmptyString, 0)
  | _ => (EmptyString, ENOENT)
  end.

Definition tty : option fdobj := Some (FileD "/dev/tty" O_RDWR 0).

(** The null device, a directory that does not exist, and regular files
    everywhere else. *)
Definition demo_kind (path : string) (flags : Z) : path_kind :=
  if String.eqb path "/dev/null" then CharNull
  else if String.eqb path "/nonexistent-dir/x" then NoAccess ENOENT
  else Regular.

(** Descriptors 0, 1 and 2 on the terminal, an empty [Environment], no
    child ever stopped. *)
Definition demo_world : World :=
  mkWorld ∅ [tty; tty; tty] [] ∅ [] [] 16 8 demo_program (EmptyString, 6)
          demo_kind (fun _ => []).

(** The same machine with the [Environment] made from
    [PATH=/usr/bin] and [HOME=/root], to which a capture has added [tmp]. *)
Definition path_world : World :=
  set_env (fun _ => <["tmp" := ("x", false)]>
                      (default ∅ (Environment_of ["PATH=/usr/bin"; "HOME=/root"] ∅)))
          demo_world.

(** * Properties *)

(** Evaluate the computation on the left of an equation up to its
    outcome, leaving thread functions and states unexpanded. *)
Ltac run_to_head :=
  match goal with
  | |- ?l = _ => let l' := eval hnf in l in change l with l'
  end.

(** ** Capabilities and the stream check *)

Lemma truthy_includes cap kind : truthy (Z.land cap kind) = true <-> includes cap kind.
Proof.
  unfold truthy, includes. rewrite negb_true_iff, Z.eqb_neq. reflexivity.
Qed.

Lemma check_stream_allowed stream cap :
  check_stream stream cap = true <-> slot_allowed stream cap.
Proof.
  unfold check_stream, slot_allowed.
  rewrite !orb_true_iff, !andb_true_iff, !truthy_includes, !Z.eqb_eq, Z.leb_le.
  tauto.
Qed.

Lemma check_streams_None p str :
  check_streams p str = None <->
  slot_allowed (Streams.in_ str) (StreamFlags.in_ (get_flags p))
  /\ slot_allowed (Streams.out str) (StreamFlags.out (get_flags p))
  /\ slot_allowed (Streams.err str) (StreamFlags.err (get_flags p)).
Proof.
  unfold check_streams. rewrite <- !check_stream_allowed.
  destruct (check_stream (Streams.in_ str) _),
           (check_stream (Streams.out str) _),
           (check_stream (Streams.err str) _); simpl;
    intuition discriminate.
Qed.

Lemma check_streams_exn p str e :
  check_streams p str = Some e -> exists what, e = invalid_argument what.
Proof.
  unfold check_streams.
  repeat match goal with |- context [if ?b then _ else _] => destruct b end;
    intros [= <-]; eauto.
Qed.

(** A failing check leaves [start] at once, in the state it was called in. *)
Lemma do_check_streams_throw {A} p str e (k : M A) w :
  check_streams p str = Some e -> (do_check_streams p str;; k) w = Throw e w.
Proof.
  intros H. unfold mbind, M_bind, bind, do_check_streams. rewrite H. reflexivity.
Qed.

Lemma do_check_streams_pass {A} p str (k : M A) w :
  check_streams p str = None -> (do_check_streams p str;; k) w = k w.
Proof.
  intros H. unfold mbind, M_bind, bind, do_check_streams. rewrite H. reflexivity.
Qed.

Lemma start_check_fails p mut str w e :
  check_streams p str = Some e ->
  exists what, start p mut str w = Throw (invalid_argument what) w.
Proof.
  intros H. destruct (check_streams_exn _ _ _ H) as [what ->].
  destruct p; simpl;
    try (exists what; unfold Exec_start, Echo_start, True_start, False_start, File_start;
         apply do_check_streams_throw; exact H).
  unfold Read_start. destruct mut.
  - exists what. apply do_check_streams_throw; exact H.
  - eexists. reflexivity.
Qed.



(** C8, as the source has it.  The capture itself, started on a
    [const Environment &], throws [std::invalid_argument] before anything
    else: the state, the [Environment] included, is the one it was called
    in, and so it is for [run].  A pipe that ends in the capture is
    another matter: [Pipe::start] starts its left side first, so when the
    request passes the pipe's check and the left side can create its
    stdout, the exception leaves [Pipe::start] in the state the left
    side's [start] has produced, with whatever the left side has forked
    or started, and nothing waits for it. *)
Theorem Read_const_Environment_rejection
    (lhs : Subprocess) (name : string) (str : Streams.t) (w : World) :
  let what := "Can't create variable in const Environment" in
  (forall str', start (Read name) false str' w = Throw (invalid_argument what) w)
  /\ run (Read name) false w = Throw (invalid_argument what) w
  /\ (check_streams (Pipe lhs (Read name)) str = None ->
      includes (StreamFlags.out (get_flags lhs)) StreamFlags.Create ->
      forall h w1,
        start lhs false (Streams.mk (Streams.in_ str) Streams.New Streams.None) w = Ok h w1 ->
        start (Pipe lhs (Read name)) false str w = Throw (invalid_argument what) w1).
Proof.
  cbv zeta. split; [intros str'; reflexivity|]. split; [reflexivity|].
  intros Hchk Hcreate h w1 Hlhs.
  apply truthy_includes in Hcreate.
  cbn [start]. rewrite do_check_streams_pass by exact Hchk.
  rewrite Hcreate. cbn [get_flags StreamFlags.in_].
  change (truthy (Z.land (Z.lor StreamFlags.Create StreamFlags.Accept) StreamFlags.Accept))
    with true.
  cbn [andb]. unfold mbind, M_bind, bind. rewrite Hlhs. reflexivity.
Qed.

(** A command piped into the capture: the command has been forked when
    the capture is rejected. *)
Lemma Read_const_Environment_rejection_witness :
  check_streams (Pipe (Exec [GettableString "env"]) (Read "x")) Streams.empty = None
  /\ includes (StreamFlags.out (get_flags (Exec [GettableString "env"]))) StreamFlags.Create
  /\ exists h w1,
       start (Exec [GettableString "env"]) false
             (Streams.mk Streams.None Streams.New Streams.None) demo_world = Ok h w1
       /\ start (Pipe (Exec [GettableString "env"]) (Read "x")) false Streams.empty demo_world
            = Throw (invalid_argument "Can't create variable in const Environment") w1
       /\ length (w_procs w1) = 1%nat.
Proof.
  assert (Hchk : check_streams (Pipe (Exec [GettableString "env"]) (Read "x")) Streams.empty
                 = None) by reflexivity.
  assert (Hcreate : includes (StreamFlags.out (get_flags (Exec [GettableString "env"])))
                             StreamFlags.Create) by (vm_compute; discriminate).
  split; [exact Hchk|]. split; [exact Hcreate|].
  eexists _, _. split; [vm_compute; reflexivity|]. split; [|reflexivity].
  eapply (proj2 (proj2 (Read_const_Environment_rejection (Exec [GettableString "env"]) "x"
                          Streams.empty demo_world)) Hchk Hcreate).
  vm_compute. reflexivity.
Defined.

(** C8 as stated fails for a capture at the end of a pipe, the only place
    where it gets input.  On a [const Environment &], [exec("env") |
    read("x")] is rejected with [std::invalid_argument], but not before
    any process is spawned and not in an unchanged state: the command has
    been forked, and the read end of the pipe made for it is left open. *)
Lemma Read_const_Environment_rejected_after_fork :
  exists what w',
    start (Pipe (Exec [GettableString "env"]) (Read "x")) false Streams.empty demo_world
      = Throw (invalid_argument what) w'
    /\ run (Pipe (Exec [GettableString "env"]) (Read "x")) false demo_world
      = Throw (invalid_argument what) w'
    /\ w_procs demo_world = []
    /\ length (w_procs w') = 1%nat
    /\ nopen (w_fds demo_world) = 3%nat
    /\ nopen (w_fds w') = 4%nat
    /\ w' <> demo_world.
Proof.
  eexists _, _. split; [vm_compute; reflexivity|].
  split; [vm_compute; reflexivity|].
  repeat (split; [reflexivity|]).
  intros H. apply (f_equal (fun x => length (w_procs x))) in H. discriminate H.
Qed.

(** C9, as the source has it.  [Echo::get_flags] declares
    {Create, Accept} on stdout only; stdin and stderr are [Ignore]. *)
Theorem Echo_get_flags (var : list Gettable) :
  get_flags (Echo var) = StreamFlags.mk StreamFlags.Ignore create_accept StreamFlags.Ignore.
Proof. reflexivity. Qed.

(** C9 as stated fails: the stderr capability of an echo is not
    {Create, Accept}; it includes neither kind. *)
Lemma Echo_stderr_not_create_accept :
  ~ (StreamFlags.out (get_flags (Echo [GettableString "text"])) = create_accept
     /\ StreamFlags.err (get_flags (Echo [GettableString "text"])) = create_accept
     /\ StreamFlags.in_ (get_flags (Echo [GettableString "text"])) = StreamFlags.Ignore).
Proof. intros (_ & H & _). vm_compute in H. discriminate. Qed.

(** ** Pipes *)

Lemma lor_zero_iff a b : Z.lor a b = 0 <-> a = 0 /\ b = 0.
Proof. apply Z.lor_eq_0_iff. Qed.

Lemma wait_RunPipe lhs rhs w a w1 b w2 :
  wait lhs w = Ok a w1 -> wait rhs w1 = Ok b w2 ->
  wait (RunPipe lhs rhs) w = Ok (Z.lor a b) w2.
Proof.
  intros Hl Hr. simpl. unfold mbind, M_bind, bind. rewrite Hl, Hr. reflexivity.
Qed.

(** C3.  The handle of a pipe exposes the left child's stdin and the
    right child's stdout and stderr, and its [wait] waits for the left
    child, then for the right child whatever the left status was, and
    returns a status that is zero exactly when both statuses are zero
    (it is their bitwise or). *)
Theorem RunPipe_wait_and_streams (lhs rhs : RunSubprocess) (w w1 w2 : World) (a b : Z) :
  wait lhs w = Ok a w1 ->
  wait rhs w1 = Ok b w2 ->
  get_streams (RunPipe lhs rhs)
    = Streams.mk (Streams.in_ (get_streams lhs))
                 (Streams.out (get_streams rhs))
                 (Streams.err (get_streams rhs))
  /\ exists status,
       wait (RunPipe lhs rhs) w = Ok status w2
       /\ status = Z.lor a b
       /\ (status = 0 <-> a = 0 /\ b = 0).
Proof.
  intros Hl Hr. split; [reflexivity|].
  exists (Z.lor a b). split; [eapply wait_RunPipe; eassumption|].
  split; [reflexivity|apply lor_zero_iff].
Qed.

(** A finished left side and a right side that was never forked. *)
Lemma RunPipe_wait_and_streams_witness :
  let lhs := RunEmpty Streams.empty 0 in
  let rhs := RunExec 1 Streams.empty in
  wait lhs demo_world = Ok 0 demo_world
  /\ wait rhs demo_world = Ok (-1) demo_world
  /\ exists status,
       wait (RunPipe lhs rhs) demo_world = Ok status demo_world
       /\ status = Z.lor 0 (-1)
       /\ (status = 0 <-> 0 = 0 /\ -1 = 0).
Proof.
  cbv zeta. split; [reflexivity|]. split; [reflexivity|].
  exact (proj2 (RunPipe_wait_and_streams (RunEmpty Streams.empty 0) (RunExec 1 Streams.empty)
                  demo_world demo_world demo_world 0 (-1) eq_refl eq_refl)).
Defined.

(** C10.  A pipe declares for stderr what its right child declares for
    stdout, while its handle exposes the right child's stderr stream; the
    declared stderr capability therefore differs from the right child's
    whenever that child's stdout and stderr capabilities differ.  For an
    echo piped into a file opened for reading and writing, the pipe
    declares [Create] on stderr, a request for a to-be-created stderr
    passes the check, and the started handle exposes no stderr at all. *)
Theorem Pipe_stderr_capability_is_rhs_stdout :
  (forall lhs rhs,
      StreamFlags.err (get_flags (Pipe lhs rhs)) = StreamFlags.out (get_flags rhs))
  /\ (forall lhs_p rhs_p,
         Streams.err (get_streams (RunPipe lhs_p rhs_p)) = Streams.err (get_streams rhs_p))
  /\ (forall lhs rhs,
         StreamFlags.out (get_flags rhs) <> StreamFlags.err (get_flags rhs) ->
         StreamFlags.err (get_flags (Pipe lhs rhs)) <> StreamFlags.err (get_flags rhs))
  /\ (let p := Pipe (Echo [GettableString "text"])
                    (File (GettableString "f") (Z.lor File.Read File.Write)) in
      let str := Streams.mk Streams.None Streams.New Streams.New in
      StreamFlags.err (get_flags p) = StreamFlags.Create
      /\ check_streams p str = None
      /\ exists h w',
           start p true str demo_world = Ok h w'
           /\ Streams.err (get_streams h) = Streams.None).
Proof.
  split; [reflexivity|]. split; [reflexivity|].
  split; [intros lhs rhs H; exact H|].
  cbv zeta. split; [reflexivity|]. split; [reflexivity|].
  eexists _, _. split; [run_to_head; reflexivity|reflexivity].
Qed.

(** A command piped into an echo. *)
Lemma Pipe_stderr_capability_is_rhs_stdout_witness :
  StreamFlags.out (get_flags (Echo [])) <> StreamFlags.err (get_flags (Echo []))
  /\ StreamFlags.err (get_flags (Pipe (Exec []) (Echo []))) <> StreamFlags.err (get_flags (Echo [])).
Proof.
  assert (H : StreamFlags.out (get_flags (Echo [])) <> StreamFlags.err (get_flags (Echo [])))
    by (vm_compute; discriminate).
  split; [exact H|].
  exact (proj1 (proj2 (proj2 Pipe_stderr_capability_is_rhs_stdout)) (Exec []) (Echo []) H).
Defined.

(** ** Negotiation *)

(** C4.  Once the requested descriptor has passed the pipe's own check:
    when left can create its output and right can accept its input, left
    is started first with a to-be-created output and right is started
    next with left's resulting output descriptor as its input; otherwise,
    when left can accept its output and right can create its input,
    right is started first with a to-be-created input and left next with
    right's resulting input descriptor as its output; otherwise
    [std::invalid_argument] is thrown in the state [start] was called
    in. *)
Theorem Pipe_start_negotiation (lhs rhs : Subprocess) (mut : bool) (str : Streams.t) :
  check_streams (Pipe lhs rhs) str = None ->
  let lhs_out := StreamFlags.out (get_flags lhs) in
  let rhs_in := StreamFlags.in_ (get_flags rhs) in
  (includes lhs_out StreamFlags.Create /\ includes rhs_in StreamFlags.Accept ->
   start (Pipe lhs rhs) mut str =
     (lhs_p ← start lhs mut (Streams.mk (Streams.in_ str) Streams.New Streams.None);
      rhs_p ← start rhs mut (Streams.mk (Streams.out (get_streams lhs_p))
                                        (Streams.out str) Streams.None);
      ret (RunPipe lhs_p rhs_p)))
  /\ (~ (includes lhs_out StreamFlags.Create /\ includes rhs_in StreamFlags.Accept) ->
      includes lhs_out StreamFlags.Accept /\ includes rhs_in StreamFlags.Create ->
      start (Pipe lhs rhs) mut str =
        (rhs_p ← start rhs mut (Streams.mk Streams.New (Streams.out str) Streams.None);
         lhs_p ← start lhs mut (Streams.mk (Streams.in_ str)
                                           (Streams.in_ (get_streams rhs_p)) Streams.None);
         ret (RunPipe lhs_p rhs_p)))
  /\ (~ (includes lhs_out StreamFlags.Create /\ includes rhs_in StreamFlags.Accept) ->
      ~ (includes lhs_out StreamFlags.Accept /\ includes rhs_in StreamFlags.Create) ->
      forall w,
        start (Pipe lhs rhs) mut str w
          = Throw (invalid_argument "Invalid pipe connection attempt") w).
Proof.
  intros Hchk lhs_out rhs_in. subst lhs_out rhs_in.
  rewrite <- !truthy_includes, <- !andb_true_iff.
  assert (Hstart : forall k : M RunSubprocess,
             (do_check_streams (Pipe lhs rhs) str;; k) = k).
  { intros k. unfold mbind, M_bind, bind, do_check_streams. rewrite Hchk. reflexivity. }
  simpl start. rewrite Hstart.
  destruct (truthy (Z.land (StreamFlags.out (get_flags lhs)) StreamFlags.Create)
            && truthy (Z.land (StreamFlags.in_ (get_flags rhs)) StreamFlags.Accept)) eqn:E1;
    [repeat split; intros; try reflexivity; congruence|].
  destruct (truthy (Z.land (StreamFlags.out (get_flags lhs)) StreamFlags.Accept)
            && truthy (Z.land (StreamFlags.in_ (get_flags rhs)) StreamFlags.Create)) eqn:E2;
    repeat split; intros; try reflexivity; congruence.
Qed.

(** An echo into a capture, an echo into a file, a capture into a
    capture. *)
Lemma Pipe_start_negotiation_witness :
  (let lhs := Echo [GettableString "text"] in
   let rhs := Read "x" in
   check_streams (Pipe lhs rhs) Streams.empty = None
   /\ start (Pipe lhs rhs) true Streams.empty =
        (lhs_p ← start lhs true (Streams.mk Streams.None Streams.New Streams.None);
         rhs_p ← start rhs true (Streams.mk (Streams.out (get_streams lhs_p))
                                            Streams.None Streams.None);
         ret (RunPipe lhs_p rhs_p)))
  /\ (let lhs := Echo [GettableString "text"] in
      let rhs := File (GettableString "f") File.Write in
      check_streams (Pipe lhs rhs) Streams.empty = None
      /\ start (Pipe lhs rhs) true Streams.empty =
           (rhs_p ← start rhs true (Streams.mk Streams.New Streams.None Streams.None);
            lhs_p ← start lhs true (Streams.mk Streams.None
                                               (Streams.in_ (get_streams rhs_p)) Streams.None);
            ret (RunPipe lhs_p rhs_p)))
  /\ (let str := Streams.mk Streams.New Streams.None Streams.None in
      check_streams (Pipe (Read "a") (Read "b")) str = None
      /\ start (Pipe (Read "a") (Read "b")) true str demo_world
           = Throw (invalid_argument "Invalid pipe connection attempt") demo_world).
Proof.
  split; [|split]; cbv zeta.
  - split; [reflexivity|].
    apply (Pipe_start_negotiation (Echo [GettableString "text"]) (Read "x") true
             Streams.empty eq_refl).
    split; unfold includes; vm_compute; discriminate.
  - split; [reflexivity|].
    apply (Pipe_start_negotiation (Echo [GettableString "text"])
             (File (GettableString "f") File.Write) true Streams.empty eq_refl).
    + unfold includes; vm_compute. intros [_ H]. apply H. reflexivity.
    + split; unfold includes; vm_compute; discriminate.
  - split; [reflexivity|].
    apply (Pipe_start_negotiation (Read "a") (Read "b") true
             (Streams.mk Streams.New Streams.None Streams.None) eq_refl).
    + unfold includes; vm_compute. intros [H _]. apply H. reflexivity.
    + unfold includes; vm_compute. intros [H _]. apply H. reflexivity.
Defined.

(** ** Launching a command *)

(** The block holds exactly the values of the exported entries. *)
Lemma envp_values (env : Environment) (s : string) :
  s ∈ envp env <-> exists name, env !! name = Some (s, true).
Proof.
  unfold envp, elements. rewrite list_elem_of_omap. split.
  - intros [[name [value exported]] [Hin Hsome]]. simpl in Hsome.
    destruct exported; [|discriminate]. injection Hsome as <-.
    exists name. apply elem_of_map_to_list.
    rewrite merge_sort_Permutation in Hin. exact Hin.
  - intros [name H]. exists (name, (s, true)). split; [|reflexivity].
    rewrite merge_sort_Permutation. apply elem_of_map_to_list. exact H.
Qed.

(** The child resolves the arguments against the [Environment] as it is
    when [Exec::start] forks. *)
Lemma Exec_child_argv argv fds0 fds1 fds2 w :
  pr_argv (Exec_child argv fds0 fds1 fds2 w)
    = match get_all argv (w_env w) with inr c_argv => Some c_argv | inl _ => None end
  /\ pr_envp (Exec_child argv fds0 fds1 fds2 w) = envp (w_env w).
Proof. split; reflexivity. Qed.

(** Arguments are resolved when the command is launched: a variable
    captured by an earlier line of a script is seen by a later line,
    although the whole script was built before it existed. *)
Lemma Exec_resolves_at_launch :
  exists w',
    run_script [Pipe (Echo [GettableString "v"]) (Read "x");
                Exec [GettableString "env"; GettableVariable "x"]] true demo_world
      = Ok 0 w'
    /\ pr_argv <$> w_procs w' = [Some ["env"; "v"]].
Proof. eexists. split; [vm_compute; reflexivity|reflexivity]. Qed.

(** C5, at the [Environment] made from [PATH=/usr/bin] and [HOME=/root]
    (both exported) to which [tmp] has been added, not exported.  The
    block handed to [execvpe] by a launched command is filtered to the
    exported entries, but its entries are the bare values ["/root"] and
    ["/usr/bin"]: no entry carries the name of its variable, and the
    block is not the list the [Environment] was made from. *)
Theorem Exec_block_drops_names :
  w_env path_world =
    <["tmp" := ("x", false)]>
      (<["HOME" := ("/root", true)]> (<["PATH" := ("/usr/bin", true)]> ∅))
  /\ envp (w_env path_world) = ["/root"; "/usr/bin"]
  /\ exists h w',
       start (Exec [GettableString "env"]) false Streams.empty path_world = Ok h w'
       /\ w_procs w' =
            [mkProc (Some ["env"]) ["/root"; "/usr/bin"] tty tty tty false]
       /\ ["/root"; "/usr/bin"] <> ["HOME=/root"; "PATH=/usr/bin"].
Proof.
  split; [vm_compute; reflexivity|].
  split; [vm_compute; reflexivity|].
  eexists _, _. split; [vm_compute; reflexivity|].
  split; [reflexivity|discriminate].
Qed.

(** ** Short circuit *)

Lemma threads_mark_joined (ts : list bool) :
  <[length ts := true]> (ts ++ [false]) = ts ++ [true].
Proof.
  rewrite insert_app_r_alt by lia. rewrite Nat.sub_diag. reflexivity.
Qed.

Lemma thread_join_created (fun_ : M Z) (w : World) :
  thread_join (length (w_threads w)) fun_ (thread_created w) =
    match fun_ (thread_created w) with
    | Ok r w' => Ok r (thread_joined (length (w_threads w)) w')
    | Throw _ w' => Terminate w'
    | Terminate w' => Terminate w'
    | Blocked w' => Blocked w'
    end.
Proof.
  unfold thread_join, thread_created. simpl.
  rewrite list_lookup_middle by reflexivity. reflexivity.
Qed.

Lemma run_And lhs rhs mut w :
  run (And lhs rhs) mut w
    = thread_join (length (w_threads w)) (And_fun lhs rhs mut) (thread_created w).
Proof. reflexivity. Qed.

Lemma run_Or lhs rhs mut w :
  run (Or lhs rhs) mut w
    = thread_join (length (w_threads w)) (Or_fun lhs rhs mut) (thread_created w).
Proof. reflexivity. Qed.

(** The thread functions, with the short circuit written out: left is run
    to completion, and only then is right run or skipped. *)
Lemma And_fun_unfold lhs rhs mut w :
  And_fun lhs rhs mut w =
    (a ← run lhs mut;
     if a =? 0 then b ← run rhs mut; ret (if b =? 0 then 0 else 1) else ret 1) w.
Proof.
  unfold And_fun, andM, fmap, M_fmap, mbind, M_bind, bind, ret, lnot, of_bool.
  destruct (run lhs mut w) as [a w1| | |]; try reflexivity.
  destruct (a =? 0); [|reflexivity].
  destruct (run rhs mut w1) as [b w2| | |]; try reflexivity.
  destruct (b =? 0); reflexivity.
Qed.

Lemma Or_fun_unfold lhs rhs mut w :
  Or_fun lhs rhs mut w =
    (a ← run lhs mut;
     if a =? 0 then ret 0 else b ← run rhs mut; ret (if b =? 0 then 0 else 1)) w.
Proof.
  unfold Or_fun, orM, fmap, M_fmap, mbind, M_bind, bind, ret, lnot, of_bool.
  destruct (run lhs mut w) as [a w1| | |]; try reflexivity.
  destruct (a =? 0); [reflexivity|].
  destruct (run rhs mut w1) as [b w2| | |]; try reflexivity.
  destruct (b =? 0); reflexivity.
Qed.

(** C1, as the source has it.  The status of [And] and [Or] is a truth
    value, 0 or 1.  With [a] the status of the left child, run in the
    state in which the node's thread exists: for [And], a non-zero [a]
    ends the evaluation in the state left by the left child, with status
    1; a zero [a] lets the right child run, and the status is 0 when the
    right status is 0 and 1 otherwise.  For [Or], a zero [a] ends the
    evaluation in the state left by the left child, with status 0; a
    non-zero [a] lets the right child run, and the status is 0 when the
    right status is 0 and 1 otherwise. *)
Theorem And_Or_status (lhs rhs : Subprocess) (mut : bool) (w w1 : World) (a : Z) :
  run lhs mut (thread_created w) = Ok a w1 ->
  let tid := length (w_threads w) in
  (a <> 0 -> run (And lhs rhs) mut w = Ok 1 (thread_joined tid w1))
  /\ (a = 0 -> forall b w2, run rhs mut w1 = Ok b w2 ->
        run (And lhs rhs) mut w = Ok (if b =? 0 then 0 else 1) (thread_joined tid w2))
  /\ (a = 0 -> run (Or lhs rhs) mut w = Ok a (thread_joined tid w1))
  /\ (a <> 0 -> forall b w2, run rhs mut w1 = Ok b w2 ->
        run (Or lhs rhs) mut w = Ok (if b =? 0 then 0 else 1) (thread_joined tid w2)).
Proof.
  intros Hl tid. subst tid.
  rewrite run_And, run_Or, !thread_join_created, And_fun_unfold, Or_fun_unfold.
  unfold mbind, M_bind, bind. rewrite Hl.
  repeat split.
  - intros Ha. apply Z.eqb_neq in Ha. rewrite Ha. reflexivity.
  - intros -> b w2 Hr. simpl. rewrite Hr. reflexivity.
  - intros ->. reflexivity.
  - intros Ha b w2 Hr. apply Z.eqb_neq in Ha. rewrite Ha, Hr. reflexivity.
Qed.

(** C1 as stated fails.  On the demonstration machine the command
    [exit5] alone has status 5 and [false_] alone has status -1, yet
    [And] with either on the left has status 1. *)
Lemma And_status_is_not_left_status :
  (exists a s w1 w2,
      run (Exec [GettableString "exit5"]) true demo_world = Ok a w1
      /\ run (And (Exec [GettableString "exit5"]) true_) true demo_world = Ok s w2
      /\ a = 5 /\ s = 1 /\ s <> a)
  /\ (exists a s w1 w2,
         run false_ true demo_world = Ok a w1
         /\ run (And false_ true_) true demo_world = Ok s w2
         /\ a = -1 /\ s = 1 /\ s <> a).
Proof.
  split; eexists _, _, _, _; (split; [vm_compute; reflexivity|]);
    (split; [vm_compute; reflexivity|]); repeat split; discriminate.
Qed.

(** A left child that fails ([exit5]) and one that succeeds ([true_]). *)
Lemma And_Or_status_witness :
  (let lhs := Exec [GettableString "exit5"] in
   exists w1,
     run lhs true (thread_created demo_world) = Ok 5 w1
     /\ run (And lhs true_) true demo_world = Ok 1 (thread_joined 0 w1)
     /\ run true_ true w1 = Ok 0 w1
     /\ run (Or lhs true_) true demo_world = Ok 0 (thread_joined 0 w1))
  /\ (let w1 := thread_created demo_world in
      run true_ true (thread_created demo_world) = Ok 0 w1
      /\ run false_ true w1 = Ok (-1) w1
      /\ run (And true_ false_) true demo_world = Ok 1 (thread_joined 0 w1)
      /\ run (Or true_ false_) true demo_world = Ok 0 (thread_joined 0 w1)).
Proof.
  split; cbv zeta.
  - eexists. split; [vm_compute; reflexivity|].
    pose proof (And_Or_status (Exec [GettableString "exit5"]) true_ true demo_world _ 5
                  ltac:(vm_compute; reflexivity)) as (Hand & _ & _ & Hor).
    split; [apply Hand; discriminate|].
    split; [reflexivity|].
    apply (Hor ltac:(discriminate) 0 _ eq_refl).
  - pose proof (And_Or_status true_ false_ true demo_world _ 0 eq_refl)
      as (_ & Hand & Hor & _).
    split; [reflexivity|]. split; [reflexivity|].
    split; [apply (Hand eq_refl (-1) _ eq_refl)|apply (Hor eq_refl)].
Defined.

(** C2.  [And] with [false_] on the left and [Or] with [true_] on the
    left return without starting the right child, whatever it is: the
    final state is the initial one with the node's own thread created and
    joined, so the [Environment], the descriptors, the pipes, the files
    and the children are as they were, and a variable that was absent is
    still absent.  In general the thread function runs the left child to
    completion and only then runs or skips the right child. *)
Theorem short_circuit_never_starts_rhs (X : Subprocess) (mut : bool) (w : World) :
  run (And false_ X) mut w = Ok 1 (set_threads (fun ts => ts ++ [true]) w)
  /\ run (Or true_ X) mut w = Ok 0 (set_threads (fun ts => ts ++ [true]) w)
  /\ (let w' := set_threads (fun ts => ts ++ [true]) w in
      w_env w' = w_env w /\ w_procs w' = w_procs w /\ w_fds w' = w_fds w
      /\ w_pipes w' = w_pipes w /\ w_files w' = w_files w
      /\ w_threads w' = w_threads w ++ [true])
  /\ (forall lhs,
        And_fun lhs X mut w =
          (a ← run lhs mut;
           if a =? 0 then b ← run X mut; ret (if b =? 0 then 0 else 1) else ret 1) w
        /\ Or_fun lhs X mut w =
             (a ← run lhs mut;
              if a =? 0 then ret 0 else b ← run X mut; ret (if b =? 0 then 0 else 1)) w).
Proof.
  assert (Hj : thread_joined (length (w_threads w)) (thread_created w)
               = set_threads (fun ts => ts ++ [true]) w).
  { unfold thread_joined, thread_created, set_threads. simpl.
    rewrite threads_mark_joined. reflexivity. }
  split; [|split; [|split]].
  - rewrite run_And, thread_join_created, And_fun_unfold, <- Hj. reflexivity.
  - rewrite run_Or, thread_join_created, Or_fun_unfold, <- Hj. reflexivity.
  - repeat split; reflexivity.
  - intros lhs. split; [apply And_fun_unfold|apply Or_fun_unfold].
Qed.

(** ** Echo into a capture *)

Lemma append_cons (c : ascii) (s t : string) : String c s +:+ t = String c (s +:+ t).
Proof. reflexivity. Qed.

Lemma append_nil_r (s : string) : s +:+ EmptyString = s.
Proof.
  induction s as [|c s IH]; [reflexivity|]. rewrite append_cons, IH. reflexivity.
Qed.

Lemma append_assoc (a b c : string) : (a +:+ b) +:+ c = a +:+ (b +:+ c).
Proof.
  induction a as [|x a IH]; [reflexivity|]. rewrite !append_cons, IH. reflexivity.
Qed.

Lemma take_drop_str (n : nat) (s : string) : take_str n s +:+ drop_str n s = s.
Proof.
  revert s. induction n as [|n IH]; intros [|c s]; try reflexivity.
  cbn [take_str drop_str]. rewrite append_cons, IH. reflexivity.
Qed.

Lemma drop_str_length (n : nat) (s : string) :
  (String.length (drop_str n s) <= String.length s)%nat.
Proof.
  revert s. induction n as [|n IH]; intros [|c s]; simpl; try lia.
  specialize (IH s). lia.
Qed.

Lemma strip_newline_append (s : string) : strip_newline (s +:+ nl) = s.
Proof.
  unfold strip_newline.
  assert (Hlen : String.length (s +:+ nl) = S (String.length s)).
  { induction s as [|c s IH]; [reflexivity|].
    rewrite append_cons. cbn [String.length]. rewrite IH. reflexivity. }
  assert (Hget : String.get (String.length s) (s +:+ nl) = Some newline).
  { induction s as [|c s IH]; [reflexivity|].
    rewrite append_cons. cbn [String.length String.get]. apply IH.
    rewrite append_cons in Hlen. cbn [String.length] in Hlen. congruence. }
  assert (Htake : take_str (String.length s) (s +:+ nl) = s).
  { clear Hlen Hget. induction s as [|c s IH]; [reflexivity|].
    rewrite append_cons. cbn [String.length take_str]. rewrite IH. reflexivity. }
  rewrite Hlen. cbn [Nat.eqb negb andb Nat.sub]. rewrite Nat.sub_0_r.
  rewrite bool_decide_eq_true_2 by exact Hget. exact Htake.
Qed.

(** The descriptor table. *)

Lemma fd_lookup_nat (t : list (option fdobj)) (n : nat) :
  fd_lookup t (Z.of_nat n) = mjoin (t !! n).
Proof.
  unfold fd_lookup. destruct (Z.of_nat n <? 0) eqn:E; [apply Z.ltb_lt in E; lia|].
  rewrite Nat2Z.id. reflexivity.
Qed.

Lemma lowest_free_le (t : list (option fdobj)) : (lowest_free t <= length t)%nat.
Proof. induction t as [|[o|] t IH]; simpl; lia. Qed.

Lemma lowest_free_is_free (t : list (option fdobj)) : mjoin (t !! lowest_free t) = None.
Proof. induction t as [|[o|] t IH]; simpl; auto. Qed.

Lemma fd_set_lookup_eq (t : list (option fdobj)) (n : nat) (o : option fdobj) :
  (n <= length t)%nat -> fd_set n o t !! n = Some o.
Proof.
  intros Hn. unfold fd_set. destruct (n <? length t)%nat eqn:E.
  - apply Nat.ltb_lt in E. apply list_lookup_insert_eq. exact E.
  - apply Nat.ltb_ge in E. apply list_lookup_middle. lia.
Qed.

Lemma fd_set_lookup_ne (t : list (option fdobj)) (n m : nat) (o : option fdobj) :
  (n <= length t)%nat -> n <> m -> mjoin (fd_set n o t !! m) = mjoin (t !! m).
Proof.
  intros Hn Hne. unfold fd_set. destruct (n <? length t)%nat eqn:E.
  - rewrite list_lookup_insert_ne by exact Hne. reflexivity.
  - apply Nat.ltb_ge in E. assert (n = length t) by lia. subst n.
    destruct (decide (m < length t)%nat) as [Hm|Hm].
    + rewrite lookup_app_l by exact Hm. reflexivity.
    + rewrite !lookup_ge_None_2; [reflexivity|lia|rewrite length_app; simpl; lia].
Qed.

(** [pipe2] when the descriptor limit allows two more. *)
Lemma sys_pipe2_ok (w : World) :
  (nopen (w_fds w) + 2 <= w_nofile w)%nat ->
  let p := length (w_pipes w) in
  let r := lowest_free (w_fds w) in
  let t1 := fd_set r (Some (PipeR p)) (w_fds w) in
  let wr := lowest_free t1 in
  sys_pipe2 w
    = Ok (inr (Z.of_nat r, Z.of_nat wr))
         (set_fds (fun _ => fd_set wr (Some (PipeW p)) t1)
            (set_pipes (fun ps => ps ++ [mkpipe EmptyString 1]) w))
  /\ r <> wr
  /\ mjoin (fd_set wr (Some (PipeW p)) t1 !! r) = Some (PipeR p)
  /\ mjoin (fd_set wr (Some (PipeW p)) t1 !! wr) = Some (PipeW p).
Proof.
  intros Hlim p r t1 wr.
  assert (Hr : mjoin (t1 !! r) = Some (PipeR p)).
  { subst t1. rewrite fd_set_lookup_eq by apply lowest_free_le. reflexivity. }
  assert (Hne : r <> wr).
  { intros Heq. pose proof (lowest_free_is_free t1) as Hfree.
    fold wr in Hfree. rewrite <- Heq, Hr in Hfree. discriminate. }
  split; [|split; [exact Hne|split]].
  - unfold sys_pipe2. destruct (w_nofile w <? nopen (w_fds w) + 2)%nat eqn:E;
      [apply Nat.ltb_lt in E; lia|].
    reflexivity.
  - rewrite fd_set_lookup_ne; [exact Hr|apply lowest_free_le|congruence].
  - rewrite fd_set_lookup_eq by apply lowest_free_le. reflexivity.
Qed.

(** Writing to and reading from a pipe. *)

Lemma set_pipes_insert_twice (p : nat) (a b : pipe) (w : World) :
  set_pipes (<[p := a]>) (set_pipes (<[p := b]>) w) = set_pipes (<[p := a]>) w.
Proof. unfold set_pipes. simpl. rewrite list_insert_insert_eq. reflexivity. Qed.

Lemma pipe_after_insert (p : nat) (a q : pipe) (w : World) :
  w_pipes w !! p = Some q -> w_pipes (set_pipes (<[p := a]>) w) !! p = Some a.
Proof.
  intros H. simpl. apply list_lookup_insert_eq. eapply lookup_lt_Some. exact H.
Qed.

Lemma sys_write_pipe (fd : Z) (p : nat) (buf : string) (k : nat) (data : string) (w : World) :
  fd_lookup (w_fds w) fd = Some (PipeW p) ->
  w_pipes w !! p = Some (mkpipe buf k) ->
  sys_write fd data w
    = Ok (inr (Z.of_nat (String.length data)))
         (set_pipes (<[p := mkpipe (buf +:+ data) k]>) w).
Proof. intros Hfd Hp. unfold sys_write. rewrite Hfd, Hp. reflexivity. Qed.

Lemma echo_write_pipe (fuel : nat) (fd : Z) (p : nat) (buf : string) (k : nat)
    (str : string) (last : bool) (w : World) :
  fd_lookup (w_fds w) fd = Some (PipeW p) ->
  w_pipes w !! p = Some (mkpipe buf k) ->
  echo_write (S fuel) fd str 0 last w
    = Ok Next (set_pipes
                 (<[p := mkpipe (buf +:+ str +:+ (if last then EmptyString else " ")) k]>) w).
Proof.
  intros Hfd Hp. simpl. unfold mbind, M_bind, bind.
  rewrite (sys_write_pipe fd p buf k str w Hfd Hp).
  rewrite Nat2Z.id, Nat.eqb_refl.
  unfold andM, mbind, M_bind, bind, ret. destruct last; simpl.
  - rewrite append_nil_r. reflexivity.
  - erewrite sys_write_pipe; [|exact Hfd|eapply pipe_after_insert; exact Hp].
    rewrite set_pipes_insert_twice, append_assoc. reflexivity.
Qed.

Lemma echo_loop_literals (strs : list string) (i size : nat) (fd : Z) (p : nat)
    (buf : string) (k : nat) (w : World) :
  fd_lookup (w_fds w) fd = Some (PipeW p) ->
  w_pipes w !! p = Some (mkpipe buf k) ->
  size = (i + length strs)%nat ->
  echo_loop (map GettableString strs) i size fd w
    = Ok Next (set_pipes (<[p := mkpipe (buf +:+ space_joined strs) k]>) w).
Proof.
  revert i buf w. induction strs as [|s rest IH]; intros i buf w Hfd Hp Hsize.
  - simpl. rewrite append_nil_r. unfold ret, set_pipes. rewrite list_insert_id by exact Hp.
    destruct w; reflexivity.
  - cbn [map echo_loop get]. unfold mbind at 1, M_bind, bind at 1, gets.
    unfold mbind, M_bind, bind.
    rewrite (echo_write_pipe _ fd p buf k s _ w Hfd Hp).
    erewrite (IH (S i));
      [|exact Hfd|eapply pipe_after_insert; exact Hp|simpl in Hsize; lia].
    rewrite set_pipes_insert_twice. do 3 f_equal.
    destruct rest as [|s' rest].
    + simpl in Hsize. replace (S i =? size)%nat with true
        by (symmetry; apply Nat.eqb_eq; lia).
      simpl. rewrite !append_nil_r. reflexivity.
    + simpl in Hsize. replace (S i =? size)%nat with false
        by (symmetry; apply Nat.eqb_neq; lia).
      cbn [space_joined]. rewrite !append_assoc. reflexivity.
Qed.

Lemma take_str_nonempty (n : nat) (c : ascii) (s : string) :
  exists c' s', take_str (S n) (String c s) = String c' s'.
Proof. simpl. eauto. Qed.

Lemma read_loop_pipe (fuel : nat) (fd : Z) (p : nat) (out buf : string) (w : World) :
  fd_lookup (w_fds w) fd = Some (PipeR p) ->
  w_pipes w !! p = Some (mkpipe buf 0) ->
  (String.length buf < fuel)%nat ->
  exists w',
    read_loop fuel fd out w = Ok (inr (out +:+ buf)) w'
    /\ w_env w' = w_env w.
Proof.
  revert out buf w. induction fuel as [|fuel IH]; intros out buf w Hfd Hp Hlen; [lia|].
  cbn [read_loop]. unfold mbind, M_bind, bind, sys_read. rewrite Hfd, Hp. cbn [p_buf p_writers].
  destruct buf as [|c buf].
  - exists w. rewrite append_nil_r. split; reflexivity.
  - change bufsz with (S 999).
    destruct (take_str_nonempty 999 c buf) as (c' & s' & Htake).
    pose proof (take_drop_str (S 999) (String c buf)) as Htd.
    rewrite Htake in *.
    destruct (IH (out +:+ String c' s') (drop_str (S 999) (String c buf))
                (set_pipes (<[p := mkpipe (drop_str (S 999) (String c buf)) 0]>) w))
      as (w' & Hrun & Henv).
    + exact Hfd.
    + eapply pipe_after_insert. exact Hp.
    + pose proof (drop_str_length 999 buf). cbn [drop_str String.length] in *. lia.
    + exists w'. split; [|exact Henv].
      rewrite Hrun, append_assoc, Htd. reflexivity.
Qed.

Lemma Echo_start_new (var : list Gettable) (w : World) :
  (nopen (w_fds w) + 2 <= w_nofile w)%nat ->
  let p := length (w_pipes w) in
  let r := lowest_free (w_fds w) in
  let t1 := fd_set r (Some (PipeR p)) (w_fds w) in
  let wr := lowest_free t1 in
  start (Echo var) true (Streams.mk Streams.None Streams.New Streams.None) w
    = Ok (RunThread (length (w_threads w)) (Echo_fun var (Z.of_nat r, Z.of_nat wr))
            (Streams.mk Streams.None (Z.of_nat r) Streams.None))
         (thread_created
            (set_fds (fun _ => fd_set wr (Some (PipeW p)) t1)
               (set_pipes (fun ps => ps ++ [mkpipe EmptyString 1]) w))).
Proof.
  intros Hlim p r t1 wr.
  destruct (sys_pipe2_ok w Hlim) as (Hpipe & _).
  cbn [start]. unfold Echo_start.
  rewrite do_check_streams_pass by reflexivity.
  unfold open_pipe. cbn [Streams.out Streams.in_ Streams.err].
  change (negb (Streams.New =? Streams.None)) with true.
  change (Streams.New =? Streams.New) with true. cbv iota.
  unfold mbind, M_bind, bind. rewrite Hpipe. reflexivity.
Qed.

Lemma Read_start_bound (name : string) (fd : nat) (w : World) :
  start (Read name) true (Streams.mk (Z.of_nat fd) Streams.None Streams.None) w
    = Ok (RunThread (length (w_threads w)) (Read_fun name (Z.of_nat fd, Streams.None))
            (Streams.mk (Z.of_nat fd) Streams.None Streams.None))
         (thread_created w).
Proof.
  cbn [start]. unfold Read_start.
  assert (Hchk : check_streams (Read name) (Streams.mk (Z.of_nat fd) Streams.None Streams.None) = None).
  { apply check_streams_None. cbn. unfold slot_allowed, includes.
    split; [right; right; split; [lia|vm_compute; discriminate]|].
    split; left; split; try reflexivity; vm_compute; discriminate. }
  rewrite do_check_streams_pass by exact Hchk.
  unfold open_pipe. cbn [Streams.out Streams.in_ Streams.err].
  assert (H1 : (Z.of_nat fd =? Streams.None) = false) by (apply Z.eqb_neq; unfold Streams.None; lia).
  assert (H2 : (Z.of_nat fd =? Streams.New) = false) by (apply Z.eqb_neq; unfold Streams.New; lia).
  unfold mbind, M_bind, bind. rewrite H1, H2. reflexivity.
Qed.

Lemma sys_close_env (fd : Z) (w : World) :
  exists r w', sys_close fd w = Ok r w' /\ w_env w' = w_env w.
Proof.
  unfold sys_close. destruct (fd_lookup (w_fds w) fd) as [[p|p|path flags pos|dflags]|];
    eexists _, _; split; reflexivity.
Qed.

Lemma Echo_fun_literals (strs : list string) (r wr p : nat) (buf : string) (k : nat) (w : World) :
  r <> wr ->
  mjoin (w_fds w !! r) = Some (PipeR p) ->
  mjoin (w_fds w !! wr) = Some (PipeW p) ->
  w_pipes w !! p = Some (mkpipe buf k) ->
  exists w',
    Echo_fun (map GettableString strs) (Z.of_nat r, Z.of_nat wr) w = Ok 0 w'
    /\ w_env w' = w_env w
    /\ w_threads w' = w_threads w
    /\ mjoin (w_fds w' !! r) = Some (PipeR p)
    /\ w_pipes w' !! p = Some (mkpipe (buf +:+ space_joined strs +:+ nl) (pred k)).
Proof.
  intros Hne Hr Hwr Hp.
  assert (Hfd : fd_lookup (w_fds w) (Z.of_nat wr) = Some (PipeW p))
    by (rewrite fd_lookup_nat; exact Hwr).
  assert (Hlt : (wr < length (w_fds w))%nat).
  { destruct (w_fds w !! wr) eqn:E; [eapply lookup_lt_Some; exact E|discriminate]. }
  unfold Echo_fun, mbind, M_bind, bind. cbn [snd].
  rewrite (echo_loop_literals strs 0 _ _ p buf k w Hfd Hp) by (rewrite length_map; reflexivity).
  erewrite sys_write_pipe; [|exact Hfd|eapply pipe_after_insert; exact Hp].
  rewrite set_pipes_insert_twice, append_assoc.
  unfold sys_close. cbn [w_fds set_pipes]. rewrite Hfd. rewrite Nat2Z.id.
  eexists. split; [reflexivity|]. cbn.
  split; [reflexivity|]. split; [reflexivity|]. split.
  - rewrite fd_set_lookup_ne; [exact Hr|lia|congruence].
  - rewrite list_lookup_alter_eq, list_lookup_insert_eq by (eapply lookup_lt_Some; exact Hp).
    reflexivity.
Qed.

Lemma Read_fun_pipe (name : string) (r p : nat) (x : Z) (buf : string) (w : World) :
  mjoin (w_fds w !! r) = Some (PipeR p) ->
  w_pipes w !! p = Some (mkpipe buf 0) ->
  exists w',
    Read_fun name (Z.of_nat r, x) w = Ok 0 w'
    /\ w_env w' = <[name := (strip_newline buf, false)]> (w_env w).
Proof.
  intros Hr Hp.
  assert (Hfd : fd_lookup (w_fds w) (Z.of_nat r) = Some (PipeR p))
    by (rewrite fd_lookup_nat; exact Hr).
  unfold Read_fun, mbind at 1, M_bind, bind at 1, gets. cbn [fst].
  unfold pending. rewrite Hfd, Hp. cbn [from_option p_buf].
  destruct (read_loop_pipe (S (String.length buf)) _ p EmptyString buf w Hfd Hp) as (w1 & Hrun & Henv1);
    [lia|].
  unfold mbind at 1, M_bind, bind at 1. rewrite Hrun. cbn [String.append].
  destruct (sys_close_env (Z.of_nat r) w1) as (c & w2 & Hclose & Henv2).
  unfold mbind, M_bind, bind. rewrite Hclose. unfold modify, ret.
  eexists. split; [reflexivity|]. cbn. rewrite Henv2, Henv1. reflexivity.
Qed.

Lemma thread_join_ok (tid : nat) (fun_ : M Z) (w w' : World) (r : Z) :
  w_threads w !! tid = Some false ->
  fun_ w = Ok r w' ->
  thread_join tid fun_ w = Ok r (thread_joined tid w').
Proof. intros Ht Hf. unfold thread_join. rewrite Ht, Hf. reflexivity. Qed.

Lemma start_Pipe_lhs_first (lhs rhs : Subprocess) (mut : bool) (str : Streams.t) :
  check_streams (Pipe lhs rhs) str = None ->
  truthy (Z.land (StreamFlags.out (get_flags lhs)) StreamFlags.Create)
    && truthy (Z.land (StreamFlags.in_ (get_flags rhs)) StreamFlags.Accept) = true ->
  start (Pipe lhs rhs) mut str =
    (lhs_p ← start lhs mut (Streams.mk (Streams.in_ str) Streams.New Streams.None);
     rhs_p ← start rhs mut (Streams.mk (Streams.out (get_streams lhs_p))
                                       (Streams.out str) Streams.None);
     ret (RunPipe lhs_p rhs_p)).
Proof.
  intros Hchk Hcap. cbn [start].
  unfold mbind at 1, M_bind, bind at 1, do_check_streams. rewrite Hchk, Hcap. reflexivity.
Qed.

(** C7.  An echo of literal strings piped into a capture, run on a
    mutable [Environment] with room for two more descriptors, returns 0
    and leaves under the capture's name the strings joined by single
    spaces (the newline that the echo appends is stripped), not
    exported; every other variable is as it was. *)
Theorem Echo_Read_round_trip (strs : list string) (name : string) (w : World) :
  (nopen (w_fds w) + 2 <= w_nofile w)%nat ->
  exists w',
    run (Pipe (Echo (map GettableString strs)) (Read name)) true w = Ok 0 w'
    /\ w_env w' = <[name := (space_joined strs, false)]> (w_env w).
Proof.
  intros Hlim.
  destruct (sys_pipe2_ok w Hlim) as (_ & Hne & Hr & Hwr).
  set (p := length (w_pipes w)) in *.
  set (r := lowest_free (w_fds w)) in *.
  set (t1 := fd_set r (Some (PipeR p)) (w_fds w)) in *.
  set (wr := lowest_free t1) in *.
  unfold run. rewrite start_Pipe_lhs_first by reflexivity.
  unfold mbind at 1 2, M_bind, bind at 1 2.
  cbn [Streams.in_ Streams.out Streams.err Streams.empty].
  rewrite (Echo_start_new _ w Hlim). fold p r t1 wr.
  cbn [get_streams Streams.out].
  unfold mbind at 1, M_bind, bind at 1.
  rewrite Read_start_bound.
  set (wA := set_fds (fun _ => fd_set wr (Some (PipeW p)) t1)
               (set_pipes (fun ps => ps ++ [mkpipe EmptyString 1]) w)).
  set (wC := thread_created (thread_created wA)).
  destruct (Echo_fun_literals strs r wr p EmptyString 1 wC Hne Hr Hwr)
    as (wD & Hecho & HenvD & HthD & HrD & HpD).
  { cbn. apply list_lookup_middle. reflexivity. }
  destruct (Read_fun_pipe name r p Streams.None _ (thread_joined (length (w_threads w)) wD) HrD HpD)
    as (wE & Hread & HenvE).
  unfold ret at 1. cbn [wait]. unfold mbind, M_bind, bind.
  erewrite thread_join_ok; [| |exact Hecho].
  2: { cbn. rewrite <- app_assoc. apply list_lookup_middle. reflexivity. }
  erewrite thread_join_ok; [| |exact Hread].
  2: { cbn. rewrite HthD. cbn. rewrite length_app. cbn.
       rewrite list_lookup_insert_ne by lia.
       apply list_lookup_middle. rewrite length_app. reflexivity. }
  eexists. split; [reflexivity|].
  cbn. rewrite HenvE. cbn. rewrite HenvD.
  change (EmptyString +:+ space_joined strs +:+ nl) with (space_joined strs +:+ nl).
  rewrite strip_newline_append. reflexivity.
Qed.

(** The test [EchoRead] of the source: "Does", "echo", "work". *)
Lemma Echo_Read_round_trip_witness :
  (nopen (w_fds demo_world) + 2 <= w_nofile demo_world)%nat
  /\ exists w',
       run (Pipe (Echo (map GettableString ["Does"; "echo"; "work"])) (Read "out"))
           true demo_world = Ok 0 w'
       /\ w_env w' !! "out" = Some ("Does echo work", false).
Proof.
  assert (Hlim : (nopen (w_fds demo_world) + 2 <= w_nofile demo_world)%nat)
    by (vm_compute; lia).
  split; [exact Hlim|].
  destruct (Echo_Read_round_trip ["Does"; "echo"; "work"] "out" demo_world Hlim)
    as (w' & Hrun & Henv).
  exists w'. split; [exact Hrun|].
  rewrite Henv. apply lookup_insert_eq.
Defined.

(** ** The loops end before their fuel does *)

Lemma sys_write_result (fd : Z) (data : string) (w : World) :
  (exists errno, sys_write fd data w = Ok (inl errno) w)
  \/ (exists w', sys_write fd data w = Ok (inr (Z.of_nat (String.length data))) w').
Proof.
  unfold sys_write.
  destruct (fd_lookup (w_fds w) fd) as [[p|p|path flags pos|dflags]|]; eauto.
  - destruct (w_pipes w !! p); eauto.
  - destruct (acc_mode flags =? O_RDONLY); eauto.
  - destruct (acc_mode dflags =? O_RDONLY); eauto.
Qed.

(** One turn of the inner loop of the echo is enough: [write] takes the
    whole argument or fails. *)
Lemma echo_write_fuel (fuel : nat) (fd : Z) (str : string) (last : bool) (w : World) :
  echo_write (S fuel) fd str 0 last w = echo_write 1 fd str 0 last w.
Proof.
  cbn [echo_write]. unfold mbind, M_bind, bind.
  destruct (sys_write_result fd (drop_str 0 str) w) as [[errno ->]|[w' ->]];
    [reflexivity|].
  rewrite Nat2Z.id.
  replace (drop_str 0 str) with str by (destruct str; reflexivity).
  rewrite Nat.eqb_refl. reflexivity.
Qed.

Lemma length_drop_str (n : nat) (s : string) :
  String.length (drop_str n s) = (String.length s - n)%nat.
Proof.
  revert s. induction n as [|n IH]; intros [|c s]; cbn [drop_str String.length]; try lia.
  rewrite IH. lia.
Qed.

Lemma length_take_str (n : nat) (s : string) :
  String.length (take_str n s) = Nat.min n (String.length s).
Proof.
  revert s. induction n as [|n IH]; intros [|c s]; cbn [take_str String.length]; try lia.
  rewrite IH. lia.
Qed.

(** A read that returns bytes leaves fewer bytes pending. *)
Lemma sys_read_pending (fd : Z) (w w' : World) (c : ascii) (s : string) :
  sys_read fd bufsz w = Ok (inr (String c s)) w' ->
  (pending fd w' < pending fd w)%nat.
Proof.
  unfold sys_read, pending.
  destruct (fd_lookup (w_fds w) fd) as [[p|p|path flags pos|dflags]|] eqn:Hfd; try discriminate.
  - destruct (w_pipes w !! p) as [[buf k]|] eqn:Hp; [|discriminate].
    cbn [p_buf p_writers from_option].
    destruct buf as [|c0 buf]; [destruct k; discriminate|].
    intros H. assert (Hw : set_pipes (<[p := mkpipe (drop_str bufsz (String c0 buf)) k]>) w = w')
      by congruence.
    subst w'. clear H. cbn [w_fds set_pipes w_pipes]. rewrite Hfd.
    rewrite list_lookup_insert_eq by (eapply lookup_lt_Some; exact Hp).
    cbn [from_option p_buf]. rewrite length_drop_str. unfold bufsz.
    cbn [String.length]. lia.
  - destruct (acc_mode flags =? O_WRONLY); [discriminate|].
    set (chunk := take_str bufsz (drop_str pos (default EmptyString (w_files w !! path)))).
    intros H. assert (Hchunk : chunk = String c s) by congruence.
    assert (Hw : set_fds (fd_set (Z.to_nat fd)
                            (Some (FileD path flags (pos + String.length chunk)))) w = w')
      by congruence.
    subst w'. clear H. cbn [w_fds set_fds w_files].
    assert (Hge : 0 <= fd).
    { unfold fd_lookup in Hfd. destruct (fd <? 0) eqn:E; [discriminate|].
      apply Z.ltb_ge in E. exact E. }
    assert (Hlt : (Z.to_nat fd < length (w_fds w))%nat).
    { unfold fd_lookup in Hfd. destruct (fd <? 0); [discriminate|].
      destruct (w_fds w !! Z.to_nat fd) eqn:E; [|discriminate].
      eapply lookup_lt_Some. exact E. }
    unfold fd_lookup at 1. destruct (fd <? 0) eqn:E; [apply Z.ltb_lt in E; lia|].
    rewrite fd_set_lookup_eq by lia. cbn [mjoin option_join].
    pose proof (length_take_str bufsz (drop_str pos (default EmptyString (w_files w !! path))))
      as Hlen.
    fold chunk in Hlen. rewrite length_drop_str in Hlen.
    rewrite Hchunk in *. cbn [String.length] in *. lia.
  - destruct (acc_mode dflags =? O_WRONLY); discriminate.
Qed.

(** The result of the read loop does not depend on the fuel once there
    is more fuel than bytes pending: [Read_fun] gives it enough. *)
Lemma read_loop_fuel (f1 f2 : nat) (fd : Z) (out : string) (w : World) :
  (pending fd w < f1)%nat -> (pending fd w < f2)%nat ->
  read_loop f1 fd out w = read_loop f2 fd out w.
Proof.
  revert f2 out w. induction f1 as [|f1 IH]; intros f2 out w H1 H2; [lia|].
  destruct f2 as [|f2]; [lia|].
  cbn [read_loop]. unfold mbind, M_bind, bind.
  destruct (sys_read fd bufsz w) as [[errno|[|c s]] w'| | |] eqn:Hread; try reflexivity.
  pose proof (sys_read_pending _ _ _ _ _ Hread). apply IH; lia.
Qed.

(** * Further properties of the code *)

(** ** Scripts *)

(** X1.  A script made of two parts runs the first part and, when that
    returned 0, the second part in the state the first one left; a
    non-zero status of the first part is the status of the script and
    nothing of the second part is run. *)
Theorem run_script_app (scr1 scr2 : list Subprocess) (mut : bool) (w : World) :
  run_script (scr1 ++ scr2) mut w =
    match run_script scr1 mut w with
    | Ok r w1 => if r =? 0 then run_script scr2 mut w1 else Ok r w1
    | other => other
    end.
Proof.
  revert w. induction scr1 as [|sub scr1 IH]; intros w; [reflexivity|].
  cbn [app run_script]. unfold mbind, M_bind, bind.
  destruct (run sub mut w) as [r w1| | |]; try reflexivity.
  destruct (r =? 0) eqn:E; cbn [negb].
  - apply IH.
  - unfold ret. rewrite E. reflexivity.
Qed.

(** ** Capabilities *)

(** X2.  Every capability a node declares is one of [Ignore], [Create],
    {Create, Accept} and {Create, Accept, Ignore}: no slot is without an
    allowed request, and [Accept] never comes without [Create]. *)
Theorem get_flags_declared (p : Subprocess) :
  declared_cap (StreamFlags.in_ (get_flags p))
  /\ declared_cap (StreamFlags.out (get_flags p))
  /\ declared_cap (StreamFlags.err (get_flags p)).
Proof.
  unfold declared_cap.
  induction p as [argv|lhs IHl rhs IHr|lhs _ rhs _|lhs _ rhs _|name|var| | |path mode];
    cbn [get_flags StreamFlags.in_ StreamFlags.out StreamFlags.err StreamFlags.empty];
    try (destruct IHl as (Hl & _ & _), IHr as (_ & Hr & _));
    repeat match goal with |- context [if ?b then _ else _] => destruct b end;
    repeat split; auto 6.
Qed.

Lemma declared_cap_includes (cap : Z) :
  declared_cap cap ->
  (includes cap StreamFlags.Ignore \/ includes cap StreamFlags.Create)
  /\ (includes cap StreamFlags.Accept -> includes cap StreamFlags.Create).
Proof.
  unfold declared_cap, includes. intros [-> | [-> | [-> | ->]]]; vm_compute;
    split; try (left; discriminate); try (right; discriminate); try discriminate;
    intros H; try discriminate; exfalso; apply H; reflexivity.
Qed.

(** X3.  A pipe whose left side can only ignore its stdout, or whose
    right side can only ignore its stdin, cannot be started: whatever
    the request, [start] throws [std::invalid_argument] in the state it
    was called in. *)
Theorem Pipe_without_producer_or_consumer
    (lhs rhs : Subprocess) (mut : bool) (str : Streams.t) (w : World) :
  StreamFlags.out (get_flags lhs) = StreamFlags.Ignore
  \/ StreamFlags.in_ (get_flags rhs) = StreamFlags.Ignore ->
  exists what, start (Pipe lhs rhs) mut str w = Throw (invalid_argument what) w.
Proof.
  intros H.
  destruct (check_streams (Pipe lhs rhs) str) as [e|] eqn:Hchk.
  - eapply start_check_fails. exact Hchk.
  - eexists. cbn [start]. rewrite do_check_streams_pass by exact Hchk.
    destruct H as [H|H]; rewrite H.
    + reflexivity.
    + rewrite !andb_false_r. reflexivity.
Qed.

(** A capture piped into a capture, and a command piped into [true_]. *)
Lemma Pipe_without_producer_or_consumer_witness :
  (StreamFlags.out (get_flags (Read "a")) = StreamFlags.Ignore
   /\ exists what,
        start (Pipe (Read "a") (Read "b")) true Streams.empty demo_world
          = Throw (invalid_argument what) demo_world)
  /\ (StreamFlags.in_ (get_flags true_) = StreamFlags.Ignore
      /\ exists what,
           start (Pipe (Exec [GettableString "env"]) true_) true Streams.empty demo_world
             = Throw (invalid_argument what) demo_world).
Proof.
  split; (split; [reflexivity|]).
  - apply (Pipe_without_producer_or_consumer (Read "a") (Read "b")). left. reflexivity.
  - apply (Pipe_without_producer_or_consumer (Exec [GettableString "env"]) true_).
    right. reflexivity.
Defined.

(** X4.  A requested stream below [Streams::New] is neither unset, nor
    to be created, nor a descriptor: every node rejects it on every
    slot, in the state [start] was called in. *)
Theorem start_rejects_unknown_stream (p : Subprocess) (mut : bool) (str : Streams.t) (w : World) :
  Streams.in_ str < Streams.New \/ Streams.out str < Streams.New
  \/ Streams.err str < Streams.New ->
  exists what, start p mut str w = Throw (invalid_argument what) w.
Proof.
  intros H.
  assert (Hbad : forall stream cap, stream < Streams.New -> check_stream stream cap = false).
  { intros stream cap Hlt. unfold check_stream, Streams.New, Streams.None in *.
    replace (stream =? -1) with false by (symmetry; apply Z.eqb_neq; lia).
    replace (stream =? -2) with false by (symmetry; apply Z.eqb_neq; lia).
    replace (0 <=? stream) with false by (symmetry; apply Z.leb_gt; lia).
    reflexivity. }
  destruct (check_streams p str) as [e|] eqn:Hchk.
  - eapply start_check_fails. exact Hchk.
  - exfalso. apply check_streams_None in Hchk. destruct Hchk as (Hi & Ho & He).
    rewrite <- check_stream_allowed in Hi, Ho, He.
    destruct H as [H|[H|H]]; apply (Hbad _ (StreamFlags.in_ (get_flags p))) in H as H1;
      apply (Hbad _ (StreamFlags.out (get_flags p))) in H as H2;
      apply (Hbad _ (StreamFlags.err (get_flags p))) in H as H3; congruence.
Qed.

Lemma start_rejects_unknown_stream_witness :
  Streams.in_ (Streams.mk (-3) Streams.None Streams.None) < Streams.New
  /\ exists what,
       start (Exec [GettableString "env"]) true (Streams.mk (-3) Streams.None Streams.None)
             demo_world
         = Throw (invalid_argument what) demo_world.
Proof.
  assert (H : Streams.in_ (Streams.mk (-3) Streams.None Streams.None) < Streams.New)
    by (vm_compute; reflexivity).
  split; [exact H|].
  apply (start_rejects_unknown_stream (Exec [GettableString "env"]) true _ demo_world).
  left. exact H.
Defined.

(** ** The Environment *)

Lemma split_eq_first (name value : string) :
  occurs "="%char name = false ->
  split_eq (name +:+ String "="%char value) = Some (name, value).
Proof.
  induction name as [|c name IH]; intros Hocc; [reflexivity|].
  cbn [occurs] in Hocc. apply orb_false_elim in Hocc as [Hc Hrest].
  rewrite append_cons. cbn [split_eq]. rewrite Hc, (IH Hrest). reflexivity.
Qed.

Lemma split_eq_occurs (entry : string) :
  occurs "="%char entry = true -> exists name value, split_eq entry = Some (name, value).
Proof.
  induction entry as [|c entry IH]; intros Hocc; [discriminate|].
  cbn [occurs] in Hocc. cbn [split_eq].
  destruct (Ascii.eqb c "="%char); [eauto|].
  destruct (IH Hocc) as (name & value & ->). eauto.
Qed.

(** The constructor makes an [Environment] from entries that all have
    an '='. *)
Lemma Environment_of_defined (list : list string) (env : Environment) :
  Forall (fun entry => occurs "="%char entry = true) list ->
  exists env', Environment_of list env = Some env'.
Proof.
  intros Hall. revert env.
  induction Hall as [|entry list Hentry _ IH]; intros env; [eexists; reflexivity|].
  cbn [Environment_of]. destruct (split_eq_occurs _ Hentry) as (name & value & ->).
  apply IH.
Qed.

Lemma Environment_of_keeps (list : list string) (env env' : Environment) (name : string)
    (el : string * bool) :
  env !! name = Some el -> Environment_of list env = Some env' -> env' !! name = Some el.
Proof.
  revert env. induction list as [|entry list IH]; intros env H Hof.
  - cbn [Environment_of] in Hof. congruence.
  - cbn [Environment_of] in Hof.
    destruct (split_eq entry) as [[n v]|]; [|discriminate].
    eapply IH; [|exact Hof].
    destruct (env !! n) eqn:E; [exact H|].
    rewrite lookup_insert_ne; [exact H|congruence].
Qed.

(** X5.  The constructor splits an entry at its first '=' and keeps the
    first entry of a name: of two entries for one name the later one is
    dropped, and the value may itself contain '='.  The variable is
    exported.  This is for a list whose entries all have an '=': from
    any other list no [Environment] is made. *)
Theorem Environment_of_first_entry_wins
    (name value : string) (rest : list string) (env : Environment) :
  occurs "="%char name = false ->
  env !! name = None ->
  Forall (fun entry => occurs "="%char entry = true) rest ->
  exists env',
    Environment_of ((name +:+ String "="%char value) :: rest) env = Some env'
    /\ env' !! name = Some (value, true)
    /\ get (GettableVariable name) env' = inr value.
Proof.
  intros Hocc Hfree Hall.
  cbn [Environment_of]. rewrite (split_eq_first _ _ Hocc), Hfree.
  destruct (Environment_of_defined rest (<[name := (value, true)]> env) Hall) as [env' Hof].
  exists env'. split; [exact Hof|].
  assert (H : env' !! name = Some (value, true)).
  { eapply Environment_of_keeps; [|exact Hof]. apply lookup_insert_eq. }
  split; [exact H|]. cbn [get]. rewrite H. reflexivity.
Qed.

Lemma Environment_of_first_entry_wins_witness :
  occurs "="%char "A" = false
  /\ (∅ : Environment) !! "A" = None
  /\ Forall (fun entry => occurs "="%char entry = true) ["A=d"]
  /\ exists env',
       Environment_of ["A=b=c"; "A=d"] ∅ = Some env'
       /\ env' !! "A" = Some ("b=c", true).
Proof.
  assert (Hall : Forall (fun entry => occurs "="%char entry = true) ["A=d"])
    by (repeat constructor).
  assert (Hfree : (∅ : Environment) !! "A" = None) by reflexivity.
  split; [reflexivity|]. split; [exact Hfree|]. split; [exact Hall|].
  destruct (Environment_of_first_entry_wins "A" "b=c" ["A=d"] ∅ eq_refl Hfree Hall)
    as (env' & Hof & Hlook & _).
  exists env'. split; [exact Hof|exact Hlook].
Defined.

(** X6.  Everything the constructor adds is exported: made from nothing,
    the [Environment] has no unexported variable, so every value it holds
    is in the block. *)
Theorem Environment_of_exported (list : list string) (env : Environment)
    (name value : string) (exported : bool) :
  Environment_of list ∅ = Some env ->
  env !! name = Some (value, exported) ->
  exported = true /\ value ∈ envp env.
Proof.
  assert (Hinv : forall l (env0 env1 : Environment),
             (forall n v e, env0 !! n = Some (v, e) -> e = true) ->
             Environment_of l env0 = Some env1 ->
             forall n v e, env1 !! n = Some (v, e) -> e = true).
  { induction l as [|entry l IH]; intros env0 env1 Henv Hof n v e H.
    - cbn [Environment_of] in Hof. assert (env0 = env1) as -> by congruence.
      eapply Henv; exact H.
    - cbn [Environment_of] in Hof.
      destruct (split_eq entry) as [[k x]|]; [|discriminate].
      eapply IH; [|exact Hof|exact H].
      intros n' v' e' H'.
      destruct (env0 !! k) eqn:E; [eapply Henv; exact H'|].
      destruct (decide (k = n')) as [->|Hne].
      + rewrite lookup_insert_eq in H'. congruence.
      + rewrite lookup_insert_ne in H' by exact Hne. eapply Henv; exact H'. }
  intros Hof H.
  assert (exported = true) as ->.
  { eapply (Hinv list ∅ env); [|exact Hof|exact H].
    intros n v e H'. rewrite lookup_empty in H'. discriminate. }
  split; [reflexivity|]. apply envp_values. exists name. exact H.
Qed.

Lemma Environment_of_exported_witness :
  exists env,
    Environment_of ["PATH=/usr/bin"; "HOME=/root"] ∅ = Some env
    /\ env !! "HOME" = Some ("/root", true)
    /\ "/root" ∈ envp env.
Proof.
  exists (<["HOME" := ("/root", true)]> (<["PATH" := ("/usr/bin", true)]> ∅)).
  assert (Hof : Environment_of ["PATH=/usr/bin"; "HOME=/root"] ∅
                = Some (<["HOME" := ("/root", true)]> (<["PATH" := ("/usr/bin", true)]> ∅)))
    by reflexivity.
  assert (H : (<["HOME" := ("/root", true)]> (<["PATH" := ("/usr/bin", true)]> ∅)
                 : Environment) !! "HOME" = Some ("/root", true))
    by (vm_compute; reflexivity).
  split; [exact Hof|]. split; [exact H|].
  exact (proj2 (Environment_of_exported _ _ "HOME" "/root" true Hof H)).
Defined.

(** X7.  What a capture stores is not exported, also when it overwrites
    an exported variable: after the store the block holds exactly the
    values of the other exported variables. *)
Theorem capture_store_unexports (env : Environment) (name out s : string) :
  s ∈ envp (<[name := (out, false)]> env)
  <-> exists other, other <> name /\ env !! other = Some (s, true).
Proof.
  rewrite envp_values. split.
  - intros [other H]. exists other. destruct (decide (name = other)) as [->|Hne].
    + rewrite lookup_insert_eq in H. discriminate.
    + rewrite lookup_insert_ne in H by exact Hne. split; [congruence|exact H].
  - intros [other [Hne H]]. exists other. rewrite lookup_insert_ne by congruence. exact H.
Qed.

(** ** The capture's newline *)

Lemma get_last_newline_cons (out : string) (c : ascii) :
  String.get (String.length out) (String c out) = Some newline ->
  String c out = take_str (String.length out) (String c out) +:+ nl.
Proof.
  revert c. induction out as [|c' out IH]; intros c.
  - cbn. intros [= ->]. reflexivity.
  - cbn [String.length String.get take_str]. intros H.
    rewrite append_cons. f_equal. apply IH. exact H.
Qed.

Lemma get_last_newline (out : string) :
  String.get (String.length out - 1) out = Some newline ->
  out = take_str (String.length out - 1) out +:+ nl.
Proof.
  destruct out as [|c out]; [discriminate|].
  cbn [String.length Nat.sub]. rewrite Nat.sub_0_r. apply get_last_newline_cons.
Qed.

(** X8.  The capture removes exactly one trailing newline: a text that
    ends in a newline loses that one character, even when another newline
    precedes it, and any other text is stored as it is. *)
Theorem strip_newline_one (out : string) :
  (forall s, out = s +:+ nl -> strip_newline out = s)
  /\ ((forall s, out <> s +:+ nl) -> strip_newline out = out).
Proof.
  split.
  - intros s ->. apply strip_newline_append.
  - intros Hno. unfold strip_newline.
    destruct (bool_decide (String.get (String.length out - 1) out = Some newline)) eqn:E.
    + apply bool_decide_eq_true_1 in E. apply get_last_newline in E.
      exfalso. eapply Hno. exact E.
    + rewrite andb_false_r. reflexivity.
Qed.

Lemma strip_newline_one_witness :
  ("a" +:+ nl +:+ nl = ("a" +:+ nl) +:+ nl /\ strip_newline ("a" +:+ nl +:+ nl) = "a" +:+ nl)
  /\ ((forall s, "ab" <> s +:+ nl) /\ strip_newline "ab" = "ab").
Proof.
  pose proof (strip_newline_one ("a" +:+ nl +:+ nl)) as [H1 _].
  pose proof (strip_newline_one "ab") as [_ H2].
  assert (Hab : forall s, "ab" <> s +:+ nl).
  { intros [|a [|b [|c s]]]; discriminate. }
  split; [split; [reflexivity|apply H1; reflexivity]|split; [exact Hab|apply H2; exact Hab]].
Defined.

(** ** Outcomes of And and Or *)

(** X9.  An exception never leaves [run] of an [And] or an [Or]: the
    node's own check passes on the unset request and whatever a child
    throws is thrown inside the node's thread, which ends the program.
    When [run] returns, the status is 0 or 1. *)
Theorem And_Or_outcome (lhs rhs : Subprocess) (mut : bool) (w : World) :
  (forall e w', run (And lhs rhs) mut w <> Throw e w' /\ run (Or lhs rhs) mut w <> Throw e w')
  /\ (forall s w',
        run (And lhs rhs) mut w = Ok s w' \/ run (Or lhs rhs) mut w = Ok s w' ->
        s = 0 \/ s = 1)
  /\ (forall e w1,
        run lhs mut (thread_created w) = Throw e w1 ->
        run (And lhs rhs) mut w = Terminate w1 /\ run (Or lhs rhs) mut w = Terminate w1).
Proof.
  rewrite run_And, run_Or, !thread_join_created, And_fun_unfold, Or_fun_unfold.
  unfold mbind, M_bind, bind, ret.
  destruct (run lhs mut (thread_created w)) as [a w1|e1 w1|w1|w1].
  - destruct (a =? 0).
    + destruct (run rhs mut w1) as [b w2| | |]; [destruct (b =? 0)| | |];
        (split; [intros; split; discriminate|]);
        (split; [intros s w' [H|H]; inversion H; auto|intros; discriminate]).
    + destruct (run rhs mut w1) as [b w2| | |]; [destruct (b =? 0)| | |];
        (split; [intros; split; discriminate|]);
        (split; [intros s w' [H|H]; inversion H; auto|intros; discriminate]).
  - split; [intros; split; discriminate|].
    split; [intros s w' [H|H]; discriminate|].
    intros e w2 [= _ <-]. split; reflexivity.
  - split; [intros; split; discriminate|].
    split; [intros s w' [H|H]; discriminate|intros; discriminate].
  - split; [intros; split; discriminate|].
    split; [intros s w' [H|H]; discriminate|intros; discriminate].
Qed.

(** A capture started without an input, as the left child of [And]. *)
Lemma And_Or_outcome_witness :
  exists e w1,
    run (Read "x") true (thread_created demo_world) = Throw e w1
    /\ run (And (Read "x") true_) true demo_world = Terminate w1.
Proof.
  eexists _, _. split; [reflexivity|].
  apply (proj2 (proj2 (And_Or_outcome (Read "x") true_ true demo_world)) _ _ eq_refl).
Defined.

(** ** Waiting for a command *)

Lemma w_procs_release (o : option fdobj) (w : World) : w_procs (release o w) = w_procs w.
Proof. destruct o as [[p|p|path flags pos|dflags]|]; reflexivity. Qed.

Lemma w_procs_child_output (o : option fdobj) (data : string) (w : World) :
  w_procs (child_output o data w) = w_procs w.
Proof.
  destruct o as [[p|p|path flags pos|dflags]|]; try reflexivity.
  cbn [child_output]. destruct (acc_mode flags =? O_RDONLY); reflexivity.
Qed.

Lemma w_procs_child_input (o : option fdobj) (w : World) :
  w_procs (snd (child_input o w)) = w_procs w.
Proof.
  destruct o as [[p|p|path flags pos|dflags]|]; try reflexivity; cbn [child_input].
  - destruct (w_pipes w !! p); reflexivity.
  - destruct (acc_mode flags =? O_WRONLY); reflexivity.
Qed.

(** X10.  A command that no signal stops can be waited for once: the
    wait that returns the child's status marks the child as reaped, and a
    second [wait] on the same handle returns -1 and changes nothing. *)
Theorem RunExec_wait_twice (pid : Z) (str : Streams.t) (w w' : World) (status : Z) :
  w_stops w (Z.to_nat (pid - 1)) = [] ->
  sys_waitid pid w = Ok (Some status) w' ->
  wait (RunExec pid str) w = Ok status w'
  /\ wait (RunExec pid str) w' = Ok (-1) w'.
Proof.
  intros Hstops H. split.
  { cbn [wait]. unfold mbind, M_bind, bind. rewrite H. reflexivity. }
  cbn [wait]. unfold mbind, M_bind, bind.
  unfold sys_waitid in *. destruct (pid <=? 0); [discriminate|].
  destruct (w_procs w !! Z.to_nat (pid - 1)) as [pr|] eqn:Hpr; [|discriminate].
  destruct (pr_reaped pr); [discriminate|].
  rewrite Hstops in H.
  pose proof (w_procs_child_input (pr_stdin pr) w) as Hin.
  destruct (child_input (pr_stdin pr) w) as [input w1]. cbn [snd] in Hin.
  destruct (match pr_argv pr with
            | Some argv => w_program w argv (pr_envp pr) input
            | None => w_stray w
            end) as [output st].
  assert (Hw : w' = set_procs
                      (<[Z.to_nat (pid - 1) :=
                           mkProc (pr_argv pr) (pr_envp pr) (pr_stdin pr)
                                  (pr_stdout pr) (pr_stderr pr) true]>)
                      (release (pr_stdin pr) (release (pr_stdout pr)
                         (release (pr_stderr pr) (child_output (pr_stdout pr) output w1)))))
    by congruence.
  rewrite Hw at 1. cbn [w_procs set_procs].
  rewrite !w_procs_release, w_procs_child_output, Hin.
  rewrite list_lookup_insert_eq by (eapply lookup_lt_Some; exact Hpr).
  reflexivity.
Qed.

Lemma RunExec_wait_twice_witness :
  exists h w0 w',
    start (Exec [GettableString "exit5"]) true Streams.empty demo_world
      = Ok h w0
    /\ w_stops w0 0%nat = []
    /\ wait h w0 = Ok 5 w'
    /\ wait h w' = Ok (-1) w'.
Proof.
  set (w0 := set_procs
               (fun ps => ps ++ [Exec_child [GettableString "exit5"] no_fds no_fds no_fds
                                   demo_world])
               demo_world).
  eexists (RunExec 1 Streams.empty), w0, _.
  split; [vm_compute; reflexivity|].
  split; [reflexivity|].
  refine (RunExec_wait_twice 1 Streams.empty w0 _ 5 eq_refl _).
  vm_compute. reflexivity.
Defined.



(** ** Launching a command, continued *)

Lemma open_pipe_outcome (str : Z) (fds : Z * Z) (input : bool) (w : World) :
  (exists r w', open_pipe str fds input w = Ok r w')
  \/ (exists errno, open_pipe str fds input w = Throw (system_error errno) w).
Proof.
  unfold open_pipe. destruct (negb (str =? Streams.None)); [|left; eauto].
  destruct (str =? Streams.New); [|left; eauto].
  unfold mbind, M_bind, bind, sys_pipe2.
  destruct (w_nofile w <? nopen (w_fds w) + 2)%nat; [right|left]; eauto.
Qed.

Lemma close_pipe_ok (fd : Z) (w : World) : exists w', close_pipe fd w = Ok tt w'.
Proof.
  unfold close_pipe. destruct (negb (fd =? Streams.None)); [|eauto].
  unfold mbind, M_bind, bind, sys_close.
  destruct (fd_lookup (w_fds w) fd); eauto.
Qed.

Lemma w_same_hold (o : option fdobj) (w : World) :
  w_env (hold o w) = w_env w /\ w_fds (hold o w) = w_fds w /\ w_procs (hold o w) = w_procs w.
Proof. destruct o as [[p|p|path flags pos|dflags]|]; repeat split; reflexivity. Qed.

(** X11.  A variable missing from the [Environment] is not reported by
    [Exec::start]: the arguments are resolved in the child, after the
    fork, so [start] never throws [std::out_of_range]; with an unset
    request and a process to spare it forks a child whatever the
    arguments are, and leaves the [Environment] and the descriptors as
    they were. *)
Theorem Exec_start_forks_before_resolving (argv : list Gettable) (mut : bool) (w : World) :
  (forall str w', start (Exec argv) mut str w <> Throw out_of_range w')
  /\ ((length (w_procs w) < w_nproc w)%nat ->
      exists w',
        start (Exec argv) mut Streams.empty w
          = Ok (RunExec (Z.of_nat (length (w_procs w)) + 1) Streams.empty) w'
        /\ w_env w' = w_env w /\ w_fds w' = w_fds w
        /\ w_procs w' = w_procs w ++ [Exec_child argv no_fds no_fds no_fds w]).
Proof.
  split.
  - intros str w' H. cbn [start] in H. unfold Exec_start in H.
    destruct (check_streams (Exec argv) str) as [e|] eqn:Hchk.
    { rewrite (do_check_streams_throw _ _ _ _ _ Hchk) in H.
      destruct (check_streams_exn _ _ _ Hchk) as [what ->]. discriminate. }
    rewrite do_check_streams_pass in H by exact Hchk.
    unfold mbind at 1, M_bind, bind at 1 in H.
    destruct (open_pipe_outcome (Streams.in_ str) no_fds true w)
      as [([s0 fds0] & w0 & E0)|[errno E0]]; rewrite E0 in H; [|discriminate].
    unfold mbind at 1, M_bind, bind at 1 in H.
    destruct (open_pipe_outcome (Streams.out str) no_fds false w0)
      as [([s1 fds1] & w1 & E1)|[errno E1]]; rewrite E1 in H; [|discriminate].
    unfold mbind at 1, M_bind, bind at 1 in H.
    destruct (open_pipe_outcome (Streams.err str) no_fds false w1)
      as [([s2 fds2] & w2 & E2)|[errno E2]]; rewrite E2 in H; [|discriminate].
    unfold mbind at 1, M_bind, bind at 1, sys_fork in H.
    destruct (w_nproc w2 <=? length (w_procs w2))%nat; [discriminate|].
    match type of H with context [if ?c then _ else _] => destruct c end; [discriminate|].
    unfold mbind, M_bind, bind in H.
    match type of H with context [close_pipe ?fd ?x] =>
      destruct (close_pipe_ok fd x) as [x0 Ec0]; rewrite Ec0 in H end.
    match type of H with context [close_pipe ?fd ?x] =>
      destruct (close_pipe_ok fd x) as [x1 Ec1]; rewrite Ec1 in H end.
    match type of H with context [close_pipe ?fd ?x] =>
      destruct (close_pipe_ok fd x) as [x2 Ec2]; rewrite Ec2 in H end.
    discriminate.
  - intros Hlim. cbn [start]. unfold Exec_start.
    rewrite do_check_streams_pass by reflexivity.
    assert (Hopen : forall input x, open_pipe Streams.None no_fds input x
                                    = Ok (Streams.None, no_fds) x) by reflexivity.
    assert (Hclose : forall x, close_pipe Streams.None x = Ok tt x) by reflexivity.
    unfold mbind, M_bind, bind, sys_fork. cbn [Streams.empty Streams.in_ Streams.out Streams.err].
    rewrite !Hopen.
    replace (w_nproc w <=? length (w_procs w))%nat with false
      by (symmetry; apply Nat.leb_gt; exact Hlim).
    replace (Z.of_nat (length (w_procs w)) + 1 <? 0) with false
      by (symmetry; apply Z.ltb_ge; lia).
    change (fst no_fds) with Streams.None. change (snd no_fds) with Streams.None.
    rewrite !Hclose. eexists. split; [reflexivity|].
    set (pr := Exec_child argv no_fds no_fds no_fds w).
    destruct (w_same_hold (pr_stdin pr) (hold (pr_stdout pr) (hold (pr_stderr pr)
                (set_procs (fun ps => ps ++ [pr]) w)))) as (-> & -> & ->).
    destruct (w_same_hold (pr_stdout pr) (hold (pr_stderr pr)
                (set_procs (fun ps => ps ++ [pr]) w))) as (-> & -> & ->).
    destruct (w_same_hold (pr_stderr pr) (set_procs (fun ps => ps ++ [pr]) w))
      as (-> & -> & ->).
    repeat split; reflexivity.
Qed.

(** A command whose argument names a variable nobody has set. *)
Lemma Exec_start_forks_before_resolving_witness :
  (length (w_procs demo_world) < w_nproc demo_world)%nat
  /\ get_all [GettableString "env"; GettableVariable "nope"] (w_env demo_world)
       = inl out_of_range
  /\ exists w',
       start (Exec [GettableString "env"; GettableVariable "nope"]) true Streams.empty demo_world
         = Ok (RunExec 1 Streams.empty) w'
       /\ pr_argv <$> w_procs w' = [None].
Proof.
  assert (Hlim : (length (w_procs demo_world) < w_nproc demo_world)%nat)
    by (vm_compute; lia).
  split; [exact Hlim|]. split; [reflexivity|].
  destruct (proj2 (Exec_start_forks_before_resolving
                     [GettableString "env"; GettableVariable "nope"] true demo_world) Hlim)
    as (w' & Hstart & _ & _ & Hprocs).
  exists w'. split; [exact Hstart|]. rewrite Hprocs. reflexivity.
Defined.

(** ** Files *)

(** X12.  The flags [File::start] opens with, by the bits of the mode.
    [O_CREAT] and [O_CLOEXEC] are always set, so opening a missing file
    for reading creates it.  The access mode is read-write when both
    [Read] and [Write] are asked for, write-only for [Write] alone and
    read-only otherwise.  The file is truncated only for [Write] without
    [Read] and without [Append], and [O_APPEND] is set exactly for
    [Write] with [Append]. *)
Theorem File_flags_by_mode (mode : Z) :
  let rd := truthy (Z.land mode File.Read) in
  let wr := truthy (Z.land mode File.Write) in
  let ap := truthy (Z.land mode File.Append) in
  truthy (Z.land (File_flags mode) O_CREAT) = true
  /\ truthy (Z.land (File_flags mode) O_CLOEXEC) = true
  /\ acc_mode (File_flags mode)
       = (if rd && wr then O_RDWR else if wr then O_WRONLY else O_RDONLY)
  /\ truthy (Z.land (File_flags mode) O_TRUNC) = wr && negb rd && negb ap
  /\ truthy (Z.land (File_flags mode) O_APPEND) = wr && ap.
Proof.
  cbv zeta. unfold File_flags.
  destruct (truthy (Z.land mode File.Read)), (truthy (Z.land mode File.Write)),
           (truthy (Z.land mode File.Append)); repeat split; reflexivity.
Qed.

(** X13.  A file whose path names a missing variable is not opened:
    once the request has passed the check, [start] throws
    [std::out_of_range] in the state it was called in. *)
Theorem File_start_missing_variable
    (name : string) (mode : Z) (mut : bool) (str : Streams.t) (w : World) :
  check_streams (File (GettableVariable name) mode) str = None ->
  w_env w !! name = None ->
  start (File (GettableVariable name) mode) mut str w = Throw out_of_range w.
Proof.
  intros Hchk Hmiss. cbn [start]. unfold File_start.
  rewrite do_check_streams_pass by exact Hchk.
  unfold mbind, M_bind, bind, gets. cbn [get]. rewrite Hmiss. reflexivity.
Qed.

Lemma File_start_missing_variable_witness :
  let str := Streams.mk Streams.New Streams.None Streams.None in
  check_streams (File (GettableVariable "tmpfile") File.Write) str = None
  /\ w_env demo_world !! "tmpfile" = None
  /\ start (File (GettableVariable "tmpfile") File.Write) true str demo_world
       = Throw out_of_range demo_world.
Proof.
  cbv zeta. split; [reflexivity|]. split; [reflexivity|].
  apply (File_start_missing_variable "tmpfile" File.Write true _ demo_world);
    reflexivity.
Defined.

Lemma fd_set_cons (n : nat) (o x : option fdobj) (t : list (option fdobj)) :
  fd_set (S n) o (x :: t) = x :: fd_set n o t.
Proof.
  unfold fd_set. cbn [length]. change (S n <? S (length t))%nat with (n <? length t)%nat.
  destruct (n <? length t)%nat; reflexivity.
Qed.

Lemma nopen_alloc (o : fdobj) (t : list (option fdobj)) :
  nopen (fd_set (lowest_free t) (Some o) t) = S (nopen t).
Proof.
  induction t as [|[x|] t IH]; try reflexivity.
  cbn [lowest_free]. rewrite fd_set_cons. cbn [nopen]. rewrite IH. reflexivity.
Qed.

(** X14.  A file opened with neither [Read] nor [Write] in its mode
    declares [Ignore] on every slot and can be run on its own; when its
    path names a regular file, or a name under which one can be created,
    it is still opened (and created), the handle exposes no stream and
    has status 0, and the descriptor stays open: nothing closes it. *)
Theorem File_without_direction_leaks
    (path : Gettable) (name : string) (mode : Z) (mut : bool) (w : World) :
  Z.land mode File.Read = 0 ->
  Z.land mode File.Write = 0 ->
  get path (w_env w) = inr name ->
  w_kind w name (File_flags mode) = Regular ->
  (nopen (w_fds w) + 1 <= w_nofile w)%nat ->
  exists w',
    start (File path mode) mut Streams.empty w = Ok (RunEmpty Streams.empty 0) w'
    /\ run (File path mode) mut w = Ok 0 w'
    /\ nopen (w_fds w') = S (nopen (w_fds w))
    /\ fd_lookup (w_fds w') (Z.of_nat (lowest_free (w_fds w)))
         = Some (FileD name (Z.lor O_CLOEXEC O_CREAT) 0)
    /\ is_Some (w_files w' !! name).
Proof.
  intros Hrd Hwr Hget Hkind Hlim.
  assert (Hflags : File_flags mode = Z.lor O_CLOEXEC O_CREAT).
  { unfold File_flags, truthy. rewrite Hrd, Hwr. reflexivity. }
  rewrite Hflags in Hkind.
  assert (Hchk : check_streams (File path mode) Streams.empty = None).
  { unfold check_streams. cbn [get_flags StreamFlags.in_ StreamFlags.out StreamFlags.err].
    unfold truthy at 1 2. rewrite Hrd, Hwr. reflexivity. }
  assert (Hstart : start (File path mode) mut Streams.empty w =
            Ok (RunEmpty Streams.empty 0)
               (set_fds (fd_set (lowest_free (w_fds w))
                           (Some (FileD name (Z.lor O_CLOEXEC O_CREAT) 0)))
                  (set_files (<[name := default EmptyString (w_files w !! name)]>) w))).
  { cbn [start]. unfold File_start. rewrite do_check_streams_pass by exact Hchk.
    unfold mbind, M_bind, bind, gets. rewrite Hget, Hflags. unfold sys_open.
    replace (w_nofile w <? nopen (w_fds w) + 1)%nat with false
      by (symmetry; apply Nat.ltb_ge; exact Hlim).
    rewrite Hkind. unfold truthy at 3 4. rewrite Hrd, Hwr.
    destruct (w_files w !! name); reflexivity. }
  eexists. split; [exact Hstart|]. split.
  { unfold run, mbind, M_bind, bind. rewrite Hstart. reflexivity. }
  cbn [w_fds set_fds set_files w_files]. split; [apply nopen_alloc|]. split.
  - rewrite fd_lookup_nat, fd_set_lookup_eq by apply lowest_free_le. reflexivity.
  - rewrite lookup_insert_eq. eauto.
Qed.

Lemma File_without_direction_leaks_witness :
  Z.land File.Append File.Read = 0
  /\ Z.land File.Append File.Write = 0
  /\ w_kind demo_world "log" (File_flags File.Append) = Regular
  /\ exists w',
       run (File (GettableString "log") File.Append) true demo_world = Ok 0 w'
       /\ nopen (w_fds w') = S (nopen (w_fds demo_world)).
Proof.
  split; [reflexivity|]. split; [reflexivity|]. split; [reflexivity|].
  destruct (File_without_direction_leaks (GettableString "log") "log" File.Append true
              demo_world eq_refl eq_refl eq_refl eq_refl ltac:(vm_compute; lia))
    as (w' & _ & Hrun & Hopen & _).
  exists w'. split; [exact Hrun|exact Hopen].
Defined.

(** ** Echo into a capture, with variables *)

Lemma get_exn (g : Gettable) (env : Environment) (e : exn) :
  get g env = inl e -> e = out_of_range.
Proof.
  destruct g as [value|name]; cbn [get]; [discriminate|].
  destruct (env !! name); [discriminate|]. congruence.
Qed.

Lemma get_all_cons (g : Gettable) (var : list Gettable) (env : Environment)
    (strs : list string) :
  get_all (g :: var) env = inr strs ->
  exists s ss, strs = s :: ss /\ get g env = inr s /\ get_all var env = inr ss.
Proof.
  cbn [get_all]. destruct (get g env) as [e|s]; [discriminate|].
  destruct (get_all var env) as [e|ss]; [discriminate|].
  intros [= <-]. eauto.
Qed.

Lemma echo_loop_resolved (var : list Gettable) (strs : list string) (i size : nat) (fd : Z)
    (p : nat) (buf : string) (k : nat) (w : World) :
  get_all var (w_env w) = inr strs ->
  fd_lookup (w_fds w) fd = Some (PipeW p) ->
  w_pipes w !! p = Some (mkpipe buf k) ->
  size = (i + length var)%nat ->
  echo_loop var i size fd w
    = Ok Next (set_pipes (<[p := mkpipe (buf +:+ space_joined strs) k]>) w).
Proof.
  revert strs i buf w. induction var as [|g rest IH]; intros strs i buf w Hget Hfd Hp Hsize.
  - cbn [get_all] in Hget. injection Hget as <-. cbn [echo_loop space_joined].
    rewrite append_nil_r. unfold ret, set_pipes. rewrite list_insert_id by exact Hp.
    destruct w; reflexivity.
  - destruct (get_all_cons _ _ _ _ Hget) as (s & ss & -> & Hg & Hrest).
    cbn [echo_loop]. unfold mbind at 1, M_bind, bind at 1, gets. rewrite Hg.
    unfold mbind, M_bind, bind.
    rewrite (echo_write_pipe _ fd p buf k s _ w Hfd Hp).
    erewrite (IH ss (S i));
      [|exact Hrest|exact Hfd|eapply pipe_after_insert; exact Hp|cbn [length] in Hsize; lia].
    rewrite set_pipes_insert_twice. do 3 f_equal.
    destruct rest as [|g' rest'].
    + cbn [get_all] in Hrest. injection Hrest as <-. cbn [length] in Hsize.
      replace (S i =? size)%nat with true by (symmetry; apply Nat.eqb_eq; lia).
      cbn [space_joined]. rewrite !append_nil_r. reflexivity.
    + destruct (get_all_cons _ _ _ _ Hrest) as (s' & ss' & -> & _ & _).
      cbn [length] in Hsize.
      replace (S i =? size)%nat with false by (symmetry; apply Nat.eqb_neq; lia).
      cbn [space_joined]. rewrite !append_assoc. reflexivity.
Qed.

Lemma echo_loop_missing (var : list Gettable) (e : exn) (i size : nat) (fd : Z)
    (p : nat) (buf : string) (k : nat) (w : World) :
  get_all var (w_env w) = inl e ->
  fd_lookup (w_fds w) fd = Some (PipeW p) ->
  w_pipes w !! p = Some (mkpipe buf k) ->
  exists w', echo_loop var i size fd w = Throw out_of_range w' /\ w_env w' = w_env w.
Proof.
  revert i buf w. induction var as [|g rest IH]; intros i buf w Hget Hfd Hp;
    [discriminate|].
  cbn [get_all] in Hget. cbn [echo_loop].
  unfold mbind at 1, M_bind, bind at 1, gets.
  destruct (get g (w_env w)) as [e'|s] eqn:Hg.
  - rewrite (get_exn _ _ _ Hg). exists w. split; reflexivity.
  - destruct (get_all rest (w_env w)) as [e'|ss] eqn:Hrest; [|discriminate].
    injection Hget as ->.
    unfold mbind, M_bind, bind.
    rewrite (echo_write_pipe _ fd p buf k s _ w Hfd Hp).
    destruct (IH (S i) (buf +:+ s +:+ (if (S i =? size)%nat then EmptyString else " "))
                (set_pipes
                   (<[p := mkpipe (buf +:+ s +:+ (if (S i =? size)%nat then EmptyString else " "))
                                  k]>) w))
      as (w' & Hrun & Henv);
      [exact Hrest|exact Hfd|eapply pipe_after_insert; exact Hp|].
    exists w'. split; [exact Hrun|exact Henv].
Qed.

Lemma Echo_fun_resolved (var : list Gettable) (strs : list string) (x : Z) (wr p : nat)
    (buf : string) (k : nat) (w : World) :
  get_all var (w_env w) = inr strs ->
  mjoin (w_fds w !! wr) = Some (PipeW p) ->
  w_pipes w !! p = Some (mkpipe buf k) ->
  Echo_fun var (x, Z.of_nat wr) w
    = Ok 0 (drop_writer p
              (set_fds (fd_set wr None)
                 (set_pipes (<[p := mkpipe (buf +:+ space_joined strs +:+ nl) k]>) w))).
Proof.
  intros Hget Hwr Hp.
  assert (Hfd : fd_lookup (w_fds w) (Z.of_nat wr) = Some (PipeW p))
    by (rewrite fd_lookup_nat; exact Hwr).
  unfold Echo_fun, mbind, M_bind, bind. cbn [snd].
  rewrite (echo_loop_resolved var strs 0 _ _ p buf k w Hget Hfd Hp) by reflexivity.
  erewrite sys_write_pipe; [|exact Hfd|eapply pipe_after_insert; exact Hp].
  rewrite set_pipes_insert_twice, append_assoc.
  unfold sys_close. cbn [w_fds set_pipes]. rewrite Hfd, Nat2Z.id. reflexivity.
Qed.

Lemma read_loop_pipe_exact (fuel : nat) (fd : Z) (p : nat) (out buf : string) (w : World) :
  fd_lookup (w_fds w) fd = Some (PipeR p) ->
  w_pipes w !! p = Some (mkpipe buf 0) ->
  (String.length buf < fuel)%nat ->
  read_loop fuel fd out w
    = Ok (inr (out +:+ buf)) (set_pipes (<[p := mkpipe EmptyString 0]>) w).
Proof.
  revert out buf w. induction fuel as [|fuel IH]; intros out buf w Hfd Hp Hlen; [lia|].
  cbn [read_loop]. unfold mbind, M_bind, bind, sys_read. rewrite Hfd, Hp. cbn [p_buf p_writers].
  destruct buf as [|c buf].
  - rewrite append_nil_r. unfold ret, set_pipes. rewrite list_insert_id by exact Hp.
    destruct w; reflexivity.
  - change bufsz with (S 999).
    destruct (take_str_nonempty 999 c buf) as (c' & s' & Htake).
    pose proof (take_drop_str (S 999) (String c buf)) as Htd.
    rewrite Htake in *.
    rewrite (IH (out +:+ String c' s') (drop_str (S 999) (String c buf))
               (set_pipes (<[p := mkpipe (drop_str (S 999) (String c buf)) 0]>) w)).
    + rewrite set_pipes_insert_twice, append_assoc, Htd. reflexivity.
    + exact Hfd.
    + eapply pipe_after_insert. exact Hp.
    + pose proof (drop_str_length 999 buf). cbn [drop_str String.length] in *. lia.
Qed.

Lemma Read_fun_pipe_exact (name : string) (r p : nat) (x : Z) (buf : string) (w : World) :
  mjoin (w_fds w !! r) = Some (PipeR p) ->
  w_pipes w !! p = Some (mkpipe buf 0) ->
  Read_fun name (Z.of_nat r, x) w
    = Ok 0 (set_env (<[name := (strip_newline buf, false)]>)
              (set_fds (fd_set r None) (set_pipes (<[p := mkpipe EmptyString 0]>) w))).
Proof.
  intros Hr Hp.
  assert (Hfd : fd_lookup (w_fds w) (Z.of_nat r) = Some (PipeR p))
    by (rewrite fd_lookup_nat; exact Hr).
  unfold Read_fun, mbind at 1, M_bind, bind at 1, gets. cbn [fst].
  unfold pending. rewrite Hfd, Hp. cbn [from_option p_buf].
  unfold mbind at 1, M_bind, bind at 1.
  rewrite (read_loop_pipe_exact _ _ p EmptyString buf w Hfd Hp) by lia.
  change (EmptyString +:+ buf) with buf.
  unfold mbind, M_bind, bind, sys_close. cbn [w_fds set_pipes]. rewrite Hfd, Nat2Z.id.
  reflexivity.
Qed.

Lemma length_fd_set (n : nat) (o : option fdobj) (t : list (option fdobj)) :
  (length t <= length (fd_set n o t))%nat.
Proof.
  unfold fd_set. destruct (n <? length t)%nat.
  - rewrite length_insert. lia.
  - rewrite length_app. lia.
Qed.

(** Allocating the two ends of a pipe and closing both gives back a
    table with the same descriptors. *)
Lemma fd_table_restored (t : list (option fdobj)) (p n : nat) :
  let r := lowest_free t in
  let t1 := fd_set r (Some (PipeR p)) t in
  let wr := lowest_free t1 in
  let t2 := fd_set wr (Some (PipeW p)) t1 in
  mjoin (fd_set r None (fd_set wr None t2) !! n) = mjoin (t !! n).
Proof.
  intros r t1 wr t2.
  pose proof (lowest_free_le t) as Hr. fold r in Hr.
  pose proof (lowest_free_le t1) as Hwr. fold wr in Hwr.
  pose proof (length_fd_set r (Some (PipeR p)) t) as L1. fold t1 in L1.
  pose proof (length_fd_set wr (Some (PipeW p)) t1) as L2. fold t2 in L2.
  pose proof (length_fd_set wr None t2) as L3.
  assert (Hrfree : mjoin (t !! r) = None) by apply lowest_free_is_free.
  assert (Hwfree : mjoin (t1 !! wr) = None) by apply lowest_free_is_free.
  assert (Hne : r <> wr).
  { intros Heq. subst t1. rewrite <- Heq in Hwfree.
    rewrite fd_set_lookup_eq in Hwfree by exact Hr. discriminate. }
  destruct (decide (n = r)) as [->|Hnr].
  { rewrite fd_set_lookup_eq by lia. rewrite Hrfree. reflexivity. }
  rewrite fd_set_lookup_ne by (try lia; congruence).
  destruct (decide (n = wr)) as [->|Hnw].
  { rewrite fd_set_lookup_eq by lia. rewrite <- Hwfree. subst t1.
    rewrite fd_set_lookup_ne by (try lia; congruence). reflexivity. }
  rewrite fd_set_lookup_ne by (try lia; congruence).
  subst t2. rewrite fd_set_lookup_ne by (try lia; congruence).
  subst t1. rewrite fd_set_lookup_ne by (try lia; congruence). reflexivity.
Qed.

(** Two states with the same components are the same state. *)
Lemma World_eq (a b : World) :
  w_env a = w_env b -> w_fds a = w_fds b -> w_pipes a = w_pipes b ->
  w_files a = w_files b -> w_procs a = w_procs b -> w_threads a = w_threads b ->
  w_nofile a = w_nofile b -> w_nproc a = w_nproc b -> w_program a = w_program b ->
  w_stray a = w_stray b -> w_kind a = w_kind b -> w_stops a = w_stops b -> a = b.
Proof. destruct a, b. cbn. intros; subst; reflexivity. Qed.

(** Read one component through the updates of a state. *)
Ltac project_world :=
  cbn [w_env w_fds w_pipes w_files w_procs w_threads w_nofile w_nproc w_program w_stray
       w_kind w_stops set_env set_fds set_pipes set_files set_procs set_threads set_stops
       thread_joined thread_created drop_writer add_writer].

Lemma list_insert_alter {A} (f : A -> A) (l : list A) (i : nat) (x : A) :
  <[i := x]> (alter f i l) = <[i := x]> l.
Proof.
  revert i. induction l as [|a l IH]; intros [|i]; cbn; try reflexivity.
  f_equal. apply IH.
Qed.

Lemma pipes_closed (ps : list pipe) (f : pipe -> pipe) (x y z : pipe) :
  <[length ps := y]> (alter f (length ps) (<[length ps := x]> (ps ++ [z]))) = ps ++ [y].
Proof.
  rewrite list_insert_alter, list_insert_insert_eq.
  rewrite insert_app_r_alt by lia. rewrite Nat.sub_diag. reflexivity.
Qed.

Lemma threads_both_joined (ts : list bool) :
  <[length (ts ++ [false]) := true]> (<[length ts := true]> ((ts ++ [false]) ++ [false]))
    = ts ++ [true; true].
Proof.
  rewrite <- app_assoc. cbn [app].
  rewrite (insert_app_r_alt ts _ (length ts)) by lia. rewrite Nat.sub_diag. cbn.
  rewrite length_app. cbn [length].
  rewrite insert_app_r_alt by lia.
  replace (length ts + 1 - length ts)%nat with 1%nat by lia. reflexivity.
Qed.

(** The run of an echo piped into a capture, with the state it ends in. *)
Lemma run_Echo_Read (var : list Gettable) (strs : list string) (name : string) (w : World) :
  get_all var (w_env w) = inr strs ->
  (nopen (w_fds w) + 2 <= w_nofile w)%nat ->
  let p := length (w_pipes w) in
  let r := lowest_free (w_fds w) in
  let t1 := fd_set r (Some (PipeR p)) (w_fds w) in
  let wr := lowest_free t1 in
  let t2 := fd_set wr (Some (PipeW p)) t1 in
  run (Pipe (Echo var) (Read name)) true w
    = Ok 0 (mkWorld (<[name := (space_joined strs, false)]> (w_env w))
              (fd_set r None (fd_set wr None t2))
              (w_pipes w ++ [mkpipe EmptyString 0])
              (w_files w) (w_procs w) (w_threads w ++ [true; true])
              (w_nofile w) (w_nproc w) (w_program w) (w_stray w) (w_kind w) (w_stops w)).
Proof.
  intros Hget Hlim p r t1 wr t2.
  destruct (sys_pipe2_ok w Hlim) as (_ & Hne & Hr & Hwr).
  fold p r t1 wr in Hne, Hr, Hwr. fold t2 in Hr, Hwr.
  unfold run. rewrite start_Pipe_lhs_first by reflexivity.
  unfold mbind at 1 2, M_bind, bind at 1 2.
  cbn [Streams.in_ Streams.out Streams.err Streams.empty].
  rewrite (Echo_start_new _ w Hlim). fold p r t1 wr t2.
  cbn [get_streams Streams.out].
  unfold mbind at 1, M_bind, bind at 1.
  rewrite Read_start_bound.
  set (wA := set_fds (fun _ => t2) (set_pipes (fun ps => ps ++ [mkpipe EmptyString 1]) w)).
  set (wC := thread_created (thread_created wA)).
  assert (HpC : w_pipes wC !! p = Some (mkpipe EmptyString 1)).
  { cbn. apply list_lookup_middle. reflexivity. }
  pose proof (Echo_fun_resolved var strs (Z.of_nat r) wr p EmptyString 1 wC Hget Hwr HpC)
    as Hecho.
  unfold ret at 1. cbn [wait]. unfold mbind, M_bind, bind.
  erewrite thread_join_ok; [| |exact Hecho].
  2: { cbn. rewrite <- app_assoc. apply list_lookup_middle. reflexivity. }
  erewrite thread_join_ok; [| |apply (Read_fun_pipe_exact name r p Streams.None
                                       (space_joined strs +:+ nl))].
  2: { cbn. rewrite length_app. cbn. rewrite list_lookup_insert_ne by lia.
       apply list_lookup_middle. rewrite length_app. reflexivity. }
  2: { cbn. rewrite fd_set_lookup_ne; [exact Hr| |congruence].
       etransitivity; [apply (lowest_free_le t1)|apply length_fd_set]. }
  2: { cbn. rewrite list_lookup_alter_eq, list_lookup_insert_eq.
       - reflexivity.
       - rewrite length_app. cbn. lia. }
  rewrite strip_newline_append. unfold ret. f_equal.
  change (EmptyString +:+ space_joined strs +:+ nl) with (space_joined strs +:+ nl).
  subst wC wA. apply World_eq; project_world; try reflexivity.
  - fold p. apply pipes_closed.
  - apply threads_both_joined.
Qed.

(** X15.  An echo of arguments that all resolve, literal or variable,
    piped into a capture on a mutable [Environment] with room for two
    more descriptors, returns 0 and stores the resolved values joined by
    single spaces, not exported.  The variables are looked up when the
    echo runs, in the [Environment] of the run. *)
Theorem Echo_Read_resolved (var : list Gettable) (strs : list string) (name : string)
    (w : World) :
  get_all var (w_env w) = inr strs ->
  (nopen (w_fds w) + 2 <= w_nofile w)%nat ->
  exists w',
    run (Pipe (Echo var) (Read name)) true w = Ok 0 w'
    /\ w_env w' = <[name := (space_joined strs, false)]> (w_env w).
Proof.
  intros Hget Hlim. eexists. split; [apply (run_Echo_Read var strs name w Hget Hlim)|].
  reflexivity.
Qed.

(** The last line of the test [EchoRead]: two variables, a literal and a
    question mark. *)
Lemma Echo_Read_resolved_witness :
  let w := set_env (fun _ => <["test1" := ("Does", false)]> (<["test2" := ("echo", false)]> ∅))
                   demo_world in
  let var := [GettableVariable "test1"; GettableVariable "test2";
              GettableString "work"; GettableString "?"] in
  get_all var (w_env w) = inr ["Does"; "echo"; "work"; "?"]
  /\ (nopen (w_fds w) + 2 <= w_nofile w)%nat
  /\ exists w',
       run (Pipe (Echo var) (Read "out")) true w = Ok 0 w'
       /\ w_env w' !! "out" = Some ("Does echo work ?", false).
Proof.
  cbv zeta.
  assert (Hget : get_all [GettableVariable "test1"; GettableVariable "test2";
                          GettableString "work"; GettableString "?"]
                   (w_env (set_env (fun _ => <["test1" := ("Does", false)]>
                                               (<["test2" := ("echo", false)]> ∅))
                                   demo_world))
                 = inr ["Does"; "echo"; "work"; "?"]) by (vm_compute; reflexivity).
  assert (Hlim : (nopen (w_fds demo_world) + 2 <= w_nofile demo_world)%nat)
    by (vm_compute; lia).
  split; [exact Hget|]. split; [exact Hlim|].
  destruct (Echo_Read_resolved _ _ "out" _ Hget Hlim) as (w' & Hrun & Henv).
  exists w'. split; [exact Hrun|]. rewrite Henv. apply lookup_insert_eq.
Defined.

(** X16.  The same run leaves no descriptor behind and starts no
    process: every descriptor refers to what it referred to before (the
    two ends of the pipe are closed again), the files and the children
    are as they were, and both threads have been joined. *)
Theorem Echo_Read_closes_its_pipe (var : list Gettable) (strs : list string) (name : string)
    (w : World) :
  get_all var (w_env w) = inr strs ->
  (nopen (w_fds w) + 2 <= w_nofile w)%nat ->
  exists w',
    run (Pipe (Echo var) (Read name)) true w = Ok 0 w'
    /\ (forall fd, fd_lookup (w_fds w') fd = fd_lookup (w_fds w) fd)
    /\ w_procs w' = w_procs w
    /\ w_files w' = w_files w
    /\ w_threads w' = w_threads w ++ [true; true].
Proof.
  intros Hget Hlim. eexists. split; [apply (run_Echo_Read var strs name w Hget Hlim)|].
  cbn [w_fds w_procs w_files w_threads]. repeat split.
  intros fd. unfold fd_lookup. destruct (fd <? 0); [reflexivity|].
  apply fd_table_restored.
Qed.

Lemma Echo_Read_closes_its_pipe_witness :
  get_all [GettableString "text"] (w_env demo_world) = inr ["text"]
  /\ (nopen (w_fds demo_world) + 2 <= w_nofile demo_world)%nat
  /\ exists w',
       run (Pipe (Echo [GettableString "text"]) (Read "x")) true demo_world = Ok 0 w'
       /\ fd_lookup (w_fds w') 3 = None /\ fd_lookup (w_fds w') 4 = None
       /\ w_procs w' = [].
Proof.
  assert (Hlim : (nopen (w_fds demo_world) + 2 <= w_nofile demo_world)%nat)
    by (vm_compute; lia).
  split; [reflexivity|]. split; [exact Hlim|].
  destruct (Echo_Read_closes_its_pipe [GettableString "text"] ["text"] "x" demo_world
              eq_refl Hlim) as (w' & Hrun & Hfds & Hprocs & _).
  exists w'. split; [exact Hrun|]. rewrite !Hfds, Hprocs. repeat split.
Defined.

(** X17.  [read(name) << text] stores the text itself: the newline the
    echo appends is the one the capture strips, so a text that already
    ends in a newline keeps it. *)
Theorem here_string_round_trip (text : Gettable) (value name : string) (w : World) :
  get text (w_env w) = inr value ->
  (nopen (w_fds w) + 2 <= w_nofile w)%nat ->
  exists w',
    run (op_here (read name) text) true w = Ok 0 w'
    /\ w_env w' !! name = Some (value, false).
Proof.
  intros Hget Hlim.
  assert (Hall : get_all [text] (w_env w) = inr [value]).
  { cbn [get_all]. rewrite Hget. reflexivity. }
  eexists. split; [apply (run_Echo_Read [text] [value] name w Hall Hlim)|].
  cbn [w_env space_joined]. apply lookup_insert_eq.
Qed.

(** The second line of the test [EchoRead]. *)
Lemma here_string_round_trip_witness :
  get (GettableString "echo") (w_env demo_world) = inr "echo"
  /\ (nopen (w_fds demo_world) + 2 <= w_nofile demo_world)%nat
  /\ exists w',
       run (op_here (read "test2") (GettableString "echo")) true demo_world = Ok 0 w'
       /\ w_env w' !! "test2" = Some ("echo", false).
Proof.
  assert (Hlim : (nopen (w_fds demo_world) + 2 <= w_nofile demo_world)%nat)
    by (vm_compute; lia).
  split; [reflexivity|]. split; [exact Hlim|].
  exact (here_string_round_trip (GettableString "echo") "echo" "test2" demo_world
           eq_refl Hlim).
Defined.

(** X18.  An echo with an argument that names a missing variable does
    not throw to the caller of [run]: [start] succeeds, the lookup is
    made inside the echo's thread, and the [std::out_of_range] that
    leaves the thread function ends the program.  Nothing is captured. *)
Theorem Echo_missing_variable_terminates (var : list Gettable) (e : exn) (name : string)
    (w : World) :
  get_all var (w_env w) = inl e ->
  (nopen (w_fds w) + 2 <= w_nofile w)%nat ->
  exists w',
    run (Pipe (Echo var) (Read name)) true w = Terminate w'
    /\ w_env w' = w_env w.
Proof.
  intros Hget Hlim.
  destruct (sys_pipe2_ok w Hlim) as (_ & Hne & Hr & Hwr).
  set (p := length (w_pipes w)) in *.
  set (r := lowest_free (w_fds w)) in *.
  set (t1 := fd_set r (Some (PipeR p)) (w_fds w)) in *.
  set (wr := lowest_free t1) in *.
  unfold run. rewrite start_Pipe_lhs_first by reflexivity.
  unfold mbind at 1 2, M_bind, bind at 1 2.
  cbn [Streams.in_ Streams.out Streams.err Streams.empty].
  rewrite (Echo_start_new _ w Hlim). fold p r t1 wr.
  cbn [get_streams Streams.out].
  unfold mbind at 1, M_bind, bind at 1.
  rewrite Read_start_bound.
  set (wA := set_fds (fun _ => fd_set wr (Some (PipeW p)) t1)
               (set_pipes (fun ps => ps ++ [mkpipe EmptyString 1]) w)).
  set (wC := thread_created (thread_created wA)).
  destruct (echo_loop_missing var e 0 (length var) (Z.of_nat wr) p EmptyString 1 wC Hget)
    as (wD & Hloop & Henv).
  { rewrite fd_lookup_nat. exact Hwr. }
  { subst wC wA. project_world. apply list_lookup_middle. reflexivity. }
  unfold ret at 1. cbn [wait]. unfold mbind, M_bind, bind, thread_join.
  replace (w_threads wC !! length (w_threads w)) with (Some false).
  2: { subst wC wA. project_world. rewrite <- app_assoc. symmetry.
       apply list_lookup_middle. reflexivity. }
  unfold Echo_fun, mbind, M_bind, bind. cbn [snd]. rewrite Hloop.
  exists wD. split; [reflexivity|]. rewrite Henv. reflexivity.
Qed.

Lemma Echo_missing_variable_terminates_witness :
  get_all [GettableString "a"; GettableVariable "nope"] (w_env demo_world) = inl out_of_range
  /\ (nopen (w_fds demo_world) + 2 <= w_nofile demo_world)%nat
  /\ exists w',
       run (Pipe (Echo [GettableString "a"; GettableVariable "nope"]) (Read "x"))
           true demo_world = Terminate w'
       /\ w_env w' = w_env demo_world.
Proof.
  assert (Hlim : (nopen (w_fds demo_world) + 2 <= w_nofile demo_world)%nat)
    by (vm_compute; lia).
  split; [reflexivity|]. split; [exact Hlim|].
  exact (Echo_missing_variable_terminates [GettableString "a"; GettableVariable "nope"]
           out_of_range "x" demo_world eq_refl Hlim).
Defined.

(** ** Failing reads and writes *)

Lemma Echo_start_bound (var : list Gettable) (mut : bool) (fd : nat) (w : World) :
  start (Echo var) mut (Streams.mk Streams.None (Z.of_nat fd) Streams.None) w
    = Ok (RunThread (length (w_threads w)) (Echo_fun var (Streams.None, Z.of_nat fd))
            (Streams.mk Streams.None (Z.of_nat fd) Streams.None))
         (thread_created w).
Proof.
  cbn [start]. unfold Echo_start.
  assert (Hchk : check_streams (Echo var)
                   (Streams.mk Streams.None (Z.of_nat fd) Streams.None) = None).
  { apply check_streams_None. cbn. unfold slot_allowed, includes.
    split; [left; split; [reflexivity|vm_compute; discriminate]|].
    split; [right; right; split; [lia|vm_compute; discriminate]|].
    left; split; [reflexivity|vm_compute; discriminate]. }
  rewrite do_check_streams_pass by exact Hchk.
  unfold open_pipe. cbn [Streams.out Streams.in_ Streams.err].
  assert (H1 : (Z.of_nat fd =? Streams.None) = false)
    by (apply Z.eqb_neq; unfold Streams.None; lia).
  assert (H2 : (Z.of_nat fd =? Streams.New) = false)
    by (apply Z.eqb_neq; unfold Streams.New; lia).
  unfold mbind, M_bind, bind. rewrite H1, H2. reflexivity.
Qed.

Lemma thread_created_lookup (w : World) :
  w_threads (thread_created w) !! length (w_threads w) = Some false.
Proof. project_world. apply list_lookup_middle. reflexivity. Qed.

(** X19.  An echo reports a failed write only for the final newline.
    Started on a bound descriptor that is not open, an echo with at
    least one argument returns from its thread at the first failed write
    with its status still 0, while an echo without arguments has status
    [EBADF]. *)
Theorem Echo_masks_write_failure (g : Gettable) (rest : list Gettable) (s : string)
    (mut : bool) (fd : nat) (w : World) :
  fd_lookup (w_fds w) (Z.of_nat fd) = None ->
  get g (w_env w) = inr s ->
  let str := Streams.mk Streams.None (Z.of_nat fd) Streams.None in
  let joined := thread_joined (length (w_threads w)) (thread_created w) in
  (exists h, start (Echo (g :: rest)) mut str w = Ok h (thread_created w)
             /\ wait h (thread_created w) = Ok 0 joined)
  /\ (exists h, start (Echo []) mut str w = Ok h (thread_created w)
                /\ wait h (thread_created w) = Ok EBADF joined).
Proof.
  intros Hfd Hg str joined. subst str joined.
  assert (Hwrite : forall data, sys_write (Z.of_nat fd) data (thread_created w)
                                = Ok (inl EBADF) (thread_created w)).
  { intros data. unfold sys_write. project_world. rewrite Hfd. reflexivity. }
  split; eexists; (split; [apply Echo_start_bound|]); cbn [wait];
    apply thread_join_ok; try apply thread_created_lookup.
  - unfold Echo_fun. cbn [snd echo_loop echo_write].
    unfold mbind, M_bind, bind, gets. project_world. rewrite Hg, Hwrite. reflexivity.
  - unfold Echo_fun. cbn [snd echo_loop].
    unfold mbind, M_bind, bind, ret. rewrite Hwrite.
    unfold sys_close. project_world. rewrite Hfd. reflexivity.
Qed.

Lemma Echo_masks_write_failure_witness :
  fd_lookup (w_fds demo_world) (Z.of_nat 7) = None
  /\ get (GettableString "text") (w_env demo_world) = inr "text"
  /\ (exists h w1 w2,
         start (Echo [GettableString "text"]) true
               (Streams.mk Streams.None 7 Streams.None) demo_world = Ok h w1
         /\ wait h w1 = Ok 0 w2)
  /\ (exists h w1 w2,
         start (Echo []) true (Streams.mk Streams.None 7 Streams.None) demo_world = Ok h w1
         /\ wait h w1 = Ok 9 w2).
Proof.
  split; [reflexivity|]. split; [reflexivity|].
  destruct (Echo_masks_write_failure (GettableString "text") [] "text" true 7 demo_world
              eq_refl eq_refl) as ((h1 & Hs1 & Hw1) & (h2 & Hs2 & Hw2)).
  split; [exists h1|exists h2]; eexists _, _; split; eassumption.
Defined.

(** X20.  A capture whose read fails stores nothing: started on a bound
    descriptor that is not open, its status is [EBADF] and the
    [Environment] is as it was. *)
Theorem Read_failed_read_stores_nothing (name : string) (fd : nat) (w : World) :
  fd_lookup (w_fds w) (Z.of_nat fd) = None ->
  exists h w',
    start (Read name) true (Streams.mk (Z.of_nat fd) Streams.None Streams.None) w
      = Ok h (thread_created w)
    /\ wait h (thread_created w) = Ok EBADF w'
    /\ w_env w' = w_env w.
Proof.
  intros Hfd. eexists _, _. split; [apply Read_start_bound|]. split.
  - cbn [wait]. apply thread_join_ok; [apply thread_created_lookup|].
    unfold Read_fun, mbind, M_bind, bind, gets, pending. cbn [fst]. project_world.
    rewrite Hfd. cbn [read_loop]. unfold mbind, M_bind, bind, sys_read. project_world.
    rewrite Hfd. reflexivity.
  - reflexivity.
Qed.

Lemma Read_failed_read_stores_nothing_witness :
  fd_lookup (w_fds demo_world) (Z.of_nat 7) = None
  /\ exists h w',
       start (Read "x") true (Streams.mk 7 Streams.None Streams.None) demo_world
         = Ok h (thread_created demo_world)
       /\ wait h (thread_created demo_world) = Ok 9 w'
       /\ w_env w' !! "x" = None.
Proof.
  split; [reflexivity|].
  destruct (Read_failed_read_stores_nothing "x" 7 demo_world eq_refl)
    as (h & w' & Hs & Hw & Henv).
  exists h, w'. split; [exact Hs|]. split; [exact Hw|]. rewrite Henv. reflexivity.
Defined.

(** ** A command with a to-be-created stdout *)





(** ** Redirections to and from files *)

Lemma take_str_all (s : string) : take_str (String.length s) s = s.
Proof.
  induction s as [|c s IH]; [reflexivity|]. cbn [String.length take_str].
  rewrite IH. reflexivity.
Qed.

Lemma drop_str_all (s : string) (n : nat) : drop_str (String.length s + n) s = EmptyString.
Proof.
  induction s as [|c s IH]; [destruct n; reflexivity|]. cbn [String.length Nat.add drop_str].
  exact IH.
Qed.

Lemma length_append (a b : string) :
  String.length (a +:+ b) = (String.length a + String.length b)%nat.
Proof.
  induction a as [|c a IH]; [reflexivity|]. rewrite append_cons. cbn [String.length].
  rewrite IH. reflexivity.
Qed.

Lemma fd_set_twice (n : nat) (o1 o2 : option fdobj) (t : list (option fdobj)) :
  (n <= length t)%nat -> fd_set n o2 (fd_set n o1 t) = fd_set n o2 t.
Proof.
  intros Hn. unfold fd_set. destruct (n <? length t)%nat eqn:E.
  - rewrite length_insert, E. apply list_insert_insert_eq.
  - apply Nat.ltb_ge in E. assert (n = length t) by lia. subst n.
    rewrite length_app. cbn [length].
    replace (length t <? length t + 1)%nat with true by (symmetry; apply Nat.ltb_lt; lia).
    rewrite insert_app_r_alt by lia. rewrite Nat.sub_diag. reflexivity.
Qed.

Lemma fd_closed_restored (t : list (option fdobj)) (n : nat) :
  mjoin (fd_set (lowest_free t) None t !! n) = mjoin (t !! n).
Proof.
  destruct (decide (n = lowest_free t)) as [->|Hne].
  - rewrite fd_set_lookup_eq by apply lowest_free_le.
    rewrite lowest_free_is_free. reflexivity.
  - apply fd_set_lookup_ne; [apply lowest_free_le|congruence].
Qed.

Lemma nopen_closed (t : list (option fdobj)) : nopen (fd_set (lowest_free t) None t) = nopen t.
Proof.
  induction t as [|[x|] t IH]; try reflexivity.
  cbn [lowest_free]. rewrite fd_set_cons. cbn [nopen]. rewrite IH. reflexivity.
Qed.

Lemma with_file_thread_created (path : string) (flags : Z) (n : nat) (content : string)
    (pos : nat) (w : World) :
  thread_created (with_file path flags n content pos w)
    = with_file path flags n content pos (thread_created w).
Proof. reflexivity. Qed.

Lemma sys_write_file (path : string) (flags : Z) (n : nat) (content : string) (pos : nat)
    (data : string) (w : World) :
  (n <= length (w_fds w))%nat ->
  (acc_mode flags =? O_RDONLY) = false ->
  truthy (Z.land flags O_APPEND) = true \/ pos = String.length content ->
  sys_write (Z.of_nat n) data (with_file path flags n content pos w)
    = Ok (inr (Z.of_nat (String.length data)))
         (with_file path flags n (content +:+ data)
                    (String.length content + String.length data) w).
Proof.
  intros Hn Hacc Hend. unfold sys_write, with_file. project_world.
  rewrite fd_lookup_nat, fd_set_lookup_eq by exact Hn. cbn [mjoin option_join].
  rewrite Hacc. unfold file_write. project_world.
  rewrite lookup_insert_eq. cbn [default from_option id].
  assert (Hat : (if truthy (Z.land flags O_APPEND) then String.length content else pos)
                = String.length content).
  { destruct Hend as [-> | ->]; [reflexivity|]. destruct (truthy _); reflexivity. }
  rewrite Hat, take_str_all, drop_str_all, append_nil_r, Nat2Z.id. f_equal.
  apply World_eq; project_world; try reflexivity.
  - apply fd_set_twice. exact Hn.
  - apply insert_insert_eq.
Qed.

Lemma echo_write_file (fuel : nat) (path : string) (flags : Z) (n : nat) (content : string)
    (pos : nat) (str : string) (last : bool) (w : World) :
  (n <= length (w_fds w))%nat ->
  (acc_mode flags =? O_RDONLY) = false ->
  truthy (Z.land flags O_APPEND) = true \/ pos = String.length content ->
  exists pos',
    echo_write (S fuel) (Z.of_nat n) str 0 last (with_file path flags n content pos w)
      = Ok Next (with_file path flags n
                   (content +:+ str +:+ (if last then EmptyString else " ")) pos' w)
    /\ pos' = String.length (content +:+ str +:+ (if last then EmptyString else " ")).
Proof.
  intros Hn Hacc Hend. cbn [echo_write]. unfold mbind, M_bind, bind.
  replace (drop_str 0 str) with str by (destruct str; reflexivity).
  rewrite (sys_write_file path flags n content pos str w Hn Hacc Hend).
  rewrite Nat2Z.id, Nat.eqb_refl.
  unfold andM, mbind, M_bind, bind, ret. destruct last; cbn [negb].
  - rewrite append_nil_r. eexists. split; [reflexivity|].
    rewrite length_append. reflexivity.
  - rewrite (sys_write_file path flags n (content +:+ str) _ " " w Hn Hacc)
      by (right; rewrite length_append; reflexivity).
    rewrite append_assoc. eexists. split; [reflexivity|].
    rewrite <- append_assoc, !length_append. reflexivity.
Qed.

Lemma echo_loop_file (var : list Gettable) (strs : list string) (i size : nat)
    (path : string) (flags : Z) (n : nat) (content : string) (pos : nat) (w : World) :
  get_all var (w_env w) = inr strs ->
  (n <= length (w_fds w))%nat ->
  (acc_mode flags =? O_RDONLY) = false ->
  truthy (Z.land flags O_APPEND) = true \/ pos = String.length content ->
  size = (i + length var)%nat ->
  exists pos',
    echo_loop var i size (Z.of_nat n) (with_file path flags n content pos w)
      = Ok Next (with_file path flags n (content +:+ space_joined strs) pos' w)
    /\ (truthy (Z.land flags O_APPEND) = true
        \/ pos' = String.length (content +:+ space_joined strs)).
Proof.
  revert strs i content pos. induction var as [|g rest IH];
    intros strs i content pos Hget Hn Hacc Hend Hsize.
  - cbn [get_all] in Hget. injection Hget as <-. cbn [echo_loop space_joined].
    rewrite append_nil_r. exists pos. split; [reflexivity|exact Hend].
  - destruct (get_all_cons _ _ _ _ Hget) as (s & ss & -> & Hg & Hrest).
    cbn [echo_loop]. unfold mbind at 1, M_bind, bind at 1, gets.
    change (w_env (with_file path flags n content pos w)) with (w_env w). rewrite Hg.
    unfold mbind, M_bind, bind.
    destruct (echo_write_file (String.length s) path flags n content pos s
                (S i =? size)%nat w Hn Hacc Hend) as (pos1 & Hwrite & Hpos1).
    rewrite Hwrite.
    destruct (IH ss (S i) (content +:+ s +:+ (if (S i =? size)%nat then EmptyString else " "))
                pos1 Hrest Hn Hacc (or_intror Hpos1)) as (pos2 & Hloop & Hpos2).
    { cbn [length] in Hsize. lia. }
    rewrite Hloop.
    assert (Hjoin : (content +:+ s +:+ (if (S i =? size)%nat then EmptyString else " "))
                      +:+ space_joined ss
                    = content +:+ space_joined (s :: ss)).
    { destruct rest as [|g' rest'].
      - cbn [get_all] in Hrest. injection Hrest as <-. cbn [length] in Hsize.
        replace (S i =? size)%nat with true by (symmetry; apply Nat.eqb_eq; lia).
        cbn [space_joined]. rewrite !append_nil_r. reflexivity.
      - destruct (get_all_cons _ _ _ _ Hrest) as (s' & ss' & -> & _ & _).
        cbn [length] in Hsize.
        replace (S i =? size)%nat with false by (symmetry; apply Nat.eqb_neq; lia).
        cbn [space_joined]. rewrite !append_assoc. reflexivity. }
    rewrite Hjoin in *. exists pos2. split; [reflexivity|exact Hpos2].
Qed.

Lemma Echo_fun_file (var : list Gettable) (strs : list string) (x : Z)
    (path : string) (flags : Z) (n : nat) (content : string) (pos : nat) (w : World) :
  get_all var (w_env w) = inr strs ->
  (n <= length (w_fds w))%nat ->
  (acc_mode flags =? O_RDONLY) = false ->
  truthy (Z.land flags O_APPEND) = true \/ pos = String.length content ->
  Echo_fun var (x, Z.of_nat n) (with_file path flags n content pos w)
    = Ok 0 (set_fds (fd_set n None)
              (set_files (<[path := content +:+ space_joined strs +:+ nl]>) w)).
Proof.
  intros Hget Hn Hacc Hend. unfold Echo_fun. cbn [snd].
  destruct (echo_loop_file var strs 0 (length var) path flags n content pos w
              Hget Hn Hacc Hend eq_refl) as (pos1 & Hloop & Hpos1).
  unfold mbind, M_bind, bind. rewrite Hloop.
  rewrite (sys_write_file path flags n _ pos1 nl w Hn Hacc Hpos1).
  unfold sys_close, with_file. project_world.
  rewrite fd_lookup_nat, fd_set_lookup_eq by exact Hn. cbn [mjoin option_join].
  rewrite Nat2Z.id, append_assoc. unfold ret. f_equal.
  apply World_eq; project_world; try reflexivity.
  apply fd_set_twice. exact Hn.
Qed.

Lemma start_Pipe_rhs_first (lhs rhs : Subprocess) (mut : bool) (str : Streams.t) :
  check_streams (Pipe lhs rhs) str = None ->
  truthy (Z.land (StreamFlags.out (get_flags lhs)) StreamFlags.Create)
    && truthy (Z.land (StreamFlags.in_ (get_flags rhs)) StreamFlags.Accept) = false ->
  truthy (Z.land (StreamFlags.out (get_flags lhs)) StreamFlags.Accept)
    && truthy (Z.land (StreamFlags.in_ (get_flags rhs)) StreamFlags.Create) = true ->
  start (Pipe lhs rhs) mut str =
    (rhs_p ← start rhs mut (Streams.mk Streams.New (Streams.out str) Streams.None);
     lhs_p ← start lhs mut (Streams.mk (Streams.in_ str)
                                       (Streams.in_ (get_streams rhs_p)) Streams.None);
     ret (RunPipe lhs_p rhs_p)).
Proof.
  intros Hchk H1 H2. cbn [start].
  unfold mbind at 1, M_bind, bind at 1, do_check_streams. rewrite Hchk, H1, H2. reflexivity.
Qed.

(** The flags of a file opened for writing only. *)
Lemma File_flags_write (mode : Z) :
  truthy (Z.land mode File.Write) = true ->
  truthy (Z.land mode File.Read) = false ->
  truthy (Z.land (File_flags mode) O_CREAT) = true
  /\ (acc_mode (File_flags mode) =? O_RDONLY) = false
  /\ truthy (Z.land (File_flags mode) O_TRUNC) = negb (truthy (Z.land mode File.Append))
  /\ truthy (Z.land (File_flags mode) O_APPEND) = truthy (Z.land mode File.Append).
Proof.
  intros Hwr Hrd. unfold File_flags. rewrite Hwr, Hrd.
  destruct (truthy (Z.land mode File.Append)); repeat split; reflexivity.
Qed.

Lemma File_start_write (path : Gettable) (name : string) (mode : Z) (mut : bool) (w : World) :
  truthy (Z.land mode File.Write) = true ->
  truthy (Z.land mode File.Read) = false ->
  get path (w_env w) = inr name ->
  w_kind w name (File_flags mode) = Regular ->
  (nopen (w_fds w) + 1 <= w_nofile w)%nat ->
  start (File path mode) mut (Streams.mk Streams.New Streams.None Streams.None) w
    = Ok (RunEmpty (Streams.mk (Z.of_nat (lowest_free (w_fds w))) Streams.None Streams.None) 0)
         (with_file name (File_flags mode) (lowest_free (w_fds w))
            (if truthy (Z.land mode File.Append)
             then default EmptyString (w_files w !! name) else EmptyString)
            0 w).
Proof.
  intros Hwr Hrd Hget Hkind Hlim.
  destruct (File_flags_write mode Hwr Hrd) as (Hcreat & Hacc & Htrunc & _).
  cbn [start]. unfold File_start.
  assert (Hchk : check_streams (File path mode)
                   (Streams.mk Streams.New Streams.None Streams.None) = None).
  { unfold check_streams. cbn [get_flags StreamFlags.in_ StreamFlags.out StreamFlags.err].
    rewrite Hwr, Hrd. reflexivity. }
  rewrite do_check_streams_pass by exact Hchk.
  unfold mbind, M_bind, bind, gets. rewrite Hget. unfold sys_open.
  replace (w_nofile w <? nopen (w_fds w) + 1)%nat with false
    by (symmetry; apply Nat.ltb_ge; exact Hlim).
  rewrite Hkind, Hcreat, Htrunc, Hacc, Hwr, Hrd. cbn [negb andb].
  rewrite andb_true_r.
  destruct (w_files w !! name), (truthy (Z.land mode File.Append)); reflexivity.
Qed.

(** The run of an echo redirected to a file, with the state it ends in. *)
Lemma run_Echo_File (var : list Gettable) (strs : list string) (path : Gettable)
    (name : string) (mode : Z) (mut : bool) (w : World) :
  truthy (Z.land mode File.Write) = true ->
  truthy (Z.land mode File.Read) = false ->
  get path (w_env w) = inr name ->
  w_kind w name (File_flags mode) = Regular ->
  get_all var (w_env w) = inr strs ->
  (nopen (w_fds w) + 1 <= w_nofile w)%nat ->
  run (Pipe (Echo var) (File path mode)) mut w
    = Ok 0 (mkWorld (w_env w)
              (fd_set (lowest_free (w_fds w)) None (w_fds w))
              (w_pipes w)
              (<[name := (if truthy (Z.land mode File.Append)
                          then default EmptyString (w_files w !! name) else EmptyString)
                         +:+ space_joined strs +:+ nl]> (w_files w))
              (w_procs w) (w_threads w ++ [true])
              (w_nofile w) (w_nproc w) (w_program w) (w_stray w) (w_kind w) (w_stops w)).
Proof.
  intros Hwr Hrd Hpath Hkind Hget Hlim.
  destruct (File_flags_write mode Hwr Hrd) as (_ & Hacc & Htrunc & Happ).
  set (f := lowest_free (w_fds w)).
  set (content := if truthy (Z.land mode File.Append)
                  then default EmptyString (w_files w !! name) else EmptyString).
  assert (Hchk : check_streams (Pipe (Echo var) (File path mode)) Streams.empty = None).
  { unfold check_streams. cbn [get_flags StreamFlags.in_ StreamFlags.out StreamFlags.err].
    rewrite Hrd. reflexivity. }
  unfold run. rewrite (start_Pipe_rhs_first _ _ _ _ Hchk).
  2: { cbn [get_flags StreamFlags.in_ StreamFlags.out]. rewrite Hwr. reflexivity. }
  2: { cbn [get_flags StreamFlags.in_ StreamFlags.out]. rewrite Hwr. reflexivity. }
  unfold mbind at 1 2, M_bind, bind at 1 2.
  cbn [Streams.in_ Streams.out Streams.err Streams.empty].
  rewrite (File_start_write path name mode mut w Hwr Hrd Hpath Hkind Hlim). fold f content.
  cbn [get_streams Streams.in_]. unfold mbind at 1, M_bind, bind at 1.
  rewrite Echo_start_bound. unfold ret at 1. cbn [wait]. unfold mbind, M_bind, bind.
  rewrite with_file_thread_created.
  erewrite thread_join_ok;
    [|apply thread_created_lookup
     |apply (Echo_fun_file var strs Streams.None name (File_flags mode) f content 0
               (thread_created w) Hget)].
  - unfold ret. f_equal. apply World_eq; project_world; try reflexivity.
    apply threads_mark_joined.
  - apply lowest_free_le.
  - exact Hacc.
  - rewrite Happ. subst content. destruct (truthy (Z.land mode File.Append)); auto.
Qed.

(** X22.  For a path that names a regular file, or a name under which
    one can be created: [echo(...) > path] leaves in the file the
    resolved arguments joined by single spaces and a newline, whatever it
    held before; [echo(...) >> path] adds them to what it held (a missing
    file counts as empty).  Both return 0, leave the [Environment] as it
    was and close the descriptor they opened. *)
Theorem echo_to_file (var : list Gettable) (strs : list string) (path : Gettable)
    (name : string) (mut : bool) (w : World) :
  get path (w_env w) = inr name ->
  w_kind w name (File_flags File.Write) = Regular ->
  w_kind w name (File_flags (Z.lor File.Write File.Append)) = Regular ->
  get_all var (w_env w) = inr strs ->
  (nopen (w_fds w) + 1 <= w_nofile w)%nat ->
  (exists w',
      run (op_truncate (echo var) path) mut w = Ok 0 w'
      /\ w_files w' = <[name := space_joined strs +:+ nl]> (w_files w)
      /\ w_env w' = w_env w
      /\ nopen (w_fds w') = nopen (w_fds w)
      /\ forall fd, fd_lookup (w_fds w') fd = fd_lookup (w_fds w) fd)
  /\ (exists w',
         run (op_append (echo var) path) mut w = Ok 0 w'
         /\ w_files w' = <[name := default EmptyString (w_files w !! name)
                                   +:+ space_joined strs +:+ nl]> (w_files w)
         /\ w_env w' = w_env w
         /\ nopen (w_fds w') = nopen (w_fds w)
         /\ forall fd, fd_lookup (w_fds w') fd = fd_lookup (w_fds w) fd).
Proof.
  intros Hpath Hkind1 Hkind2 Hget Hlim.
  split; eexists; (split;
    [apply (run_Echo_File var strs path name _ mut w); try reflexivity; assumption|]);
    cbn [w_files w_env w_fds]; (split; [reflexivity|]); (split; [reflexivity|]);
    (split; [apply nopen_closed|]);
    intros fd; unfold fd_lookup; destruct (fd <? 0); try reflexivity;
    apply fd_closed_restored.
Qed.

Lemma echo_to_file_witness :
  get (GettableString "f") (w_env demo_world) = inr "f"
  /\ w_kind demo_world "f" (File_flags File.Write) = Regular
  /\ w_kind demo_world "f" (File_flags (Z.lor File.Write File.Append)) = Regular
  /\ get_all [GettableString "test1"] (w_env demo_world) = inr ["test1"]
  /\ (nopen (w_fds demo_world) + 1 <= w_nofile demo_world)%nat
  /\ exists w',
       run (op_truncate (echo [GettableString "test1"]) (GettableString "f")) true demo_world
         = Ok 0 w'
       /\ w_files w' !! "f" = Some ("test1" +:+ nl).
Proof.
  assert (Hlim : (nopen (w_fds demo_world) + 1 <= w_nofile demo_world)%nat)
    by (vm_compute; lia).
  split; [reflexivity|]. split; [reflexivity|]. split; [reflexivity|].
  split; [reflexivity|]. split; [exact Hlim|].
  destruct (proj1 (echo_to_file [GettableString "test1"] ["test1"] (GettableString "f") "f"
                     true demo_world eq_refl eq_refl eq_refl eq_refl Hlim))
    as (w' & Hrun & Hfiles & _).
  exists w'. split; [exact Hrun|]. rewrite Hfiles. apply lookup_insert_eq.
Defined.

Lemma take_str_S_empty (n : nat) (s : string) :
  take_str (S n) s = EmptyString -> s = EmptyString.
Proof. destruct s; [reflexivity|discriminate]. Qed.

Lemma drop_str_add (a b : nat) (s : string) :
  drop_str (a + b) s = drop_str b (drop_str a s).
Proof.
  revert s. induction a as [|a IH]; intros s; [reflexivity|].
  destruct s as [|c s]; [destruct b; reflexivity|]. cbn [Nat.add drop_str]. apply IH.
Qed.

Lemma drop_take_length (n : nat) (s : string) :
  drop_str (String.length (take_str n s)) s = drop_str n s.
Proof.
  revert s. induction n as [|n IH]; intros [|c s]; try reflexivity.
  cbn [take_str String.length drop_str]. apply IH.
Qed.

Lemma read_loop_file (fuel : nat) (path : string) (flags : Z) (n pos : nat) (out : string)
    (w : World) :
  mjoin (w_fds w !! n) = Some (FileD path flags pos) ->
  (acc_mode flags =? O_WRONLY) = false ->
  (String.length (default EmptyString (w_files w !! path)) - pos < fuel)%nat ->
  exists pos',
    read_loop fuel (Z.of_nat n) out w
      = Ok (inr (out +:+ drop_str pos (default EmptyString (w_files w !! path))))
           (set_fds (fd_set n (Some (FileD path flags pos'))) w).
Proof.
  set (content := default EmptyString (w_files w !! path)).
  revert pos out w content. induction fuel as [|fuel IH];
    intros pos out w content Hfd Hacc Hlen; [lia|].
  assert (Hn : (n <= length (w_fds w))%nat).
  { destruct (w_fds w !! n) eqn:E; [|discriminate].
    apply lookup_lt_Some in E. lia. }
  cbn [read_loop]. unfold mbind, M_bind, bind, sys_read.
  rewrite fd_lookup_nat, Hfd, Hacc, Nat2Z.id. fold content.
  destruct (take_str bufsz (drop_str pos content)) as [|c s] eqn:Hchunk.
  - apply take_str_S_empty in Hchunk. rewrite Hchunk, append_nil_r.
    eexists. reflexivity.
  - set (w1 := set_fds (fd_set n (Some (FileD path flags (pos + String.length (String c s))))) w).
    destruct (IH (pos + String.length (String c s))%nat (out +:+ String c s) w1)
      as (pos' & Hrun).
    + subst w1. project_world. rewrite fd_set_lookup_eq by exact Hn. reflexivity.
    + exact Hacc.
    + subst w1. project_world. fold content.
      pose proof (f_equal String.length Hchunk) as Hl.
      rewrite length_take_str, length_drop_str in Hl. cbn [String.length] in *. lia.
    + exists pos'. rewrite Hrun. subst w1. project_world. fold content. f_equal.
      * rewrite append_assoc. do 2 f_equal.
        rewrite <- Hchunk at 1. rewrite drop_str_add.
        rewrite <- Hchunk, drop_take_length. apply take_drop_str.
      * apply World_eq; project_world; try reflexivity.
        apply fd_set_twice. exact Hn.
Qed.

Lemma Read_fun_file (name path : string) (flags : Z) (n : nat) (x : Z) (w : World) :
  mjoin (w_fds w !! n) = Some (FileD path flags 0) ->
  (acc_mode flags =? O_WRONLY) = false ->
  Read_fun name (Z.of_nat n, x) w
    = Ok 0 (set_env (<[name := (strip_newline (default EmptyString (w_files w !! path)),
                               false)]>)
              (set_fds (fd_set n None) w)).
Proof.
  intros Hfd Hacc.
  assert (Hn : (n <= length (w_fds w))%nat).
  { destruct (w_fds w !! n) eqn:E; [|discriminate].
    apply lookup_lt_Some in E. lia. }
  unfold Read_fun, mbind at 1, M_bind, bind at 1, gets. cbn [fst].
  unfold pending. rewrite fd_lookup_nat, Hfd.
  destruct (read_loop_file (S (String.length (default EmptyString (w_files w !! path)) - 0))
              path flags n 0 EmptyString w Hfd Hacc) as (pos' & Hrun); [lia|].
  unfold mbind at 1, M_bind, bind at 1. rewrite Hrun.
  change (drop_str 0 ?s) with s.
  change (EmptyString +:+ ?s) with s.
  unfold mbind, M_bind, bind, sys_close. project_world.
  rewrite fd_lookup_nat, fd_set_lookup_eq by exact Hn. cbn [mjoin option_join].
  rewrite Nat2Z.id. unfold modify, ret. f_equal.
  apply World_eq; project_world; try reflexivity.
  apply fd_set_twice. exact Hn.
Qed.

Lemma File_start_read (path : Gettable) (name : string) (mode : Z) (mut : bool) (w : World) :
  truthy (Z.land mode File.Read) = true ->
  truthy (Z.land mode File.Write) = false ->
  get path (w_env w) = inr name ->
  w_kind w name (File_flags mode) = Regular ->
  (nopen (w_fds w) + 1 <= w_nofile w)%nat ->
  File_flags mode = Z.lor (Z.lor O_CLOEXEC O_CREAT) O_RDONLY
  /\ start (File path mode) mut (Streams.mk Streams.None Streams.New Streams.None) w
     = Ok (RunEmpty (Streams.mk Streams.None (Z.of_nat (lowest_free (w_fds w))) Streams.None) 0)
          (with_file name (File_flags mode) (lowest_free (w_fds w))
             (default EmptyString (w_files w !! name)) 0 w).
Proof.
  intros Hrd Hwr Hget Hkind Hlim.
  assert (Hflags : File_flags mode = Z.lor (Z.lor O_CLOEXEC O_CREAT) O_RDONLY).
  { unfold File_flags. rewrite Hrd, Hwr. reflexivity. }
  split; [exact Hflags|].
  cbn [start]. unfold File_start.
  assert (Hchk : check_streams (File path mode)
                   (Streams.mk Streams.None Streams.New Streams.None) = None).
  { unfold check_streams. cbn [get_flags StreamFlags.in_ StreamFlags.out StreamFlags.err].
    rewrite Hwr, Hrd. reflexivity. }
  rewrite do_check_streams_pass by exact Hchk.
  unfold mbind, M_bind, bind, gets. rewrite Hget. unfold sys_open.
  replace (w_nofile w <? nopen (w_fds w) + 1)%nat with false
    by (symmetry; apply Nat.ltb_ge; exact Hlim).
  rewrite Hkind, Hwr, Hrd, Hflags.
  destruct (w_files w !! name); reflexivity.
Qed.

(** The run of a capture reading from a file, with the state it ends in. *)
Lemma run_File_Read (path : Gettable) (fname : string) (mode : Z) (name : string) (w : World) :
  truthy (Z.land mode File.Read) = true ->
  truthy (Z.land mode File.Write) = false ->
  get path (w_env w) = inr fname ->
  w_kind w fname (File_flags mode) = Regular ->
  (nopen (w_fds w) + 1 <= w_nofile w)%nat ->
  run (Pipe (File path mode) (Read name)) true w
    = Ok 0 (mkWorld (<[name := (strip_newline (default EmptyString (w_files w !! fname)),
                               false)]> (w_env w))
              (fd_set (lowest_free (w_fds w)) None (w_fds w))
              (w_pipes w)
              (<[fname := default EmptyString (w_files w !! fname)]> (w_files w))
              (w_procs w) (w_threads w ++ [true])
              (w_nofile w) (w_nproc w) (w_program w) (w_stray w) (w_kind w) (w_stops w)).
Proof.
  intros Hrd Hwr Hpath Hkind Hlim.
  destruct (File_start_read path fname mode true w Hrd Hwr Hpath Hkind Hlim)
    as (Hflags & Hstart).
  set (f := lowest_free (w_fds w)) in *.
  set (content := default EmptyString (w_files w !! fname)) in *.
  assert (Hchk : check_streams (Pipe (File path mode) (Read name)) Streams.empty = None).
  { unfold check_streams. cbn [get_flags StreamFlags.in_ StreamFlags.out StreamFlags.err].
    rewrite Hwr. reflexivity. }
  unfold run. rewrite (start_Pipe_lhs_first _ _ _ _ Hchk).
  2: { cbn [get_flags StreamFlags.in_ StreamFlags.out]. rewrite Hrd. reflexivity. }
  unfold mbind at 1 2, M_bind, bind at 1 2.
  cbn [Streams.in_ Streams.out Streams.err Streams.empty].
  rewrite Hstart. cbn [get_streams Streams.out].
  unfold mbind at 1, M_bind, bind at 1.
  rewrite Read_start_bound. unfold ret at 1. cbn [wait]. unfold mbind, M_bind, bind, ret.
  rewrite with_file_thread_created.
  erewrite thread_join_ok;
    [|apply thread_created_lookup
     |apply (Read_fun_file name fname (File_flags mode) f Streams.None)].
  - f_equal. apply World_eq; unfold with_file; project_world; try reflexivity.
    + rewrite lookup_insert_eq. reflexivity.
    + apply fd_set_twice. apply lowest_free_le.
    + apply threads_mark_joined.
  - unfold with_file. project_world. rewrite fd_set_lookup_eq by apply lowest_free_le.
    reflexivity.
  - rewrite Hflags. reflexivity.
Qed.

(** X23.  For a path that names a regular file, or a name under which
    one can be created: [read(name) < path] stores the content of the
    file without its last newline, not exported, returns 0 and closes the
    descriptor it opened.  A file that does not exist is created empty
    and the empty text is stored. *)
Theorem read_from_file (path : Gettable) (fname name : string) (w : World) :
  get path (w_env w) = inr fname ->
  w_kind w fname (File_flags File.Read) = Regular ->
  (nopen (w_fds w) + 1 <= w_nofile w)%nat ->
  exists w',
    run (op_from (read name) path) true w = Ok 0 w'
    /\ w_env w' = <[name := (strip_newline (default EmptyString (w_files w !! fname)), false)]>
                    (w_env w)
    /\ w_files w' = <[fname := default EmptyString (w_files w !! fname)]> (w_files w)
    /\ nopen (w_fds w') = nopen (w_fds w)
    /\ forall fd, fd_lookup (w_fds w') fd = fd_lookup (w_fds w) fd.
Proof.
  intros Hpath Hkind Hlim. eexists.
  split; [apply (run_File_Read path fname File.Read name w eq_refl eq_refl Hpath Hkind Hlim)|].
  cbn [w_env w_files w_fds]. split; [reflexivity|]. split; [reflexivity|].
  split; [apply nopen_closed|].
  intros fd. unfold fd_lookup. destruct (fd <? 0); [reflexivity|]. apply fd_closed_restored.
Qed.

(** A file that is not there. *)
Lemma read_from_file_witness :
  get (GettableString "missing") (w_env demo_world) = inr "missing"
  /\ w_kind demo_world "missing" (File_flags File.Read) = Regular
  /\ (nopen (w_fds demo_world) + 1 <= w_nofile demo_world)%nat
  /\ w_files demo_world !! "missing" = None
  /\ exists w',
       run (op_from (read "x") (GettableString "missing")) true demo_world = Ok 0 w'
       /\ w_env w' !! "x" = Some (EmptyString, false)
       /\ w_files w' !! "missing" = Some EmptyString.
Proof.
  assert (Hlim : (nopen (w_fds demo_world) + 1 <= w_nofile demo_world)%nat)
    by (vm_compute; lia).
  split; [reflexivity|]. split; [reflexivity|]. split; [exact Hlim|]. split; [reflexivity|].
  destruct (read_from_file (GettableString "missing") "missing" "x" demo_world
              eq_refl eq_refl Hlim)
    as (w' & Hrun & Henv & Hfiles & _).
  exists w'. split; [exact Hrun|]. rewrite Henv, Hfiles.
  split; apply lookup_insert_eq.
Defined.

(** X24.  The script of the test [FileWriteRead], for a path that names
    a regular file, or a name under which one can be created, whatever
    the mode it is opened with: writing one echo to the file, appending a
    second one and reading the file back captures the two lines separated
    by a newline, whatever the file held before, and the file holds both
    lines, each ended by a newline. *)
Theorem file_round_trip (var1 var2 : list Gettable) (strs1 strs2 : list string)
    (path : Gettable) (fname name : string) (w : World) :
  get path (w_env w) = inr fname ->
  (forall mode, w_kind w fname (File_flags mode) = Regular) ->
  get_all var1 (w_env w) = inr strs1 ->
  get_all var2 (w_env w) = inr strs2 ->
  (nopen (w_fds w) + 1 <= w_nofile w)%nat ->
  exists w',
    run_script [op_truncate (echo var1) path;
                op_append (echo var2) path;
                op_from (read name) path] true w = Ok 0 w'
    /\ w_env w' !! name
         = Some (space_joined strs1 +:+ nl +:+ space_joined strs2, false)
    /\ w_files w' !! fname
         = Some (space_joined strs1 +:+ nl +:+ space_joined strs2 +:+ nl).
Proof.
  intros Hpath Hkind Hget1 Hget2 Hlim.
  pose proof (run_Echo_File var1 strs1 path fname File.Write true w
                eq_refl eq_refl Hpath (Hkind _) Hget1 Hlim) as Hrun1.
  match type of Hrun1 with _ = Ok 0 ?x => set (w1 := x) in * end.
  assert (Hlim1 : (nopen (w_fds w1) + 1 <= w_nofile w1)%nat).
  { subst w1. cbn [w_fds w_nofile]. rewrite nopen_closed. exact Hlim. }
  pose proof (run_Echo_File var2 strs2 path fname (Z.lor File.Write File.Append) true w1
                eq_refl eq_refl Hpath (Hkind _) Hget2 Hlim1) as Hrun2.
  match type of Hrun2 with _ = Ok 0 ?x => set (w2 := x) in * end.
  assert (Hlim2 : (nopen (w_fds w2) + 1 <= w_nofile w2)%nat).
  { subst w2. cbn [w_fds w_nofile]. rewrite nopen_closed. exact Hlim1. }
  pose proof (run_File_Read path fname File.Read name w2 eq_refl eq_refl Hpath
                (Hkind _) Hlim2) as Hrun3.
  match type of Hrun3 with _ = Ok 0 ?x => set (w3 := x) in * end.
  assert (Hfile1 : w_files w1 !! fname = Some (space_joined strs1 +:+ nl)).
  { subst w1. cbn [w_files]. apply lookup_insert_eq. }
  assert (Hfile2 : w_files w2 !! fname
                   = Some (space_joined strs1 +:+ nl +:+ space_joined strs2 +:+ nl)).
  { subst w2. cbn [w_files]. rewrite lookup_insert_eq, Hfile1.
    change (truthy (Z.land (Z.lor File.Write File.Append) File.Append)) with true.
    cbn [default from_option id]. rewrite !append_assoc. reflexivity. }
  exists w3. split.
  - cbn [run_script]. unfold op_truncate, op_append, op_from, echo, read, open.
    unfold mbind, M_bind, bind. rewrite Hrun1. cbn [Z.eqb negb].
    rewrite Hrun2. cbn [Z.eqb negb]. rewrite Hrun3. reflexivity.
  - subst w3. cbn [w_env w_files]. rewrite !lookup_insert_eq, Hfile2.
    cbn [default from_option id]. split; [|reflexivity].
    replace (space_joined strs1 +:+ nl +:+ space_joined strs2 +:+ nl)
      with ((space_joined strs1 +:+ nl +:+ space_joined strs2) +:+ nl)
      by (rewrite !append_assoc; reflexivity).
    rewrite strip_newline_append. reflexivity.
Qed.

(** The test itself: "test1", then "test2". *)
Lemma file_round_trip_witness :
  get (GettableString "tmpfile") (w_env demo_world) = inr "tmpfile"
  /\ (forall mode, w_kind demo_world "tmpfile" (File_flags mode) = Regular)
  /\ (nopen (w_fds demo_world) + 1 <= w_nofile demo_world)%nat
  /\ exists w',
       run_script [op_truncate (echo [GettableString "test1"]) (GettableString "tmpfile");
                   op_append (echo [GettableString "test2"]) (GettableString "tmpfile");
                   op_from (read "out") (GettableString "tmpfile")] true demo_world
         = Ok 0 w'
       /\ w_env w' !! "out" = Some ("test1" +:+ nl +:+ "test2", false).
Proof.
  assert (Hlim : (nopen (w_fds demo_world) + 1 <= w_nofile demo_world)%nat)
    by (vm_compute; lia).
  assert (Hkind : forall mode, w_kind demo_world "tmpfile" (File_flags mode) = Regular)
    by (intros mode; reflexivity).
  split; [reflexivity|]. split; [exact Hkind|]. split; [exact Hlim|].
  destruct (file_round_trip [GettableString "test1"] [GettableString "test2"]
              ["test1"] ["test2"] (GettableString "tmpfile") "tmpfile" "out" demo_world
              eq_refl Hkind eq_refl eq_refl Hlim) as (w' & Hrun & Henv & _).
  exists w'. split; [exact Hrun|exact Henv].
Defined.

(** ** Paths that cannot be opened, and the null device *)

Lemma sys_open_fails (path : string) (flags errno : Z) (w : World) :
  ((w_nofile w < nopen (w_fds w) + 1)%nat /\ errno = EMFILE)
  \/ ((nopen (w_fds w) + 1 <= w_nofile w)%nat /\ w_kind w path flags = NoAccess errno) ->
  sys_open path flags w = Ok (inl errno) w.
Proof.
  unfold sys_open. intros [[Hfull ->]|[Hroom Hkind]].
  - replace (w_nofile w <? nopen (w_fds w) + 1)%nat with true
      by (symmetry; apply Nat.ltb_lt; exact Hfull).
    reflexivity.
  - replace (w_nofile w <? nopen (w_fds w) + 1)%nat with false
      by (symmetry; apply Nat.ltb_ge; exact Hroom).
    rewrite Hkind. reflexivity.
Qed.

Lemma File_start_fails (path : Gettable) (name : string) (mode : Z) (mut : bool)
    (str : Streams.t) (errno : Z) (w : World) :
  check_streams (File path mode) str = None ->
  get path (w_env w) = inr name ->
  sys_open name (File_flags mode) w = Ok (inl errno) w ->
  start (File path mode) mut str w = Throw (system_error errno) w.
Proof.
  intros Hchk Hget Hopen. cbn [start]. unfold File_start.
  rewrite do_check_streams_pass by exact Hchk.
  unfold mbind, M_bind, bind, gets. rewrite Hget, Hopen. reflexivity.
Qed.

(** The request a pipe passes to a file on its right passes the file's
    check when the pipe's own check has passed. *)
Lemma File_check_in_pipe (path : Gettable) (mode : Z) (other : Subprocess) (str : Streams.t) :
  truthy (Z.land mode File.Write) = true ->
  check_streams (Pipe other (File path mode)) str = None ->
  check_streams (File path mode) (Streams.mk Streams.New (Streams.out str) Streams.None) = None.
Proof.
  intros Hwr Hchk. apply check_streams_None in Hchk as (_ & Hout & _).
  apply check_streams_None.
  cbn [get_flags StreamFlags.in_ StreamFlags.out StreamFlags.err
       Streams.in_ Streams.out Streams.err] in *.
  rewrite Hwr. split; [|split; [exact Hout|]].
  - right; left. split; [reflexivity|]. unfold includes. vm_compute. discriminate.
  - left. split; [reflexivity|]. unfold includes. vm_compute. discriminate.
Qed.

(** X26.  A path that cannot be opened: [File::start] throws
    [std::system_error] with the [errno] of [open], in the state it was
    called in, whether the descriptor table is full ([EMFILE]) or the
    path cannot be opened with these flags.  In a redirection the file is
    started before the other side, so [lhs > path] and [lhs >> path]
    throw before anything of [lhs] has been started, and so does
    [rhs < path]. *)
Theorem redirection_open_fails (other : Subprocess) (path : Gettable) (name : string)
    (mut : bool) (errno : Z) (w : World) :
  get path (w_env w) = inr name ->
  (forall mode,
     ((w_nofile w < nopen (w_fds w) + 1)%nat /\ errno = EMFILE)
     \/ ((nopen (w_fds w) + 1 <= w_nofile w)%nat
         /\ w_kind w name (File_flags mode) = NoAccess errno)) ->
  (forall mode str,
     check_streams (File path mode) str = None ->
     start (File path mode) mut str w = Throw (system_error errno) w)
  /\ (includes (StreamFlags.out (get_flags other)) StreamFlags.Accept ->
      includes (StreamFlags.in_ (get_flags other)) StreamFlags.Ignore ->
      run (op_truncate other path) mut w = Throw (system_error errno) w
      /\ run (op_append other path) mut w = Throw (system_error errno) w)
  /\ (includes (StreamFlags.in_ (get_flags other)) StreamFlags.Accept ->
      includes (StreamFlags.out (get_flags other)) StreamFlags.Ignore ->
      run (op_from other path) mut w = Throw (system_error errno) w).
Proof.
  intros Hget Hfail.
  assert (Hfile : forall mode str,
             check_streams (File path mode) str = None ->
             start (File path mode) mut str w = Throw (system_error errno) w).
  { intros mode str Hchk. apply (File_start_fails path name mode mut str errno w Hchk Hget).
    apply sys_open_fails. apply Hfail. }
  split; [exact Hfile|]. split.
  - intros Hacc Hign.
    assert (Hrun : forall mode,
               truthy (Z.land mode File.Write) = true ->
               truthy (Z.land mode File.Read) = false ->
               run (Pipe other (File path mode)) mut w = Throw (system_error errno) w).
    { intros mode Hwr Hrd.
      assert (Hchk : check_streams (Pipe other (File path mode)) Streams.empty = None).
      { apply check_streams_None.
        cbn [get_flags StreamFlags.in_ StreamFlags.out StreamFlags.err
             Streams.in_ Streams.out Streams.err Streams.empty].
        rewrite Hrd. split; [left; split; [reflexivity|exact Hign]|].
        split; left; (split; [reflexivity|]); unfold includes; vm_compute; discriminate. }
      unfold run. rewrite (start_Pipe_rhs_first _ _ _ _ Hchk).
      2: { cbn [get_flags StreamFlags.in_ StreamFlags.out]. rewrite Hwr.
           apply andb_false_r. }
      2: { cbn [get_flags StreamFlags.in_ StreamFlags.out]. rewrite Hwr.
           apply truthy_includes in Hacc. rewrite Hacc. reflexivity. }
      unfold mbind at 1 2, M_bind, bind at 1 2.
      rewrite Hfile; [reflexivity|].
      apply (File_check_in_pipe path mode other Streams.empty Hwr Hchk). }
    split; apply Hrun; reflexivity.
  - intros Hacc Hign.
    assert (Hchk : check_streams (Pipe (File path File.Read) other) Streams.empty = None).
    { apply check_streams_None.
      cbn [get_flags StreamFlags.in_ StreamFlags.out StreamFlags.err
           Streams.in_ Streams.out Streams.err Streams.empty].
      split; [left; split; [reflexivity|unfold includes; vm_compute; discriminate]|].
      split; left; (split; [reflexivity|exact Hign]). }
    unfold run, op_from, open. rewrite (start_Pipe_lhs_first _ _ _ _ Hchk).
    2: { cbn [get_flags StreamFlags.in_ StreamFlags.out].
         apply truthy_includes in Hacc. rewrite Hacc. reflexivity. }
    unfold mbind at 1 2, M_bind, bind at 1 2.
    rewrite Hfile; reflexivity.
Qed.

(** An echo into a file of a directory that does not exist. *)
Lemma redirection_open_fails_witness :
  get (GettableString "/nonexistent-dir/x") (w_env demo_world) = inr "/nonexistent-dir/x"
  /\ (forall mode,
        w_kind demo_world "/nonexistent-dir/x" (File_flags mode) = NoAccess ENOENT)
  /\ run (op_truncate (echo [GettableString "text"]) (GettableString "/nonexistent-dir/x"))
         true demo_world
       = Throw (system_error ENOENT) demo_world.
Proof.
  assert (Hroom : (nopen (w_fds demo_world) + 1 <= w_nofile demo_world)%nat)
    by (vm_compute; lia).
  assert (Hkind : forall mode,
             w_kind demo_world "/nonexistent-dir/x" (File_flags mode) = NoAccess ENOENT)
    by (intros mode; reflexivity).
  split; [reflexivity|]. split; [exact Hkind|].
  refine (proj1 (proj1 (proj2 (redirection_open_fails (echo [GettableString "text"])
                                 (GettableString "/nonexistent-dir/x") "/nonexistent-dir/x"
                                 true ENOENT demo_world eq_refl _)) _ _)).
  - intros mode. right. split; [exact Hroom|apply Hkind].
  - unfold includes. vm_compute. discriminate.
  - unfold includes. vm_compute. discriminate.
Defined.

(** *** The null device *)

Lemma File_start_null (path : Gettable) (name : string) (mode : Z) (mut : bool)
    (str : Streams.t) (w : World) :
  check_streams (File path mode) str = None ->
  get path (w_env w) = inr name ->
  w_kind w name (File_flags mode) = CharNull ->
  (nopen (w_fds w) + 1 <= w_nofile w)%nat ->
  start (File path mode) mut str w
    = Ok (RunEmpty
            (Streams.mk (if truthy (Z.land mode File.Write)
                         then Z.of_nat (lowest_free (w_fds w)) else Streams.None)
                        (if truthy (Z.land mode File.Read)
                         then Z.of_nat (lowest_free (w_fds w)) else Streams.None)
                        Streams.None) 0)
         (with_null (File_flags mode) (lowest_free (w_fds w)) w).
Proof.
  intros Hchk Hget Hkind Hlim. cbn [start]. unfold File_start.
  rewrite do_check_streams_pass by exact Hchk.
  unfold mbind, M_bind, bind, gets. rewrite Hget. unfold sys_open.
  replace (w_nofile w <? nopen (w_fds w) + 1)%nat with false
    by (symmetry; apply Nat.ltb_ge; exact Hlim).
  rewrite Hkind. reflexivity.
Qed.

Lemma sys_write_null (flags : Z) (n : nat) (data : string) (w : World) :
  (n <= length (w_fds w))%nat ->
  (acc_mode flags =? O_RDONLY) = false ->
  sys_write (Z.of_nat n) data (with_null flags n w)
    = Ok (inr (Z.of_nat (String.length data))) (with_null flags n w).
Proof.
  intros Hn Hacc. unfold sys_write, with_null. project_world.
  rewrite fd_lookup_nat, fd_set_lookup_eq by exact Hn. cbn [mjoin option_join].
  rewrite Hacc. reflexivity.
Qed.

Lemma echo_write_null (fuel : nat) (flags : Z) (n : nat) (str : string) (last : bool)
    (w : World) :
  (n <= length (w_fds w))%nat ->
  (acc_mode flags =? O_RDONLY) = false ->
  echo_write (S fuel) (Z.of_nat n) str 0 last (with_null flags n w)
    = Ok Next (with_null flags n w).
Proof.
  intros Hn Hacc. cbn [echo_write]. unfold mbind, M_bind, bind.
  replace (drop_str 0 str) with str by (destruct str; reflexivity).
  rewrite (sys_write_null flags n str w Hn Hacc).
  rewrite Nat2Z.id, Nat.eqb_refl.
  unfold andM, mbind, M_bind, bind, ret. destruct last; cbn [negb]; [reflexivity|].
  rewrite (sys_write_null flags n " " w Hn Hacc). reflexivity.
Qed.

Lemma echo_loop_null (var : list Gettable) (strs : list string) (i size : nat)
    (flags : Z) (n : nat) (w : World) :
  get_all var (w_env w) = inr strs ->
  (n <= length (w_fds w))%nat ->
  (acc_mode flags =? O_RDONLY) = false ->
  echo_loop var i size (Z.of_nat n) (with_null flags n w) = Ok Next (with_null flags n w).
Proof.
  revert strs i. induction var as [|g rest IH]; intros strs i Hget Hn Hacc; [reflexivity|].
  destruct (get_all_cons _ _ _ _ Hget) as (s & ss & -> & Hg & Hrest).
  cbn [echo_loop]. unfold mbind at 1, M_bind, bind at 1, gets.
  change (w_env (with_null flags n w)) with (w_env w). rewrite Hg.
  unfold mbind, M_bind, bind.
  rewrite (echo_write_null (String.length s) flags n s _ w Hn Hacc).
  apply (IH ss (S i) Hrest Hn Hacc).
Qed.

Lemma Echo_fun_null (var : list Gettable) (strs : list string) (x : Z)
    (flags : Z) (n : nat) (w : World) :
  get_all var (w_env w) = inr strs ->
  (n <= length (w_fds w))%nat ->
  (acc_mode flags =? O_RDONLY) = false ->
  Echo_fun var (x, Z.of_nat n) (with_null flags n w) = Ok 0 (set_fds (fd_set n None) w).
Proof.
  intros Hget Hn Hacc. unfold Echo_fun. cbn [snd].
  unfold mbind, M_bind, bind.
  rewrite (echo_loop_null var strs 0 (length var) flags n w Hget Hn Hacc).
  rewrite (sys_write_null flags n nl w Hn Hacc).
  unfold sys_close, with_null. project_world.
  rewrite fd_lookup_nat, fd_set_lookup_eq by exact Hn. cbn [mjoin option_join].
  rewrite Nat2Z.id. unfold ret. f_equal.
  apply World_eq; project_world; try reflexivity.
  apply fd_set_twice. exact Hn.
Qed.

(** The run of an echo redirected to the null device, with the state it
    ends in. *)
Lemma run_Echo_Null (var : list Gettable) (strs : list string) (path : Gettable)
    (name : string) (mode : Z) (mut : bool) (w : World) :
  truthy (Z.land mode File.Write) = true ->
  truthy (Z.land mode File.Read) = false ->
  get path (w_env w) = inr name ->
  w_kind w name (File_flags mode) = CharNull ->
  get_all var (w_env w) = inr strs ->
  (nopen (w_fds w) + 1 <= w_nofile w)%nat ->
  run (Pipe (Echo var) (File path mode)) mut w
    = Ok 0 (mkWorld (w_env w)
              (fd_set (lowest_free (w_fds w)) None (w_fds w))
              (w_pipes w) (w_files w) (w_procs w) (w_threads w ++ [true])
              (w_nofile w) (w_nproc w) (w_program w) (w_stray w) (w_kind w) (w_stops w)).
Proof.
  intros Hwr Hrd Hpath Hkind Hget Hlim.
  destruct (File_flags_write mode Hwr Hrd) as (_ & Hacc & _ & _).
  set (f := lowest_free (w_fds w)).
  assert (Hchk : check_streams (Pipe (Echo var) (File path mode)) Streams.empty = None).
  { unfold check_streams. cbn [get_flags StreamFlags.in_ StreamFlags.out StreamFlags.err].
    rewrite Hrd. reflexivity. }
  unfold run. rewrite (start_Pipe_rhs_first _ _ _ _ Hchk).
  2: { cbn [get_flags StreamFlags.in_ StreamFlags.out]. rewrite Hwr. reflexivity. }
  2: { cbn [get_flags StreamFlags.in_ StreamFlags.out]. rewrite Hwr. reflexivity. }
  unfold mbind at 1 2, M_bind, bind at 1 2.
  cbn [Streams.in_ Streams.out Streams.err Streams.empty].
  rewrite (File_start_null path name mode mut
             (Streams.mk Streams.New Streams.None Streams.None) w
             (File_check_in_pipe path mode (Echo var) Streams.empty Hwr Hchk)
             Hpath Hkind Hlim).
  fold f. rewrite Hwr, Hrd.
  cbn [get_streams Streams.in_]. unfold mbind at 1, M_bind, bind at 1.
  rewrite Echo_start_bound. unfold ret at 1. cbn [wait]. unfold mbind, M_bind, bind.
  change (thread_created (with_null (File_flags mode) f w))
    with (with_null (File_flags mode) f (thread_created w)).
  erewrite thread_join_ok;
    [|apply thread_created_lookup
     |apply (Echo_fun_null var strs Streams.None (File_flags mode) f (thread_created w) Hget)].
  - unfold ret. f_equal. apply World_eq; project_world; try reflexivity.
    apply threads_mark_joined.
  - apply lowest_free_le.
  - exact Hacc.
Qed.

Lemma Read_fun_null (name : string) (flags : Z) (n : nat) (x : Z) (w : World) :
  mjoin (w_fds w !! n) = Some (NullD flags) ->
  (acc_mode flags =? O_WRONLY) = false ->
  Read_fun name (Z.of_nat n, x) w
    = Ok 0 (set_env (<[name := (EmptyString, false)]>) (set_fds (fd_set n None) w)).
Proof.
  intros Hfd Hacc.
  unfold Read_fun, mbind at 1, M_bind, bind at 1, gets. cbn [fst].
  unfold pending. rewrite fd_lookup_nat, Hfd.
  cbn [read_loop]. unfold mbind, M_bind, bind, sys_read.
  rewrite fd_lookup_nat, Hfd, Hacc. unfold ret at 1.
  unfold sys_close. rewrite fd_lookup_nat, Hfd, Nat2Z.id. reflexivity.
Qed.

(** The run of a capture reading from the null device, with the state it
    ends in. *)
Lemma run_Null_Read (path : Gettable) (fname : string) (mode : Z) (name : string) (w : World) :
  truthy (Z.land mode File.Read) = true ->
  truthy (Z.land mode File.Write) = false ->
  get path (w_env w) = inr fname ->
  w_kind w fname (File_flags mode) = CharNull ->
  (nopen (w_fds w) + 1 <= w_nofile w)%nat ->
  run (Pipe (File path mode) (Read name)) true w
    = Ok 0 (mkWorld (<[name := (EmptyString, false)]> (w_env w))
              (fd_set (lowest_free (w_fds w)) None (w_fds w))
              (w_pipes w) (w_files w) (w_procs w) (w_threads w ++ [true])
              (w_nofile w) (w_nproc w) (w_program w) (w_stray w) (w_kind w) (w_stops w)).
Proof.
  intros Hrd Hwr Hpath Hkind Hlim.
  assert (Hflags : File_flags mode = Z.lor (Z.lor O_CLOEXEC O_CREAT) O_RDONLY).
  { unfold File_flags. rewrite Hrd, Hwr. reflexivity. }
  set (f := lowest_free (w_fds w)) in *.
  assert (Hchk : check_streams (Pipe (File path mode) (Read name)) Streams.empty = None).
  { unfold check_streams. cbn [get_flags StreamFlags.in_ StreamFlags.out StreamFlags.err].
    rewrite Hwr. reflexivity. }
  assert (Hchk' : check_streams (File path mode)
                    (Streams.mk Streams.None Streams.New Streams.None) = None).
  { unfold check_streams. cbn [get_flags StreamFlags.in_ StreamFlags.out StreamFlags.err].
    rewrite Hwr, Hrd. reflexivity. }
  unfold run. rewrite (start_Pipe_lhs_first _ _ _ _ Hchk).
  2: { cbn [get_flags StreamFlags.in_ StreamFlags.out]. rewrite Hrd. reflexivity. }
  unfold mbind at 1 2, M_bind, bind at 1 2.
  cbn [Streams.in_ Streams.out Streams.err Streams.empty].
  rewrite (File_start_null path fname mode true _ w Hchk' Hpath Hkind Hlim).
  fold f. rewrite Hwr, Hrd. cbn [get_streams Streams.out].
  unfold mbind at 1, M_bind, bind at 1.
  rewrite Read_start_bound. unfold ret at 1. cbn [wait]. unfold mbind, M_bind, bind, ret.
  change (thread_created (with_null (File_flags mode) f w))
    with (with_null (File_flags mode) f (thread_created w)).
  erewrite thread_join_ok;
    [|apply thread_created_lookup
     |apply (Read_fun_null name (File_flags mode) f Streams.None)].
  - f_equal. apply World_eq; unfold with_null; project_world; try reflexivity.
    + apply fd_set_twice. apply lowest_free_le.
    + apply threads_mark_joined.
  - unfold with_null. project_world. rewrite fd_set_lookup_eq by apply lowest_free_le.
    reflexivity.
  - rewrite Hflags. reflexivity.
Qed.

(** X27.  The null device keeps nothing: for a path that names it, the
    script that writes one echo, appends a second one and reads the path
    back returns 0 and captures the empty text, and no file has changed.
    Each line closes the descriptor it opened. *)
Theorem null_device_round_trip (var1 var2 : list Gettable) (strs1 strs2 : list string)
    (path : Gettable) (fname name : string) (w : World) :
  get path (w_env w) = inr fname ->
  (forall mode, w_kind w fname (File_flags mode) = CharNull) ->
  get_all var1 (w_env w) = inr strs1 ->
  get_all var2 (w_env w) = inr strs2 ->
  (nopen (w_fds w) + 1 <= w_nofile w)%nat ->
  exists w',
    run_script [op_truncate (echo var1) path;
                op_append (echo var2) path;
                op_from (read name) path] true w = Ok 0 w'
    /\ w_env w' = <[name := (EmptyString, false)]> (w_env w)
    /\ w_files w' = w_files w
    /\ nopen (w_fds w') = nopen (w_fds w).
Proof.
  intros Hpath Hkind Hget1 Hget2 Hlim.
  pose proof (run_Echo_Null var1 strs1 path fname File.Write true w
                eq_refl eq_refl Hpath (Hkind _) Hget1 Hlim) as Hrun1.
  match type of Hrun1 with _ = Ok 0 ?x => set (w1 := x) in * end.
  assert (Hlim1 : (nopen (w_fds w1) + 1 <= w_nofile w1)%nat).
  { subst w1. cbn [w_fds w_nofile]. rewrite nopen_closed. exact Hlim. }
  pose proof (run_Echo_Null var2 strs2 path fname (Z.lor File.Write File.Append) true w1
                eq_refl eq_refl Hpath (Hkind _) Hget2 Hlim1) as Hrun2.
  match type of Hrun2 with _ = Ok 0 ?x => set (w2 := x) in * end.
  assert (Hlim2 : (nopen (w_fds w2) + 1 <= w_nofile w2)%nat).
  { subst w2. cbn [w_fds w_nofile]. rewrite nopen_closed. exact Hlim1. }
  pose proof (run_Null_Read path fname File.Read name w2 eq_refl eq_refl Hpath
                (Hkind _) Hlim2) as Hrun3.
  match type of Hrun3 with _ = Ok 0 ?x => set (w3 := x) in * end.
  exists w3. split.
  - cbn [run_script]. unfold op_truncate, op_append, op_from, echo, read, open.
    unfold mbind, M_bind, bind. rewrite Hrun1. cbn [Z.eqb negb].
    rewrite Hrun2. cbn [Z.eqb negb]. rewrite Hrun3. reflexivity.
  - subst w3 w2 w1. cbn [w_env w_files w_fds].
    split; [reflexivity|]. split; [reflexivity|].
    rewrite !nopen_closed. reflexivity.
Qed.

(** The round trip of the test, through [dev::null]. *)
Lemma null_device_round_trip_witness :
  get (GettableString "/dev/null") (w_env demo_world) = inr "/dev/null"
  /\ (forall mode, w_kind demo_world "/dev/null" (File_flags mode) = CharNull)
  /\ (nopen (w_fds demo_world) + 1 <= w_nofile demo_world)%nat
  /\ exists w',
       run_script [op_truncate (echo [GettableString "test1"]) (GettableString "/dev/null");
                   op_append (echo [GettableString "test2"]) (GettableString "/dev/null");
                   op_from (read "out") (GettableString "/dev/null")] true demo_world
         = Ok 0 w'
       /\ w_env w' !! "out" = Some (EmptyString, false)
       /\ w_files w' = w_files demo_world.
Proof.
  assert (Hlim : (nopen (w_fds demo_world) + 1 <= w_nofile demo_world)%nat)
    by (vm_compute; lia).
  assert (Hkind : forall mode, w_kind demo_world "/dev/null" (File_flags mode) = CharNull)
    by (intros mode; reflexivity).
  split; [reflexivity|]. split; [exact Hkind|]. split; [exact Hlim|].
  destruct (null_device_round_trip [GettableString "test1"] [GettableString "test2"]
              ["test1"] ["test2"] (GettableString "/dev/null") "/dev/null" "out" demo_world
              eq_refl Hkind eq_refl eq_refl Hlim) as (w' & Hrun & Henv & Hfiles & _).
  exists w'. split; [exact Hrun|]. split; [|exact Hfiles].
  rewrite Henv. apply lookup_insert_eq.
Defined.
